(** * Denver waste notification: a shallow embedding of [main.py]

    The script loads a JSON configuration, fetches a week of collection
    events from the ReCollect calendar API, keeps the subjects of the
    flags on tomorrow's events and pushes a message through Pushover and
    ntfy.  A helper mode extracts the two calendar identifiers from a
    pasted curl command and stores them in the configuration file.

    The embedding follows the source function by function.  Python values
    are [None] and the JSON values, with Python's truthiness, [==], [in], [.get] and
    iteration; exceptions are an explicit outcome; the console, the clock,
    the configuration file and the network are fields of an explicit
    world that every effectful function threads through. *)

From Stdlib Require Import String Ascii List ZArith Bool Lia.
Import ListNotations.

Local Open Scope string_scope.
Local Open Scope Z_scope.
Local Open Scope list_scope.
Local Set Warnings "-register-all".

(* ================================================================= *)
(** ** Python values *)

Module Py.

(** Python values: [None], and the values [json.load] and
    [response.json()] produce.  Numbers are the integers; floating-point
    literals are outside the model.  A dict has string keys and keeps its
    items in insertion order. *)
Inductive value : Type :=
| VNone
| VBool (b : bool)
| VInt (n : Z)
| VStr (s : string)
| VList (items : list value)
| VDict (fields : list (string * value)).

(** The exceptions the script can meet.  [SystemExit] is what [sys.exit]
    raises; it is not an [Exception].  [ConnectionError], [HTTPError] and
    [InvalidJSONError] are the [requests.exceptions.RequestException]
    family ([response.json()] raises the last one on a body that is not
    JSON). *)
Inductive exn : Type :=
| AttributeError
| TypeError
| KeyError
| ValueError
| EOFError
| ConnectionError
| HTTPError (status : Z)
| InvalidJSONError
| SystemExit (code : Z).

Inductive outcome (A : Type) : Type :=
| Return (a : A)
| Raise (e : exn).
Arguments Return {A} a.
Arguments Raise {A} e.

Definition bindO {A B} (m : outcome A) (k : A -> outcome B) : outcome B :=
  match m with
  | Return a => k a
  | Raise e => Raise e
  end.

(** [except Exception] *)
Definition is_Exception (e : exn) : bool :=
  match e with
  | SystemExit _ => false
  | _ => true
  end.

(** [except requests.exceptions.RequestException] *)
Definition is_RequestException (e : exn) : bool :=
  match e with
  | ConnectionError | HTTPError _ | InvalidJSONError => true
  | _ => false
  end.

(** Truth value testing: [None], [False], zero and empty containers are
    false. *)
Definition truthy (v : value) : bool :=
  match v with
  | VNone => false
  | VBool b => b
  | VInt n => negb (n =? 0)
  | VStr s => negb (s =? EmptyString)%string
  | VList l => match l with [] => false | _ => true end
  | VDict d => match d with [] => false | _ => true end
  end.

(** [v is True] *)
Definition is_True (v : value) : bool :=
  match v with
  | VBool true => true
  | _ => false
  end.

Fixpoint lookup (key : string) (d : list (string * value)) : option value :=
  match d with
  | [] => None
  | (k, v) :: d' => if (k =? key)%string then Some v else lookup key d'
  end.

(** [d[key] = v] on the items of a dict: an existing key keeps its place,
    a new key goes last. *)
Fixpoint set_item (key : string) (v : value) (d : list (string * value))
  : list (string * value) :=
  match d with
  | [] => [(key, v)]
  | (k, w) :: d' =>
      if (k =? key)%string then (k, v) :: d' else (k, w) :: set_item key v d'
  end.

(** [a == b].  [True == 1] and [False == 0] hold as in Python; two dicts
    are equal when they have the same keys with equal values, whatever
    the order. *)
Fixpoint py_eq (a b : value) {struct a} : bool :=
  match a, b with
  | VNone, VNone => true
  | VBool x, VBool y => Bool.eqb x y
  | VBool x, VInt n => n =? (if x then 1 else 0)
  | VInt n, VBool x => n =? (if x then 1 else 0)
  | VInt m, VInt n => m =? n
  | VStr s, VStr t => (s =? t)%string
  | VList l, VList m =>
      (fix all2 (l m : list value) {struct l} : bool :=
         match l, m with
         | [], [] => true
         | x :: l', y :: m' => py_eq x y && all2 l' m'
         | _, _ => false
         end) l m
  | VDict d, VDict e =>
      (length d =? length e)%nat &&
      (fix all_in (d : list (string * value)) {struct d} : bool :=
         match d with
         | [] => true
         | (k, v) :: d' =>
             match lookup k e with
             | Some w => py_eq v w
             | None => false
             end && all_in d'
         end) d
  | _, _ => false
  end.

(** [x in l] for a list [l]. *)
Definition list_contains (x : value) (l : list value) : bool :=
  existsb (py_eq x) l.

Fixpoint is_prefix (p s : string) : bool :=
  match p, s with
  | EmptyString, _ => true
  | String a p', String b s' => (a =? b)%char && is_prefix p' s'
  | String _ _, EmptyString => false
  end.

(** [needle in hay] for two strings. *)
Fixpoint is_substring (needle hay : string) : bool :=
  is_prefix needle hay ||
  match hay with
  | EmptyString => false
  | String _ hay' => is_substring needle hay'
  end.

(** [x in c]: membership in a list, key membership in a dict (the keys
    are strings; a list or a dict is not hashable), substring test in a
    string; anything else is not a container. *)
Definition py_contains (x c : value) : outcome bool :=
  match c with
  | VList l => Return (list_contains x l)
  | VDict d =>
      match x with
      | VStr k => Return (match lookup k d with Some _ => true | None => false end)
      | VList _ | VDict _ => Raise TypeError
      | _ => Return false
      end
  | VStr s =>
      match x with
      | VStr n => Return (is_substring n s)
      | _ => Raise TypeError
      end
  | _ => Raise TypeError
  end.

(** [d.get(key, default)] on the items of a dict. *)
Definition get_or (key : string) (default : value) (d : list (string * value))
  : value :=
  match lookup key d with
  | Some v => v
  | None => default
  end.

(** [c.get(key, default)]: only dicts have [get]. *)
Definition py_get (c : value) (key : string) (default : value) : outcome value :=
  match c with
  | VDict d => Return (get_or key default d)
  | _ => Raise AttributeError
  end.

(** [c[key]] with a string key. *)
Definition py_getitem (c : value) (key : string) : outcome value :=
  match c with
  | VDict d =>
      match lookup key d with
      | Some v => Return v
      | None => Raise KeyError
      end
  | _ => Raise TypeError
  end.

(** [c[key] = v] with a string key: item assignment exists on dicts (and
    on lists, which refuse a string index). *)
Definition py_setitem (c : value) (key : string) (v : value) : outcome value :=
  match c with
  | VDict d => Return (VDict (set_item key v d))
  | _ => Raise TypeError
  end.

Fixpoint chars (s : string) : list value :=
  match s with
  | EmptyString => []
  | String a s' => VStr (String a EmptyString) :: chars s'
  end.

(** The items a [for] loop visits: the elements of a list, the keys of a
    dict, the characters of a string. *)
Definition py_iter (c : value) : outcome (list value) :=
  match c with
  | VList l => Return l
  | VDict d => Return (map (fun kv => VStr (fst kv)) d)
  | VStr s => Return (chars s)
  | _ => Raise TypeError
  end.

(** A [for] loop whose body updates the loop's variables [s] and may
    raise. *)
Fixpoint for_loop {A S : Type} (xs : list A) (body : A -> S -> outcome S)
  (s : S) : outcome S :=
  match xs with
  | [] => Return s
  | x :: xs' => bindO (body x s) (for_loop xs' body)
  end.

(** [sep.join(l)]: every item has to be a string. *)
Fixpoint strings_of (l : list value) : outcome (list string) :=
  match l with
  | [] => Return []
  | VStr s :: l' => bindO (strings_of l') (fun ss => Return (s :: ss))
  | _ :: _ => Raise TypeError
  end.

Definition py_join (sep : string) (l : list value) : outcome string :=
  bindO (strings_of l) (fun ss => Return (String.concat sep ss)).

End Py.
Import Py.

Declare Scope py_scope.
Delimit Scope py_scope with py.
Notation "x <-? e ;; k" := (bindO e (fun x => k))
  (at level 100, e at next level, right associativity) : py_scope.
Local Open Scope py_scope.

(* ================================================================= *)
(** ** Dates *)

Module Dates.

(** A reading of [datetime.datetime.now()].  The script only reads its
    date, so a reading is the proleptic Gregorian ordinal of the day
    ([date.toordinal()]: day 1 is 0001-01-01). *)
Definition datetime : Type := Z.

(** [d + datetime.timedelta(days=n)] *)
Definition add_days (d : datetime) (n : Z) : datetime := d + n.

(** [d.weekday()]: Monday is 0 and Sunday is 6. *)
Definition weekday (d : datetime) : Z := (d + 6) mod 7.

(** Year, month and day of an ordinal. *)
Definition civil (d : datetime) : Z * Z * Z :=
  let z := d + 305 in
  let era := z / 146097 in
  let doe := z - era * 146097 in
  let yoe := (doe - doe / 1460 + doe / 36524 - doe / 146096) / 365 in
  let doy := doe - (365 * yoe + yoe / 4 - yoe / 100) in
  let mp := (5 * doy + 2) / 153 in
  let day := doy - (153 * mp + 2) / 5 + 1 in
  let month := if mp <? 10 then mp + 3 else mp - 9 in
  let year := yoe + era * 400 + (if month <=? 2 then 1 else 0) in
  (year, month, day).

Definition digit (n : Z) : ascii := ascii_of_nat (48 + Z.to_nat (n mod 10)).

Definition pad2 (n : Z) : string :=
  String (digit (n / 10)) (String (digit n) EmptyString).

Definition pad4 (n : Z) : string :=
  String (digit (n / 1000)) (String (digit (n / 100)) (pad2 n)).

(** [d.strftime('%Y-%m-%d')], for the years 1000 to 9999. *)
Definition strftime_Ymd (d : datetime) : string :=
  let '(year, month, day) := civil d in
  (pad4 year ++ "-" ++ pad2 month ++ "-" ++ pad2 day)%string.

End Dates.
Import Dates.

(* ================================================================= *)
(** ** The world of a run *)

(** An f-string: literal text and formatted values, in order. *)
Inductive piece : Type :=
| Lit (s : string)
| Fmt (v : value)
| Exc (e : exn).

Definition fstring : Type := list piece.

Inductive http_method : Type := GET | POST.

(** The [data=] argument of a request. *)
Inductive body : Type :=
| NoBody
| Form (fields : list (string * value))
| Raw (text : string).

Record request : Type := mkRequest {
  method : http_method;
  url : fstring;
  params : list (string * string);
  headers : list (string * fstring);
  data : body
}.

(** What the network answers to a request: no answer at all (a transport
    error), or a response with its status code and its body, [None] when
    the body is not JSON. *)
Inductive reply : Type :=
| Unreachable
| Response (status : Z) (content : option value).

(** The configuration file: missing, present with a content [json.load]
    refuses, or present with the JSON value it encodes. *)
Inductive file : Type :=
| Absent
| Unparsable
| Holds (j : value).

Record world : Type := mkWorld {
  clock : nat -> datetime;      (* the successive readings of the clock *)
  ticks : nat;                  (* how many readings were taken *)
  stdin : list string;          (* the lines still to be read *)
  config_file : file;
  network : request -> reply;
  stdout : list fstring;        (* the lines printed so far *)
  sent : list request           (* the requests issued so far *)
}.

Definition set_ticks (w : world) (n : nat) : world :=
  mkWorld (clock w) n (stdin w) (config_file w) (network w) (stdout w) (sent w).

Definition set_stdin (w : world) (lines : list string) : world :=
  mkWorld (clock w) (ticks w) lines (config_file w) (network w) (stdout w)
          (sent w).

Definition set_config_file (w : world) (f : file) : world :=
  mkWorld (clock w) (ticks w) (stdin w) f (network w) (stdout w) (sent w).

Definition set_stdout (w : world) (lines : list fstring) : world :=
  mkWorld (clock w) (ticks w) (stdin w) (config_file w) (network w) lines
          (sent w).

Definition set_sent (w : world) (rs : list request) : world :=
  mkWorld (clock w) (ticks w) (stdin w) (config_file w) (network w)
          (stdout w) rs.

(** An effectful computation: it runs in a world, returns or raises, and
    leaves a world. *)
Definition M (A : Type) : Type := world -> outcome A * world.

Definition ret {A} (a : A) : M A := fun w => (Return a, w).

Definition raise {A} (e : exn) : M A := fun w => (Raise e, w).

Definition bind {A B} (m : M A) (k : A -> M B) : M B :=
  fun w =>
    match m w with
    | (Return a, w') => k a w'
    | (Raise e, w') => (Raise e, w')
    end.

Definition lift {A} (o : outcome A) : M A := fun w => (o, w).

(** [try: m except <catches> as e: handler e] *)
Definition try_except {A} (m : M A) (catches : exn -> bool)
  (handler : exn -> M A) : M A :=
  fun w =>
    match m w with
    | (Return a, w') => (Return a, w')
    | (Raise e, w') => if catches e then handler e w' else (Raise e, w')
    end.

Notation "x <- e ;; k" := (bind e (fun x => k))
  (at level 100, e at next level, right associativity) : py_scope.
Notation "e ;;; k" := (bind e (fun _ => k))
  (at level 100, right associativity) : py_scope.

Definition print (line : fstring) : M unit :=
  fun w => (Return tt, set_stdout w (stdout w ++ [line])).

(** [datetime.datetime.now()] *)
Definition datetime_now : M datetime :=
  fun w => (Return (clock w (ticks w)), set_ticks w (S (ticks w))).

(** [sys.exit(code)] *)
Definition sys_exit {A} (code : Z) : M A := raise (SystemExit code).

(** [os.path.exists(CONFIG_FILE)] *)
Definition path_exists : M bool :=
  fun w => (Return (match config_file w with Absent => false | _ => true end), w).

(** [with open(CONFIG_FILE, 'r') as f: json.load(f)] *)
Definition json_load : M value :=
  fun w =>
    match config_file w with
    | Holds j => (Return j, w)
    | _ => (Raise ValueError, w)
    end.

(** [with open(CONFIG_FILE, 'w') as f: json.dump(j, f, indent=4)] *)
Definition json_dump (j : value) : M unit :=
  fun w => (Return tt, set_config_file w (Holds j)).

(** [requests.get] and [requests.post]: the request goes out once; a
    transport error raises, any response is returned. *)
Definition requests_send (r : request) : M (Z * option value) :=
  fun w =>
    let w' := set_sent w (sent w ++ [r]) in
    match network w r with
    | Unreachable => (Raise ConnectionError, w')
    | Response status content => (Return (status, content), w')
    end.

(** [response.raise_for_status()]: the statuses 400 to 599 are HTTP
    errors. *)
Definition raise_for_status (response : Z * option value) : M unit :=
  let status := fst response in
  if (400 <=? status) && (status <? 600) then raise (HTTPError status)
  else ret tt.

(** [response.json()] *)
Definition response_json (response : Z * option value) : M value :=
  match snd response with
  | Some j => ret j
  | None => raise InvalidJSONError
  end.

(* ================================================================= *)
(** ** Regular expressions *)

(** [re.search] for the patterns the script uses: literal text, a
    character class under [*], and a capturing group around a character
    class under [+].  Repetition is greedy and gives characters back when
    the rest of the pattern fails; the text is a sequence of code points
    below 256. *)
Module Re.

Inductive atom : Type :=
| Text (t : string)
| Star (cls : ascii -> bool)
| Group (cls : ascii -> bool).

Definition pattern : Type := list atom.

Definition between (lo hi : nat) (c : ascii) : bool :=
  let n := nat_of_ascii c in (lo <=? n)%nat && (n <=? hi)%nat.

(** [[0-9]] *)
Definition digit_class (c : ascii) : bool := between 48 57 c.

(** [[0-9A-F-]] *)
Definition hex_dash_class (c : ascii) : bool :=
  between 48 57 c || between 65 70 c || (c =? "-")%char.

(** [\s], which is also what [str.strip] removes. *)
Definition isspace (c : ascii) : bool :=
  between 9 13 c || between 28 32 c ||
  (nat_of_ascii c =? 133)%nat || (nat_of_ascii c =? 160)%nat.

Fixpoint strip_prefix (t s : string) : option string :=
  match t, s with
  | EmptyString, _ => Some s
  | String a t', String b s' =>
      if (a =? b)%char then strip_prefix t' s' else None
  | String _ _, EmptyString => None
  end.

(** The longest run of [cls] first, then shorter ones, until the
    continuation [k] accepts what was taken and what is left. *)
Fixpoint greedy {R : Type} (cls : ascii -> bool) (taken s : string)
  (k : string -> string -> option R) : option R :=
  match s with
  | String c s' =>
      if cls c then
        match greedy cls (taken ++ String c EmptyString)%string s' k with
        | Some r => Some r
        | None => k taken s
        end
      else k taken s
  | EmptyString => k taken s
  end.

(** A match of the pattern at the start of [s]: its groups, in order. *)
Fixpoint match_here (pat : pattern) (s : string) : option (list string) :=
  match pat with
  | [] => Some []
  | Text t :: rest =>
      match strip_prefix t s with
      | Some s' => match_here rest s'
      | None => None
      end
  | Star cls :: rest =>
      greedy cls EmptyString s (fun _ s' => match_here rest s')
  | Group cls :: rest =>
      greedy cls EmptyString s
        (fun g s' =>
           if (g =? EmptyString)%string then None
           else option_map (cons g) (match_here rest s'))
  end.

(** [re.search(pat, s)]: the match at the leftmost position that has
    one. *)
Fixpoint search (pat : pattern) (s : string) : option (list string) :=
  match match_here pat s with
  | Some groups => Some groups
  | None =>
      match s with
      | EmptyString => None
      | String _ s' => search pat s'
      end
  end.

(** [m.group(n)] for [n >= 1]. *)
Definition group (m : list string) (n : nat) : value :=
  VStr (nth (n - 1) m EmptyString).

(** [s.strip()] *)
Fixpoint lstrip (s : string) : string :=
  match s with
  | String c s' => if isspace c then lstrip s' else s
  | EmptyString => EmptyString
  end.

Fixpoint rstrip (s : string) : string :=
  match s with
  | String c s' =>
      match rstrip s' with
      | EmptyString => if isspace c then EmptyString else String c EmptyString
      | r => String c r
      end
  | EmptyString => EmptyString
  end.

Definition strip (s : string) : string := rstrip (lstrip s).

End Re.

(* ================================================================= *)
(** ** The script *)

Definition nl : string := String (ascii_of_nat 10) EmptyString.

(** [CONFIG_FILE = Path(__file__).parent / "config.json"], as it prints. *)
Definition CONFIG_FILE : string := "config.json".

Fixpoint print_all (lines : list string) : M unit :=
  match lines with
  | [] => ret tt
  | line :: rest => print [Lit line] ;;; print_all rest
  end.

Definition config_help_lines : list string :=
    [ (nl ++ "=== HOW TO FIND YOUR RECOLLECT IDs ===")%string;
      "To find your place_id and service_id:";
      "1. Visit your local waste management website that uses ReCollect";
      "2. Open the collection calendar page";
      "3. Open browser developer tools (F12 or right-click -> Inspect)";
      "4. Go to the Network tab";
      "5. Refresh the page and look for requests to api.recollect.net";
      "6. Find a request URL like:";
      "   https://api.recollect.net/api/places/[PLACE_ID]/services/[SERVICE_ID]/events";
      EmptyString;
      "Alternatively, you can:";
      "1. Open browser developer tools on your waste collection calendar";
      "2. In the Console tab, paste and run this JavaScript:";
      "   console.log(document.querySelector('body').innerHTML.match(/places\/([0-9A-F-]+)/)[1]);";
      "   console.log(document.querySelector('body').innerHTML.match(/services\/([0-9]+)/)[1]);";
      EmptyString;
      "Another method:";
      "1. Copy a cURL command from the Network tab in developer tools";
      "2. Look for the place ID and service ID in the URL";
      "   They may also appear in the X-Recollect-Place header as: [PLACE_ID]:[SERVICE_ID]";
      (nl ++ "Example values:")%string;
      "place_id: XXXXXXXX-XXXX-XXXX-XXXX-XXXXXXXXXXXX (a UUID format)";
      "service_id: XXX (a numeric ID)";
      ("=======================================" ++ nl)%string ].

Definition print_config_help : M unit := print_all config_help_lines.

Definition default_config : value :=
  VDict
    [ ("recollect",
       VDict [ ("place_id", VStr EmptyString);
               ("service_id", VStr EmptyString) ]);
      ("notifications",
       VDict
         [ ("pushover",
            VDict [ ("enabled", VBool false);
                    ("user_key", VStr EmptyString);
                    ("api_token", VStr EmptyString) ]);
           ("ntfy",
            VDict [ ("enabled", VBool false);
                    ("topic", VStr EmptyString) ]) ]) ].

(** [c.get(k1, {}).get(k2, default)] *)
Definition get2 (c : value) (k1 k2 : string) (default : value)
  : outcome value :=
  inner <-? py_get c k1 (VDict []) ;;
  py_get inner k2 default.

(** [c.get(k1, {}).get(k2, {}).get(k3, default)] *)
Definition get3 (c : value) (k1 k2 k3 : string) (default : value)
  : outcome value :=
  inner <-? get2 c k1 k2 (VDict []) ;;
  py_get inner k3 default.

(** [not a or not b], where [b] is only evaluated when [a] is true. *)
Definition not_or_not (a b : outcome value) : outcome bool :=
  x <-? a ;;
  if negb (truthy x) then Return true
  else y <-? b ;; Return (negb (truthy y)).

Definition load_config : M value :=
  present <- path_exists ;;
  if negb present then
    json_dump default_config ;;;
    print [Lit "Config file created at "; Lit CONFIG_FILE] ;;;
    print [Lit "Please edit this file to add your configuration."] ;;;
    print_config_help ;;;
    sys_exit 1
  else
    try_except
      (config <- json_load ;;
       missing <- lift (not_or_not (get2 config "recollect" "place_id" VNone)
                                   (get2 config "recollect" "service_id" VNone)) ;;
       if missing then
         print [Lit "Missing required ReCollect configuration in ";
                Lit CONFIG_FILE] ;;;
         print_config_help ;;;
         sys_exit 1
       else
         pushover_enabled <-
           lift (get3 config "notifications" "pushover" "enabled" (VBool false)) ;;
         ntfy_enabled <-
           lift (get3 config "notifications" "ntfy" "enabled" (VBool false)) ;;
         (if truthy pushover_enabled then
            pushover_config <-
              lift (get2 config "notifications" "pushover" (VDict [])) ;;
            incomplete <-
              lift (not_or_not (py_get pushover_config "user_key" VNone)
                               (py_get pushover_config "api_token" VNone)) ;;
            if incomplete then
              print [Lit "Pushover is enabled but missing required configuration"] ;;;
              print [Lit "Please update your configuration file."] ;;;
              sys_exit 1
            else ret tt
          else ret tt) ;;;
         (if truthy ntfy_enabled then
            ntfy_config <-
              lift (get2 config "notifications" "ntfy" (VDict [])) ;;
            topic <- lift (py_get ntfy_config "topic" VNone) ;;
            if negb (truthy topic) then
              print [Lit "ntfy.sh is enabled but missing required topic"] ;;;
              print [Lit "Please update your configuration file."] ;;;
              sys_exit 1
            else ret tt
          else ret tt) ;;;
         (if negb (truthy pushover_enabled) && negb (truthy ntfy_enabled) then
            print [Lit "No notification methods are enabled in the configuration"] ;;;
            print [Lit "Please enable at least one notification method."] ;;;
            sys_exit 1
          else ret tt) ;;;
         ret config)
      is_Exception
      (fun e =>
         print [Lit "Error loading config file: "; Exc e] ;;;
         sys_exit 1).

Definition places_pattern : Re.pattern :=
  [Re.Text "places/"; Re.Group Re.hex_dash_class].

Definition services_pattern : Re.pattern :=
  [Re.Text "services/"; Re.Group Re.digit_class].

Definition header_pattern : Re.pattern :=
  [Re.Text "X-Recollect-Place:"; Re.Star Re.isspace;
   Re.Group Re.hex_dash_class; Re.Text ":"; Re.Group Re.digit_class].

(** The searches never raise on a string, so the [try] around them has
    nothing to catch. *)
Definition extract_ids_from_curl (curl_command : string) : value * value :=
  let place_match := Re.search places_pattern curl_command in
  let service_match := Re.search services_pattern curl_command in
  let header_match := Re.search header_pattern curl_command in
  let place_id := VNone in
  let service_id := VNone in
  let place_id :=
    match place_match with Some m => Re.group m 1 | None => place_id end in
  let service_id :=
    match service_match with Some m => Re.group m 1 | None => service_id end in
  let place_id :=
    match header_match with
    | Some m => if negb (truthy place_id) then Re.group m 1 else place_id
    | None => place_id
    end in
  let service_id :=
    match header_match with
    | Some m => if negb (truthy service_id) then Re.group m 2 else service_id
    | None => service_id
    end in
  if truthy place_id && truthy service_id then (place_id, service_id)
  else (VNone, VNone).

(** The [while True] loop of [extract_ids], by recursion on the lines left
    on standard input: each turn takes one line as [input()] does, and
    [input()] raises [EOFError] when no line is left.  The loop returns
    the lines before the first blank one and what is left after it. *)
Fixpoint read_paste (lines curl_lines : list string)
  : outcome (list string) * list string :=
  match lines with
  | [] => (Raise EOFError, [])
  | line :: rest =>
      if negb (truthy (VStr (Re.strip line))) then (Return curl_lines, rest)
      else read_paste rest (curl_lines ++ [line])
  end.

Definition input_until_blank : M (list string) :=
  fun w =>
    let '(o, rest) := read_paste (stdin w) [] in
    (o, set_stdin w rest).

Definition extract_ids : M unit :=
  print [Lit "Please paste a curl command from your waste collection website's network requests."] ;;;
  print [Lit "(Right-click a request in browser dev tools Network tab -> Copy as cURL)"] ;;;
  print [Lit "Press Enter twice when done pasting:"] ;;;
  curl_lines <- input_until_blank ;;
  let curl_command := String.concat " " curl_lines in
  let '(place_id, service_id) := extract_ids_from_curl curl_command in
  if truthy place_id && truthy service_id then
    print [Lit (nl ++ "Extracted IDs:")%string] ;;;
    print [Lit "place_id: "; Fmt place_id] ;;;
    print [Lit "service_id: "; Fmt service_id] ;;;
    try_except
      (present <- path_exists ;;
       config <-
         (if present then json_load
          else
            ret (VDict
                   [ ("recollect", VDict []);
                     ("notifications",
                      VDict
                        [ ("pushover",
                           VDict [ ("enabled", VBool false);
                                   ("user_key", VStr EmptyString);
                                   ("api_token", VStr EmptyString) ]);
                          ("ntfy",
                           VDict [ ("enabled", VBool false);
                                   ("topic", VStr EmptyString) ]) ]) ])) ;;
       config <-
         lift (py_setitem config "recollect"
                 (VDict [ ("place_id", place_id);
                          ("service_id", service_id) ])) ;;
       json_dump config ;;;
       print [Lit (nl ++ "Updated config file with these IDs: ")%string;
              Lit CONFIG_FILE])
      is_Exception
      (fun e => print [Lit "Error updating config file: "; Exc e])
  else
    print [Lit (nl ++ "Could not extract the IDs from the provided curl command.")%string] ;;;
    print [Lit "Please make sure you copied a valid curl command from the ReCollect API."].

Definition get_collection_data (config : value) : M value :=
  now <- datetime_now ;;
  let today := strftime_Ymd now in
  now <- datetime_now ;;
  let end_date := strftime_Ymd (add_days now 7) in
  recollect_config <- lift (py_get config "recollect" (VDict [])) ;;
  place_id <- lift (py_get recollect_config "place_id" VNone) ;;
  service_id <- lift (py_get recollect_config "service_id" VNone) ;;
  let api_url :=
    [Lit "https://api.recollect.net/api/places/"; Fmt place_id;
     Lit "/services/"; Fmt service_id; Lit "/events"] in
  let params :=
    [ ("nomerge", "1"); ("hide", "reminder_only"); ("after", today);
      ("before", end_date); ("locale", "en-US");
      ("include_message", "email") ] in
  let headers :=
    [ ("User-Agent", [Lit "Mozilla/5.0"]);
      ("Content-Type", [Lit "application/json"]);
      ("X-Recollect-Place", [Fmt place_id; Lit ":"; Fmt service_id]);
      ("X-Recollect-Locale", [Lit "en-US"]) ] in
  try_except
    (response <- requests_send (mkRequest GET api_url params headers NoBody) ;;
     raise_for_status response ;;;
     response_json response)
    is_RequestException
    (fun e =>
       print [Lit "Error fetching collection data: "; Exc e] ;;;
       ret VNone).

(** The body of the inner loop of [get_tomorrow_collections], over the
    flags of one event. *)
Definition flag_step (flag : value) (collection_types : list value)
  : outcome (list value) :=
  collection_type <-? py_get flag "subject" VNone ;;
  if truthy collection_type
     && negb (list_contains collection_type collection_types)
  then Return (collection_types ++ [collection_type])
  else Return collection_types.

(** The body of the outer loop, over the events of the payload. *)
Definition event_step (tomorrow : string) (event : value)
  (collection_types : list value) : outcome (list value) :=
  day <-? py_get event "day" VNone ;;
  if py_eq day (VStr tomorrow) then
    flags <-? py_get event "flags" (VList []) ;;
    flags <-? py_iter flags ;;
    for_loop flags flag_step collection_types
  else Return collection_types.

Definition get_tomorrow_collections (data : value) : M (list value) :=
  nothing <-
    (if negb (truthy data) then ret true
     else present <- lift (py_contains (VStr "events") data) ;;
          ret (negb present)) ;;
  if nothing then ret []
  else
    now <- datetime_now ;;
    let tomorrow := strftime_Ymd (add_days now 1) in
    events <- lift (py_getitem data "events") ;;
    events <- lift (py_iter events) ;;
    let collection_types := [] in
    lift (for_loop events (event_step tomorrow) collection_types).

(** The message both dispatchers compose (lines 248-251 and 276-279 are
    the same statement). *)
Definition compose_message (collection_types : list value) : outcome string :=
  if negb (truthy (VList collection_types)) then
    Return "No waste collection scheduled for tomorrow."
  else
    joined <-? py_join ", " collection_types ;;
    Return ("Tomorrow's collection includes: " ++ joined ++ ".")%string.

Definition pushover_url : fstring :=
  [Lit "https://api.pushover.net/1/messages.json"].

Definition send_pushover_notification (collection_types : list value)
  (config : value) : M bool :=
  pushover_config <- lift (get2 config "notifications" "pushover" (VDict [])) ;;
  enabled <- lift (py_get pushover_config "enabled" (VBool false)) ;;
  if negb (truthy enabled) then ret false
  else
    message <- lift (compose_message collection_types) ;;
    try_except
      (api_token <- lift (py_get pushover_config "api_token" VNone) ;;
       user_key <- lift (py_get pushover_config "user_key" VNone) ;;
       response <-
         requests_send
           (mkRequest POST pushover_url [] []
              (Form [ ("token", api_token);
                      ("user", user_key);
                      ("title", VStr "Tomorrow's Waste Collection");
                      ("message", VStr message) ])) ;;
       raise_for_status response ;;;
       print [Lit "Pushover notification sent successfully"] ;;;
       ret true)
      is_RequestException
      (fun e =>
         print [Lit "Error sending Pushover notification: "; Exc e] ;;;
         ret false).

Definition ntfy_url (topic : value) : fstring :=
  [Lit "https://ntfy.sh/"; Fmt topic].

Definition send_ntfy_notification (collection_types : list value)
  (config : value) : M bool :=
  ntfy_config <- lift (get2 config "notifications" "ntfy" (VDict [])) ;;
  enabled <- lift (py_get ntfy_config "enabled" (VBool false)) ;;
  if negb (truthy enabled) then ret false
  else
    message <- lift (compose_message collection_types) ;;
    try_except
      (topic <- lift (py_get ntfy_config "topic" VNone) ;;
       response <-
         requests_send
           (mkRequest POST (ntfy_url topic) []
              [ ("Title", [Lit "Tomorrow's Waste Collection"]);
                ("Priority", [Lit "default"]);
                ("Tags", [Lit "trash,recycle"]) ]
              (Raw message)) ;;
       raise_for_status response ;;;
       print [Lit "ntfy.sh notification sent successfully"] ;;;
       ret true)
      is_RequestException
      (fun e =>
         print [Lit "Error sending ntfy.sh notification: "; Exc e] ;;;
         ret false).

Definition validate_notification_settings (config : value) : M bool :=
  notifications <- lift (py_get config "notifications" (VDict [])) ;;
  pushover <- lift (py_get notifications "pushover" (VDict [])) ;;
  pushover_enabled <- lift (py_get pushover "enabled" VNone) ;;
  pushover_incomplete <-
    (if is_True pushover_enabled then
       lift (not_or_not (py_get pushover "user_key" VNone)
                        (py_get pushover "api_token" VNone))
     else ret false) ;;
  if pushover_incomplete then
    print [Lit "Error: Pushover is enabled but missing required keys (user_key or api_token)"] ;;;
    ret false
  else
    ntfy <- lift (py_get notifications "ntfy" (VDict [])) ;;
    ntfy_enabled <- lift (py_get ntfy "enabled" VNone) ;;
    ntfy_incomplete <-
      (if is_True ntfy_enabled then
         topic <- lift (py_get ntfy "topic" VNone) ;;
         ret (negb (truthy topic))
       else ret false) ;;
    if ntfy_incomplete then
      print [Lit "Error: ntfy.sh is enabled but missing required topic"] ;;;
      ret false
    else ret true.

(** The parsed command line.  The three flags are mutually exclusive. *)
Module Args.
Record t : Type := mk {
  force : bool;
  extract_ids : bool;
  config_help : bool
}.
End Args.

Definition main (args : Args.t) : M unit :=
  if Args.config_help args then print_config_help
  else if Args.extract_ids args then extract_ids
  else
    config <- load_config ;;
    valid <- validate_notification_settings config ;;
    if negb valid then
      print [Lit "Please update your configuration file with the required values."] ;;;
      sys_exit 1
    else
      not_sunday <-
        (if negb (Args.force args) then
           now <- datetime_now ;;
           ret (negb (weekday now =? 6))
         else ret false) ;;
      if not_sunday then
        print [Lit "Not running because today is not Sunday"] ;;;
        print [Lit "Use --force to run regardless of day"]
      else
        collection_data <- get_collection_data config ;;
        if negb (truthy collection_data) then
          print [Lit "Failed to retrieve collection data"]
        else
          tomorrow_collections <- get_tomorrow_collections collection_data ;;
          let notification_sent := false in
          pushover_success <-
            send_pushover_notification tomorrow_collections config ;;
          let notification_sent := notification_sent || pushover_success in
          ntfy_success <-
            send_ntfy_notification tomorrow_collections config ;;
          let notification_sent := notification_sent || ntfy_success in
          if negb notification_sent then
            print [Lit "Warning: No notifications were sent successfully"]
          else ret tt.

(** The exit status of the process: 0 when [main] returns, the argument
    of [sys.exit], and 1 after an exception nobody caught. *)
Definition exit_status {A} (o : outcome A) : Z :=
  match o with
  | Return _ => 0
  | Raise (SystemExit code) => code
  | Raise _ => 1
  end.

(** One run of the script: its exit status and the world it leaves. *)
Definition run (args : Args.t) (w : world) : Z * world :=
  let '(o, w') := main args w in (exit_status o, w').

(** The requests, among some, that went to a given address. *)
Definition calls_to (address : fstring -> bool) (requests : list request)
  : list request :=
  filter (fun r => address (url r)) requests.

Definition is_pushover_url (u : fstring) : bool :=
  match u with
  | [Lit address] => (address =? "https://api.pushover.net/1/messages.json")%string
  | _ => false
  end.

Definition is_ntfy_url (u : fstring) : bool :=
  match u with
  | Lit address :: _ => (address =? "https://ntfy.sh/")%string
  | _ => false
  end.

Definition is_calendar_url (u : fstring) : bool :=
  match u with
  | Lit address :: _ => (address =? "https://api.recollect.net/api/places/")%string
  | _ => false
  end.

(* ================================================================= *)
(** ** Notions the properties are stated with *)

Definition str_or_none (v : value) : Prop :=
  v = VNone \/ exists g, v = VStr g.

(** The proper suffixes of a text that are not empty. *)
Fixpoint proper_suffixes (t : string) : list string :=
  match t with
  | EmptyString => []
  | String _ t' =>
      match t' with
      | EmptyString => []
      | String _ _ => t' :: proper_suffixes t'
      end
  end.

(** The URL segment of the extraction example. *)
Definition example_segment : string := "places/ABC-123/services/456/events".

(** An identifier as the specification describes it: the group of its
    URL pattern, and the group [n] of the header pattern only when the
    URL pattern has no match. *)
Definition url_or_header (url_match header_match : option (list string))
  (n : nat) : value :=
  match url_match with
  | Some m => Re.group m 1
  | None =>
      match header_match with
      | Some h => Re.group h n
      | None => VNone
      end
  end.

(** *** The calendar payload, as the specification describes it *)

(** The subject label a flag carries, if it carries one. *)
Definition flag_subject (flag : value) : option string :=
  match flag with
  | VDict f =>
      match lookup "subject" f with
      | Some (VStr s) => Some s
      | _ => None
      end
  | _ => None
  end.

Definition event_flags (event : value) : list value :=
  match event with
  | VDict e =>
      match lookup "flags" e with
      | Some (VList flags) => flags
      | _ => []
      end
  | _ => []
  end.

Definition event_day_is (day : string) (event : value) : bool :=
  match event with
  | VDict e =>
      match lookup "day" e with
      | Some (VStr d) => (d =? day)%string
      | _ => false
      end
  | _ => false
  end.

Definition subjects_of_flags (flags : list value) : list string :=
  flat_map (fun flag => match flag_subject flag with
                        | Some s => [s]
                        | None => []
                        end) flags.

(** Every subject of every flag on the events whose day is [day], in the
    order of the payload. *)
Definition subjects_on (day : string) (events : list value) : list string :=
  flat_map (fun event => if event_day_is day event
                         then subjects_of_flags (event_flags event)
                         else []) events.

(** First-seen order with duplicates suppressed. *)
Fixpoint distinct (l : list string) : list string :=
  match l with
  | [] => []
  | x :: l' => x :: filter (fun y => negb (y =? x)%string) (distinct l')
  end.

Definition nonempty (s : string) : bool := negb (s =? EmptyString)%string.

(** A flag is a record whose subject, when present, is a string or
    null; an event is a record whose flags, when present, are a list of
    flags; a payload is a record with a list of events. *)
Definition wf_flag (flag : value) : bool :=
  match flag with
  | VDict f =>
      match lookup "subject" f with
      | None | Some VNone | Some (VStr _) => true
      | Some _ => false
      end
  | _ => false
  end.

Definition wf_event (event : value) : bool :=
  match event with
  | VDict e =>
      match lookup "flags" e with
      | None => true
      | Some (VList flags) => forallb wf_flag flags
      | Some _ => false
      end
  | _ => false
  end.

Definition wf_payload (data : value) (events : list value) : Prop :=
  exists d, data = VDict d /\
            lookup "events" d = Some (VList events) /\
            forallb wf_event events = true.

(** The date [get_tomorrow_collections] computes when it starts in [w]. *)
Definition tomorrow_of (w : world) : string :=
  strftime_Ymd (add_days (clock w (ticks w)) 1).

(** The loop of [get_tomorrow_collections] on a list of subjects: a
    subject joins the collected ones unless it is among them. *)
Definition add_all (collected subjects : list string) : list string :=
  fold_left (fun acc x => if existsb (String.eqb x) acc then acc else acc ++ [x])
            subjects collected.

(** The message of a notification, as the specification words it. *)
Definition message_for (types : list string) : string :=
  match types with
  | [] => "No waste collection scheduled for tomorrow."
  | _ :: _ =>
      ("Tomorrow's collection includes: " ++ String.concat ", " types ++ ".")%string
  end.

(** *** Example worlds *)

(** 2024-01-07, a Sunday, and the Monday after it. *)
Definition sunday : datetime := 738892.
Definition monday : datetime := 738893.

(** A network on which nothing answers. *)
Definition no_network : request -> reply := fun _ => Unreachable.

(** A fresh world: nothing printed, nothing sent, the clock standing at
    [now]. *)
Definition world_at (now : datetime) (lines : list string) (f : file)
  (net : request -> reply) : world :=
  mkWorld (fun _ => now) 0 lines f net [] [].

Definition flag (subject : string) : value :=
  VDict [("subject", VStr subject)].

Definition event (day : string) (flags : list value) : value :=
  VDict [("day", VStr day); ("flags", VList flags)].

Definition payload (events : list value) : value :=
  VDict [("events", VList events)].

(** *** The configuration, as the specification describes it *)

(** The value at a path of keys, when every key on the way is there. *)
Fixpoint dig (c : value) (path : list string) : option value :=
  match path with
  | [] => Some c
  | key :: path' =>
      match c with
      | VDict d =>
          match lookup key d with
          | Some v => dig v path'
          | None => None
          end
      | _ => None
      end
  end.

(** Empty or missing. *)
Definition blank (o : option value) : bool :=
  match o with
  | Some v => negb (truthy v)
  | None => true
  end.

Definition ids_missing (c : value) : bool :=
  blank (dig c ["recollect"; "place_id"]) ||
  blank (dig c ["recollect"; "service_id"]).

Definition backend_enabled (c : value) (backend : string) : bool :=
  negb (blank (dig c ["notifications"; backend; "enabled"])).

Definition no_backend_enabled (c : value) : bool :=
  negb (backend_enabled c "pushover") && negb (backend_enabled c "ntfy").

Definition credentials_missing (c : value) : bool :=
  (backend_enabled c "pushover" &&
   (blank (dig c ["notifications"; "pushover"; "user_key"]) ||
    blank (dig c ["notifications"; "pushover"; "api_token"]))) ||
  (backend_enabled c "ntfy" &&
   blank (dig c ["notifications"; "ntfy"; "topic"])).

(** What [load_config] checks on the value it read, check by check. *)
Definition accepted (c : value) : Prop :=
  not_or_not (get2 c "recollect" "place_id" VNone)
             (get2 c "recollect" "service_id" VNone) = Return false /\
  exists pushover_enabled ntfy_enabled,
    get3 c "notifications" "pushover" "enabled" (VBool false)
    = Return pushover_enabled /\
    get3 c "notifications" "ntfy" "enabled" (VBool false)
    = Return ntfy_enabled /\
    (truthy pushover_enabled = true ->
     exists pushover_config,
       get2 c "notifications" "pushover" (VDict []) = Return pushover_config /\
       not_or_not (py_get pushover_config "user_key" VNone)
                  (py_get pushover_config "api_token" VNone) = Return false) /\
    (truthy ntfy_enabled = true ->
     exists ntfy_config topic,
       get2 c "notifications" "ntfy" (VDict []) = Return ntfy_config /\
       py_get ntfy_config "topic" VNone = Return topic /\
       truthy topic = true) /\
    truthy pushover_enabled || truthy ntfy_enabled = true.

(** The parts of the world that printing and writing the configuration
    file leave alone. *)
Definition same_outside (w w' : world) : Prop :=
  clock w' = clock w /\ ticks w' = ticks w /\ stdin w' = stdin w /\
  network w' = network w /\ sent w' = sent w.

(** An outcome that raises nothing but an [Exception]. *)
Definition safe {A} (o : outcome A) : Prop :=
  forall e, o = Raise e -> is_Exception e = true.

(** A status [raise_for_status] raises on. *)
Definition http_error (status : Z) : bool := (400 <=? status) && (status <? 600).

(** A reply on which the request fails: no answer, or an HTTP error
    status. *)
Definition failed (r : reply) : bool :=
  match r with
  | Unreachable => true
  | Response status _ => http_error status
  end.

(** The data [get_collection_data] returns on a reply. *)
Definition fetched (r : reply) : value :=
  match r with
  | Unreachable => VNone
  | Response status content =>
      if http_error status then VNone
      else match content with Some data => data | None => VNone end
  end.

(** Normal mode: neither [--config-help] nor [--extract-ids]. *)
Definition normal_mode (args : Args.t) : Prop :=
  Args.config_help args = false /\ Args.extract_ids args = false.

(** The day gate lets the run through: [--force], or the clock reads a
    Sunday. *)
Definition gate_open (args : Args.t) (w : world) : Prop :=
  Args.force args = true \/ weekday (clock w (ticks w)) = 6.

(** The command line of a forced run. *)
Definition forced : Args.t := Args.mk true false false.

(** The request an enabled Pushover dispatcher sends. *)
Definition pushover_request (token user : value) (message : string) : request :=
  mkRequest POST pushover_url [] []
    (Form [ ("token", token); ("user", user);
            ("title", VStr "Tomorrow's Waste Collection");
            ("message", VStr message) ]).

(** The request an enabled ntfy dispatcher sends. *)
Definition ntfy_request (topic : value) (message : string) : request :=
  mkRequest POST (ntfy_url topic) []
    [ ("Title", [Lit "Tomorrow's Waste Collection"]);
      ("Priority", [Lit "default"]);
      ("Tags", [Lit "trash,recycle"]) ]
    (Raw message).

(** A complete configuration with the two backends switched as given. *)
Definition example_config (pushover ntfy : bool) : value :=
  VDict
    [ ("recollect",
       VDict [ ("place_id", VStr "ABC-123"); ("service_id", VStr "456") ]);
      ("notifications",
       VDict
         [ ("pushover",
            VDict [ ("enabled", VBool pushover);
                    ("user_key", VStr "user");
                    ("api_token", VStr "token") ]);
           ("ntfy",
            VDict [ ("enabled", VBool ntfy);
                    ("topic", VStr "waste") ]) ]) ].

(** A calendar that answers every GET with [status] and [data], while
    every POST gets [post_reply]. *)
Definition calendar_network (status : Z) (data : value) (post_reply : reply)
  : request -> reply :=
  fun r =>
    match method r with
    | GET => Response status (Some data)
    | POST => post_reply
    end.

Definition example_payload : value :=
  payload [event "2024-01-08"
             [flag "Garbage"; flag "Recycling"; flag "Garbage"]].

(** *** The extraction helper *)

Definition prompt_lines : list fstring :=
  [ [Lit "Please paste a curl command from your waste collection website's network requests."];
    [Lit "(Right-click a request in browser dev tools Network tab -> Copy as cURL)"];
    [Lit "Press Enter twice when done pasting:"] ].

Definition failure_lines : list fstring :=
  [ [Lit (nl ++ "Could not extract the IDs from the provided curl command.")%string];
    [Lit "Please make sure you copied a valid curl command from the ReCollect API."] ].

(** The [recollect] record the helper stores. *)
Definition ids_record (place_id service_id : string) : value :=
  VDict [ ("place_id", VStr place_id); ("service_id", VStr service_id) ].

(** The [notifications] record of a configuration the helper creates. *)
Definition default_notifications : value :=
  VDict
    [ ("pushover",
       VDict [ ("enabled", VBool false);
               ("user_key", VStr EmptyString);
               ("api_token", VStr EmptyString) ]);
      ("ntfy",
       VDict [ ("enabled", VBool false);
               ("topic", VStr EmptyString) ]) ].

(** The configuration file after a successful extraction: created when
    it was absent, its [recollect] item replaced when it held a JSON
    object, and left as it was otherwise (the update then fails with a
    message). *)
Definition updated (f : file) (place_id service_id : string) : file :=
  match f with
  | Absent =>
      Holds (VDict [ ("recollect", ids_record place_id service_id);
                     ("notifications", default_notifications) ])
  | Holds (VDict d) =>
      Holds (VDict (set_item "recollect" (ids_record place_id service_id) d))
  | other => other
  end.

(** A paste: the given lines and the blank line that ends it. *)
Definition paste (lines : list string) : list string := lines ++ [EmptyString].

(** *** What a computation leaves alone *)

(** An exception that ends the process in one of the two expected ways:
    an ordinary [Exception] (a traceback, status 1) or [sys.exit(1)]. *)
Definition exits_cleanly (e : exn) : Prop :=
  is_Exception e = true \/ e = SystemExit 1.

(** Started in [w], the computation leaves a world related to [w] by
    [R], and raises nothing but what [exits_cleanly] allows. *)
Definition keeps_at (R : world -> world -> Prop) {A} (m : M A) (w : world)
  : Prop :=
  R w (snd (m w)) /\ forall e, fst (m w) = Raise e -> exits_cleanly e.

Definition keeps (R : world -> world -> Prop) {A} (m : M A) : Prop :=
  forall w, keeps_at R m w.

(** No constraint on the world. *)
Definition any_world : world -> world -> Prop := fun _ _ => True.

(** Nothing was sent and the clock was not read. *)
Definition same_sent_and_clock : world -> world -> Prop :=
  fun w w' => sent w' = sent w /\ ticks w' = ticks w.

(** The configuration file and standard input are what they were. *)
Definition same_file_and_stdin : world -> world -> Prop :=
  fun w w' => config_file w' = config_file w /\ stdin w' = stdin w.

(** What a relation between the worlds before and after has to satisfy
    to be kept by a sequence of steps, and the steps it allows. *)
Class Frame (R : world -> world -> Prop) : Prop := {
  frame_refl : forall w, R w w;
  frame_trans : forall w1 w2 w3, R w1 w2 -> R w2 w3 -> R w1 w3
}.

Class AllowsPrint (R : world -> world -> Prop) : Prop :=
  allows_print : forall w out, R w (set_stdout w out).

Class AllowsClock (R : world -> world -> Prop) : Prop :=
  allows_clock : forall w n, R w (set_ticks w n).

Class AllowsInput (R : world -> world -> Prop) : Prop :=
  allows_input : forall w lines, R w (set_stdin w lines).

Class AllowsRequests (R : world -> world -> Prop) : Prop :=
  allows_requests : forall w rs, R w (set_sent w rs).

Class AllowsFileWrite (R : world -> world -> Prop) : Prop :=
  allows_file_write : forall w f, R w (set_config_file w f).

(** *** The requests of a run *)

Definition is_calendar_get (r : request) : bool :=
  match method r with
  | GET => is_calendar_url (url r)
  | POST => false
  end.

Definition is_pushover_post (r : request) : bool :=
  match method r with
  | POST => is_pushover_url (url r)
  | GET => false
  end.

Definition is_ntfy_post (r : request) : bool :=
  match method r with
  | POST => is_ntfy_url (url r)
  | GET => false
  end.

(** The requests fill the slots in order, each slot taking at most one
    request and every request taking a slot. *)
Fixpoint fits (new : list request) (slots : list (request -> bool)) : bool :=
  match slots with
  | [] => match new with [] => true | _ :: _ => false end
  | slot :: slots' =>
      match new with
      | [] => true
      | r :: new' => (slot r && fits new' slots') || fits new slots'
      end
  end.

(** The request log grew by requests that fit the slots. *)
Definition logged (slots : list (request -> bool)) : world -> world -> Prop :=
  fun w w' => exists new, sent w' = sent w ++ new /\ fits new slots = true.

(** The three remote calls of a run, in the order [main] makes them. *)
Definition remote_calls : list (request -> bool) :=
  [is_calendar_get; is_pushover_post; is_ntfy_post].

(** *** The shape of a configuration *)

Definition record_or_absent (o : option value) : bool :=
  match o with
  | None | Some (VDict _) => true
  | Some _ => false
  end.

(** The documented shape: an object whose [recollect], [notifications],
    [pushover] and [ntfy] entries, where present, are objects. *)
Definition well_shaped (c : value) : bool :=
  match c with
  | VDict d =>
      record_or_absent (lookup "recollect" d) &&
      match lookup "notifications" d with
      | None => true
      | Some (VDict n) =>
          record_or_absent (lookup "pushover" n) &&
          record_or_absent (lookup "ntfy" n)
      | Some _ => false
      end
  | _ => false
  end.

(** *** Collected types *)

(** Every item is true, and no item is equal ([==]) to one of [seen] or
    to an earlier item. *)
Fixpoint first_seen (seen l : list value) : bool :=
  match l with
  | [] => true
  | x :: l' =>
      truthy x && negb (list_contains x seen) && first_seen (seen ++ [x]) l'
  end.

(** *** Identifiers *)

(** Every character of [s] is in the class. *)
Fixpoint all_in (cls : ascii -> bool) (s : string) : bool :=
  match s with
  | EmptyString => true
  | String c s' => cls c && all_in cls s'
  end.

(** Nothing, or a string of the class. *)
Definition none_or_all_in (cls : ascii -> bool) (v : value) : Prop :=
  v = VNone \/ exists g, v = VStr g /\ all_in cls g = true.

(** *** Delivery *)

Definition warning_line : fstring :=
  [Lit "Warning: No notifications were sent successfully"].

(** One of the requests is a POST that the network did not fail. *)
Definition delivered (net : request -> reply) (requests : list request) : bool :=
  existsb
    (fun r =>
       match method r with
       | POST => negb (failed (net r))
       | GET => false
       end)
    requests.

(* ================================================================= *)
(** ** Regular expressions: what a match looks like *)

Section GreedyFacts.

Context {R : Type} (cls : ascii -> bool).

(** Whatever [greedy] returns, its continuation returned. *)
Lemma greedy_some (s taken : string) (k : string -> string -> option R) r :
  Re.greedy cls taken s k = Some r ->
  exists g rest, k g rest = Some r.
Proof.
  revert taken; induction s as [|c s IH]; intros taken; simpl.
  - intros H; eauto.
  - destruct (cls c); [|intros H; eauto].
    destruct (Re.greedy cls (taken ++ String c EmptyString) s k) eqn:E.
    + intros H; inversion H; subst; eauto.
    + intros H; eauto.
Qed.

End GreedyFacts.

Lemma string_eqb_empty_false (g : string) :
  (g =? EmptyString)%string = false <-> g <> EmptyString.
Proof.
  split.
  - intros H ->; discriminate.
  - intros H; destruct (String.eqb_spec g EmptyString); congruence.
Qed.

(** A match of a pattern that is some text followed by one group has
    exactly one group, and the group is not empty. *)
Lemma match_text_group (t : string) (cls : ascii -> bool) (s : string) m :
  Re.match_here [Re.Text t; Re.Group cls] s = Some m ->
  exists g, m = [g] /\ g <> EmptyString.
Proof.
  simpl; destruct (Re.strip_prefix t s) as [s'|]; [|discriminate].
  intros H; apply greedy_some in H; destruct H as (g & rest & H).
  destruct (g =? EmptyString)%string eqn:E; [discriminate|].
  inversion H; subst; exists g; split; auto.
  now apply string_eqb_empty_false.
Qed.

Lemma search_some (pat : Re.pattern) (s : string) m :
  Re.search pat s = Some m -> exists s', Re.match_here pat s' = Some m.
Proof.
  induction s as [|c s IH]; simpl.
  - destruct (Re.match_here pat EmptyString) eqn:E; [|discriminate].
    intros H; inversion H; subst; eauto.
  - destruct (Re.match_here pat (String c s)) eqn:E.
    + intros H; inversion H; subst; eauto.
    + auto.
Qed.

Lemma truthy_VStr (g : string) : truthy (VStr g) = true <-> g <> EmptyString.
Proof.
  simpl; rewrite negb_true_iff; apply string_eqb_empty_false.
Qed.

Lemma url_group_truthy (t : string) (cls : ascii -> bool) (s : string) m :
  Re.search [Re.Text t; Re.Group cls] s = Some m ->
  truthy (Re.group m 1) = true.
Proof.
  intros H; apply search_some in H; destruct H as (s' & H).
  apply match_text_group in H; destruct H as (g & -> & Hg).
  now apply truthy_VStr.
Qed.

Lemma both_or_nothing (a b : value) :
  str_or_none a -> str_or_none b ->
  (if truthy a && truthy b then (a, b) else (VNone, VNone)) = (VNone, VNone) \/
  exists p s,
    (if truthy a && truthy b then (a, b) else (VNone, VNone)) = (VStr p, VStr s) /\
    p <> EmptyString /\ s <> EmptyString.
Proof.
  intros [->|[p ->]] [->|[s ->]]; try (left; reflexivity).
  - left; cbn [truthy]; rewrite andb_false_r; reflexivity.
  - destruct (truthy (VStr p)) eqn:Hp; [|left; reflexivity].
    destruct (truthy (VStr s)) eqn:Hs; [|left; reflexivity].
    right; exists p, s; repeat split; now apply truthy_VStr.
Qed.

(** What [extract_ids_from_curl] returns is one of two shapes. *)
Lemma extract_ids_from_curl_shape (curl_command : string) :
  extract_ids_from_curl curl_command = (VNone, VNone) \/
  exists p s,
    extract_ids_from_curl curl_command = (VStr p, VStr s) /\
    p <> EmptyString /\ s <> EmptyString.
Proof.
  unfold extract_ids_from_curl; cbv zeta.
  apply both_or_nothing; unfold str_or_none, Re.group.
  - destruct (Re.search header_pattern curl_command);
      destruct (Re.search places_pattern curl_command);
      try destruct (negb _); eauto.
  - destruct (Re.search header_pattern curl_command);
      destruct (Re.search services_pattern curl_command);
      try destruct (negb _); eauto.
Qed.

(* ================================================================= *)
(** ** Searching past a prefix *)

Lemma is_prefix_strip (t s : string) :
  is_prefix t s = false -> Re.strip_prefix t s = None.
Proof.
  revert s; induction t as [|a t IH]; intros [|b s]; simpl; try discriminate; auto.
  destruct (a =? b)%char; simpl; auto.
Qed.

Lemma proper_suffixes_cons (a b : ascii) (t : string) :
  proper_suffixes (String a (String b t)) =
  String b t :: proper_suffixes (String b t).
Proof. reflexivity. Qed.

(** A text that is no prefix of [x], and which like its proper suffixes
    does not start [y], is no prefix of [x ++ y]. *)
Lemma strip_prefix_app (t x y : string) :
  is_prefix t x = false ->
  (forall v, v = t \/ In v (proper_suffixes t) -> is_prefix v y = false) ->
  Re.strip_prefix t (x ++ y) = None.
Proof.
  revert x; induction t as [|a t IH]; intros x Hx Hsuf.
  - destruct x; discriminate.
  - destruct x as [|c x].
    + apply is_prefix_strip, Hsuf; left; reflexivity.
    + cbn [append Re.strip_prefix]. cbn [is_prefix] in Hx.
      destruct (a =? c)%char; [|reflexivity].
      cbn [andb] in Hx.
      destruct t as [|a' t]; [destruct x; discriminate|].
      apply IH; auto.
      intros v Hv; apply Hsuf; right.
      rewrite proper_suffixes_cons; destruct Hv as [->|Hv]; [left|right]; auto.
Qed.

(** The same when [x] is not empty: the text itself may well start [y]. *)
Lemma strip_prefix_cons_app (t : string) (c : ascii) (x y : string) :
  is_prefix t (String c x) = false ->
  (forall v, In v (proper_suffixes t) -> is_prefix v y = false) ->
  Re.strip_prefix t (String c x ++ y) = None.
Proof.
  intros Hx Hsuf; destruct t as [|a t]; [discriminate|].
  cbn [append Re.strip_prefix]. cbn [is_prefix] in Hx.
  destruct (a =? c)%char; [|reflexivity].
  cbn [andb] in Hx.
  destruct t as [|a' t]; [destruct x; discriminate|].
  apply strip_prefix_app; auto.
  intros v Hv; apply Hsuf.
  rewrite proper_suffixes_cons; destruct Hv as [->|Hv]; [left|right]; auto.
Qed.

(** [re.search] finds nothing that starts inside such a prefix. *)
Lemma search_skip_prefix (t : string) (rest : Re.pattern) (pre y : string) :
  is_substring t pre = false ->
  (forall v, In v (proper_suffixes t) -> is_prefix v y = false) ->
  Re.search (Re.Text t :: rest) (pre ++ y) = Re.search (Re.Text t :: rest) y.
Proof.
  intros Hpre Hsuf; induction pre as [|c pre IH]; [reflexivity|].
  cbn [is_substring] in Hpre; apply orb_false_iff in Hpre.
  destruct Hpre as [Hhere Hlater].
  pose proof (strip_prefix_cons_app t c pre y Hhere Hsuf) as Hnone.
  cbn [append] in *. cbn [Re.search Re.match_here].
  rewrite Hnone. now apply IH.
Qed.

(* ================================================================= *)
(** ** Identifier extraction *)

Lemma search_places_example (post : string) :
  Re.search places_pattern (example_segment ++ post) = Some ["ABC-123"].
Proof. reflexivity. Qed.

Lemma search_services_example (post : string) :
  Re.search services_pattern (example_segment ++ post) = Some ["456"].
Proof. reflexivity. Qed.

Lemma extract_ids_from_curl_fallback (curl_command : string) :
  let header_match := Re.search header_pattern curl_command in
  let place_id :=
    url_or_header (Re.search places_pattern curl_command) header_match 1 in
  let service_id :=
    url_or_header (Re.search services_pattern curl_command) header_match 2 in
  extract_ids_from_curl curl_command =
  if truthy place_id && truthy service_id then (place_id, service_id)
  else (VNone, VNone).
Proof.
  unfold extract_ids_from_curl, url_or_header, places_pattern, services_pattern.
  cbv zeta.
  destruct (Re.search [Re.Text "places/"; Re.Group Re.hex_dash_class] curl_command)
    as [pm|] eqn:Hp;
    destruct (Re.search [Re.Text "services/"; Re.Group Re.digit_class] curl_command)
    as [sm|] eqn:Hs;
    try apply url_group_truthy in Hp;
    try apply url_group_truthy in Hs;
    destruct (Re.search header_pattern curl_command);
    rewrite ?Hp, ?Hs; cbn [negb truthy]; rewrite ?Hp, ?Hs; reflexivity.
Qed.

Lemma example_after_prefix (pre post : string) :
  is_substring "places/" pre = false ->
  is_substring "services/" pre = false ->
  extract_ids_from_curl (pre ++ example_segment ++ post) =
  (VStr "ABC-123", VStr "456").
Proof.
  intros Hp Hs. rewrite extract_ids_from_curl_fallback; cbv zeta.
  assert (E1 : Re.search places_pattern (pre ++ example_segment ++ post) =
               Re.search places_pattern (example_segment ++ post)).
  { apply search_skip_prefix; auto.
    simpl; intros v Hv; intuition subst; reflexivity. }
  assert (E2 : Re.search services_pattern (pre ++ example_segment ++ post) =
               Re.search services_pattern (example_segment ++ post)).
  { apply search_skip_prefix; auto.
    simpl; intros v Hv; intuition subst; reflexivity. }
  rewrite E1, E2, search_places_example, search_services_example.
  reflexivity.
Qed.

(** C7, as amended.  A pasted text that contains the segment
    [places/ABC-123/services/456/events] and has neither [places/] nor
    [services/] before it yields the pair ("ABC-123", "456").  For every
    text, [place_id] is the group of the first match of
    [places/([0-9A-F-]+)] and [service_id] that of [services/([0-9]+)];
    the groups of the [X-Recollect-Place] header pattern are used only
    for the identifier whose URL pattern has no match; and the pair is
    returned only when both identifiers were found. *)
Theorem extract_ids_from_curl_first_match_then_header :
  (forall pre post : string,
     is_substring "places/" pre = false ->
     is_substring "services/" pre = false ->
     extract_ids_from_curl (pre ++ example_segment ++ post) =
     (VStr "ABC-123", VStr "456")) /\
  (forall curl_command : string,
     let header_match := Re.search header_pattern curl_command in
     let place_id :=
       url_or_header (Re.search places_pattern curl_command) header_match 1 in
     let service_id :=
       url_or_header (Re.search services_pattern curl_command) header_match 2 in
     extract_ids_from_curl curl_command =
     if truthy place_id && truthy service_id then (place_id, service_id)
     else (VNone, VNone)).
Proof.
  split.
  - exact example_after_prefix.
  - exact extract_ids_from_curl_fallback.
Qed.

Lemma extract_ids_from_curl_first_match_then_header_witness :
  is_substring "places/" "curl 'https://api.recollect.net/api/" = false /\
  is_substring "services/" "curl 'https://api.recollect.net/api/" = false /\
  extract_ids_from_curl
    ("curl 'https://api.recollect.net/api/" ++ example_segment
       ++ "?nomerge=1' -H 'X-Recollect-Place: 0:1'") =
  (VStr "ABC-123", VStr "456").
Proof.
  split; [reflexivity|]. split; [reflexivity|].
  apply (proj1 extract_ids_from_curl_first_match_then_header); reflexivity.
Defined.

(** C7 as stated fails: this text contains the segment
    [places/ABC-123/services/456/events], but an earlier [places/0] in a
    header is the first match, and the place identifier is "0". *)
Lemma extract_ids_from_curl_earlier_match :
  let curl_command :=
    "curl -H 'Referer: https://example.org/places/0' 'https://api.recollect.net/api/places/ABC-123/services/456/events'" in
  is_substring example_segment curl_command = true /\
  extract_ids_from_curl curl_command = (VStr "0", VStr "456") /\
  extract_ids_from_curl curl_command <> (VStr "ABC-123", VStr "456").
Proof.
  cbv zeta. split; [reflexivity|]. split; [reflexivity|].
  vm_compute; discriminate.
Qed.

(* ================================================================= *)
(** ** The collection filter *)

Lemma filter_filter_distinct_other (p : string -> bool) (x : string)
  (l : list string) :
  p x = false ->
  filter p (filter (fun y => negb (y =? x)%string) l) = filter p l.
Proof.
  intros Hx; induction l as [|y l IH]; [reflexivity|]; simpl.
  destruct (String.eqb_spec y x) as [->|Hne]; simpl.
  - rewrite Hx; exact IH.
  - destruct (p y); [f_equal|]; exact IH.
Qed.

Lemma filter_comm {A} (p q : A -> bool) (l : list A) :
  filter p (filter q l) = filter q (filter p l).
Proof.
  induction l as [|y l IH]; [reflexivity|]; simpl.
  destruct (p y) eqn:Hp, (q y) eqn:Hq; simpl; rewrite ?Hp, ?Hq, IH; reflexivity.
Qed.

(** Suppressing duplicates and filtering commute. *)
Lemma distinct_filter (p : string -> bool) (l : list string) :
  distinct (filter p l) = filter p (distinct l).
Proof.
  induction l as [|x l IH]; [reflexivity|]; simpl.
  destruct (p x) eqn:Hx; simpl.
  - rewrite IH, filter_comm; reflexivity.
  - rewrite IH, filter_filter_distinct_other; auto.
Qed.

Lemma filter_app_not_in (acc : list string) (x : string) (l : list string) :
  filter (fun y => negb (existsb (String.eqb y) (acc ++ [x]))) l =
  filter (fun y => negb (y =? x)%string)
         (filter (fun y => negb (existsb (String.eqb y) acc)) l).
Proof.
  induction l as [|y l IH]; [reflexivity|]; simpl.
  rewrite existsb_app; simpl; rewrite orb_false_r.
  destruct (existsb (String.eqb y) acc); simpl; [exact IH|].
  destruct (y =? x)%string; simpl; [|f_equal]; exact IH.
Qed.

(** The loop collects, after what it had, the distinct new subjects in
    first-seen order. *)
Lemma add_all_distinct (subjects collected : list string) :
  add_all collected subjects =
  collected ++
  distinct (filter (fun y => negb (existsb (String.eqb y) collected)) subjects).
Proof.
  unfold add_all; revert collected.
  induction subjects as [|x l IH]; intros acc; simpl.
  - now rewrite app_nil_r.
  - destruct (existsb (String.eqb x) acc) eqn:Hx; simpl.
    + apply IH.
    + rewrite IH, <- app_assoc; simpl. do 2 f_equal.
      rewrite filter_app_not_in. apply distinct_filter.
Qed.

Lemma add_all_nil (subjects : list string) :
  add_all [] subjects = distinct subjects.
Proof.
  rewrite add_all_distinct; simpl. f_equal.
  induction subjects as [|x l IH]; simpl; [|f_equal]; auto.
Qed.

Lemma add_all_app (collected xs ys : list string) :
  add_all collected (xs ++ ys) = add_all (add_all collected xs) ys.
Proof. unfold add_all; apply fold_left_app. Qed.

Lemma list_contains_strings (s : string) (acc : list string) :
  list_contains (VStr s) (map VStr acc) = existsb (String.eqb s) acc.
Proof.
  unfold list_contains; induction acc as [|a acc IH]; simpl; [|f_equal]; auto.
Qed.

Lemma flag_loop_strings (flags : list value) (acc : list string) :
  forallb wf_flag flags = true ->
  for_loop flags flag_step (map VStr acc) =
  Return (map VStr (add_all acc (filter nonempty (subjects_of_flags flags)))).
Proof.
  unfold subjects_of_flags.
  revert acc; induction flags as [|flag flags IH]; intros acc Hwf.
  - reflexivity.
  - cbn [forallb] in Hwf; apply andb_true_iff in Hwf; destruct Hwf as [Hf Hfs].
    cbn [for_loop flat_map]. rewrite filter_app, add_all_app.
    destruct flag as [| | | | |f]; try discriminate.
    unfold flag_step at 1, flag_subject; unfold get_or; cbn [py_get bindO wf_flag] in *; unfold get_or.
    destruct (lookup "subject" f) as [[| | |s| |]|]; try discriminate;
      cbn [truthy andb bindO filter add_all fold_left]; try (apply IH; exact Hfs).
    unfold nonempty.
    destruct (negb (s =? EmptyString)%string); cbn [andb filter fold_left];
      [|apply IH; exact Hfs].
    rewrite list_contains_strings.
    destruct (existsb (String.eqb s) acc); cbn [negb bindO].
    + apply IH; exact Hfs.
    + change [VStr s] with (map VStr [s]); rewrite <- map_app.
      apply IH; exact Hfs.
Qed.

Lemma py_eq_VStr (v : value) (t : string) :
  py_eq v (VStr t) = match v with VStr d => (d =? t)%string | _ => false end.
Proof. destruct v as [| | | |l|d]; try reflexivity; destruct l, d; reflexivity. Qed.

Lemma event_loop_strings (tomorrow : string) (events : list value)
  (acc : list string) :
  forallb wf_event events = true ->
  for_loop events (event_step tomorrow) (map VStr acc) =
  Return (map VStr (add_all acc (filter nonempty (subjects_on tomorrow events)))).
Proof.
  revert acc; induction events as [|event events IH]; intros acc Hwf.
  - reflexivity.
  - cbn [forallb] in Hwf; apply andb_true_iff in Hwf; destruct Hwf as [He Hes].
    unfold subjects_on; cbn [for_loop flat_map].
    rewrite filter_app, add_all_app. fold (subjects_on tomorrow events).
    destruct event as [| | | | |e]; try discriminate.
    unfold event_step at 1, event_day_is, event_flags;
      cbn [py_get bindO wf_event] in *; unfold get_or.
    rewrite py_eq_VStr.
    destruct (lookup "day" e) as [[| | |d| |]|];
      try (cbn [filter add_all fold_left bindO]; apply IH; exact Hes).
    destruct (d =? tomorrow)%string;
      [|cbn [filter add_all fold_left bindO]; apply IH; exact Hes].
    cbn [py_get bindO]; unfold get_or.
    destruct (lookup "flags" e) as [[| | | |flags|]|]; try discriminate;
      cbn [py_iter bindO].
    + rewrite flag_loop_strings by exact He. cbn [bindO]. apply IH; exact Hes.
    + cbn [for_loop bindO filter add_all fold_left subjects_of_flags flat_map].
      apply IH; exact Hes.
Qed.

Lemma lookup_some_truthy (key : string) (d : list (string * value)) v :
  lookup key d = Some v -> truthy (VDict d) = true.
Proof. destruct d; [discriminate|reflexivity]. Qed.

(** On a payload of the expected shape the filter reads the clock once
    and returns the distinct non-empty subjects of tomorrow's flags. *)
Lemma get_tomorrow_collections_wf (data : value) (events : list value)
  (w : world) :
  wf_payload data events ->
  get_tomorrow_collections data w =
  (Return (map VStr (distinct (filter nonempty
                                 (subjects_on (tomorrow_of w) events)))),
   set_ticks w (S (ticks w))).
Proof.
  intros (d & -> & Hev & Hwf).
  unfold get_tomorrow_collections, bind, lift, ret, datetime_now, tomorrow_of.
  rewrite (lookup_some_truthy _ _ _ Hev); cbn [negb py_contains].
  rewrite Hev; cbn [negb py_getitem]. rewrite Hev; cbn [py_iter].
  cbv zeta. change (@nil value) with (map VStr []) at 1.
  rewrite event_loop_strings by exact Hwf. rewrite add_all_nil. reflexivity.
Qed.

Lemma subjects_on_app (day : string) (xs ys : list value) :
  subjects_on day (xs ++ ys) = subjects_on day xs ++ subjects_on day ys.
Proof. unfold subjects_on; apply flat_map_app. Qed.

Lemma subjects_on_other_days (day : string) (events : list value) :
  forallb (fun e => negb (event_day_is day e)) events = true ->
  subjects_on day events = [].
Proof.
  induction events as [|e events IH]; [reflexivity|]; cbn [forallb].
  intros H; apply andb_true_iff in H; destruct H as [He Hes].
  unfold subjects_on; cbn [flat_map]. apply negb_true_iff in He; rewrite He.
  now apply IH.
Qed.

Lemma subjects_of_flags_map (flags : list value) :
  subjects_of_flags flags =
  flat_map (fun o => match o with Some s => [s] | None => [] end)
           (map flag_subject flags).
Proof.
  unfold subjects_of_flags; induction flags as [|f flags IH]; [reflexivity|].
  cbn [flat_map map]; now rewrite IH.
Qed.

(** C1, as amended.  On a payload of the expected shape
    [get_tomorrow_collections] returns the distinct non-empty subjects of
    the flags on the events whose day equals tomorrow, in first-seen
    order with duplicates suppressed (a subject that is the empty string
    is left out); and when exactly one event's day equals tomorrow and
    its flags carry the subjects "Garbage", "Recycling", "Garbage" in
    that order, it returns exactly ["Garbage", "Recycling"]. *)
Theorem get_tomorrow_collections_distinct_nonempty :
  (forall (data : value) (events : list value) (w : world),
     wf_payload data events ->
     get_tomorrow_collections data w =
     (Return (map VStr (distinct (filter nonempty
                                    (subjects_on (tomorrow_of w) events)))),
      set_ticks w (S (ticks w)))) /\
  (forall (data : value) (before after : list value) (ev : value) (w : world),
     wf_payload data (before ++ ev :: after) ->
     forallb (fun e => negb (event_day_is (tomorrow_of w) e)) (before ++ after)
     = true ->
     event_day_is (tomorrow_of w) ev = true ->
     map flag_subject (event_flags ev) =
     [Some "Garbage"; Some "Recycling"; Some "Garbage"] ->
     fst (get_tomorrow_collections data w) =
     Return [VStr "Garbage"; VStr "Recycling"]).
Proof.
  split.
  - exact get_tomorrow_collections_wf.
  - intros data before after ev w Hwf Hothers Hday Hflags.
    rewrite (get_tomorrow_collections_wf _ _ _ Hwf); cbn [fst].
    rewrite forallb_app in Hothers; apply andb_true_iff in Hothers.
    destruct Hothers as [Hb Ha].
    change (ev :: after) with ([ev] ++ after).
    rewrite !subjects_on_app, (subjects_on_other_days _ _ Hb),
      (subjects_on_other_days _ _ Ha).
    unfold subjects_on at 1; cbn [flat_map]; rewrite Hday.
    rewrite subjects_of_flags_map, Hflags. reflexivity.
Qed.

Lemma get_tomorrow_collections_distinct_nonempty_witness :
  let w := world_at sunday [] Absent no_network in
  let ev := event "2024-01-08"
              [flag "Garbage"; flag "Recycling"; flag "Garbage"] in
  let other := event "2024-01-10" [flag "Yard Waste"] in
  fst (get_tomorrow_collections (payload [other; ev; other]) w) =
  Return [VStr "Garbage"; VStr "Recycling"].
Proof.
  cbv zeta.
  apply (proj2 get_tomorrow_collections_distinct_nonempty
           _ [event "2024-01-10" [flag "Yard Waste"]]
           [event "2024-01-10" [flag "Yard Waste"]]
           (event "2024-01-08"
              [flag "Garbage"; flag "Recycling"; flag "Garbage"])).
  - eexists; split; [reflexivity|]. split; reflexivity.
  - reflexivity.
  - reflexivity.
  - reflexivity.
Defined.

(** C1 as stated fails: a flag on tomorrow's event carries the subject
    [""]; the distinct subjects of tomorrow's flags are [[""]], and the
    filter returns the empty list. *)
Lemma get_tomorrow_collections_skips_empty_subject :
  let w := world_at sunday [] Absent no_network in
  let events := [event "2024-01-08" [flag EmptyString]] in
  tomorrow_of w = "2024-01-08" /\
  distinct (subjects_on (tomorrow_of w) events) = [EmptyString] /\
  fst (get_tomorrow_collections (payload events) w) = Return [] /\
  @Return (list value) [] <> Return (map VStr [EmptyString]).
Proof.
  cbv zeta. repeat split; try reflexivity. discriminate.
Qed.

(* ================================================================= *)
(** ** The notification dispatchers *)

Lemma get3_inv (c : value) (k1 k2 k3 : string) (default v : value) :
  get3 c k1 k2 k3 default = Return v ->
  exists fields,
    get2 c k1 k2 (VDict []) = Return (VDict fields) /\
    py_get (VDict fields) k3 default = Return v.
Proof.
  unfold get3. destruct (get2 c k1 k2 (VDict [])) as [inner|e]; [|discriminate].
  cbn [bindO]. destruct inner; try discriminate. eauto.
Qed.

Lemma strings_of_map (l : list string) : strings_of (map VStr l) = Return l.
Proof.
  induction l as [|x l IH]; [reflexivity|]. cbn [map strings_of].
  rewrite IH; reflexivity.
Qed.

Lemma compose_message_strings (types : list string) :
  compose_message (map VStr types) = Return (message_for types).
Proof.
  unfold compose_message, py_join. rewrite strings_of_map.
  destruct types; reflexivity.
Qed.

(** An enabled Pushover dispatcher issues exactly one request and
    returns whether it succeeded; a failure is printed, not raised. *)
Lemma send_pushover_enabled (types : list string) (config : value)
  (w : world) (enabled : value) :
  get3 config "notifications" "pushover" "enabled" (VBool false) = Return enabled ->
  truthy enabled = true ->
  exists token user out,
    let request := pushover_request token user (message_for types) in
    send_pushover_notification (map VStr types) config w =
    (Return (negb (failed (network w request))),
     set_stdout (set_sent w (sent w ++ [request])) (stdout w ++ [out])).
Proof.
  intros Hget Hen. apply get3_inv in Hget. destruct Hget as (pc & Hpc & Hflag).
  unfold send_pushover_notification, bind, lift.
  rewrite Hpc, Hflag, Hen, compose_message_strings. cbn [negb].
  unfold try_except, bind, lift, requests_send, raise_for_status, print, ret,
    raise. cbn [py_get]. unfold pushover_request. cbv zeta.
  exists (get_or "api_token" VNone pc), (get_or "user_key" VNone pc).
  match goal with
  | |- context [network w ?r] => destruct (network w r) as [|status content]
  end; cbn [is_RequestException fst failed negb].
  - eexists; reflexivity.
  - fold (http_error status). destruct (http_error status);
      cbn [is_RequestException negb]; eexists; reflexivity.
Qed.

Lemma send_ntfy_enabled (types : list string) (config : value)
  (w : world) (enabled : value) :
  get3 config "notifications" "ntfy" "enabled" (VBool false) = Return enabled ->
  truthy enabled = true ->
  exists topic out,
    let request := ntfy_request topic (message_for types) in
    send_ntfy_notification (map VStr types) config w =
    (Return (negb (failed (network w request))),
     set_stdout (set_sent w (sent w ++ [request])) (stdout w ++ [out])).
Proof.
  intros Hget Hen. apply get3_inv in Hget. destruct Hget as (pc & Hpc & Hflag).
  unfold send_ntfy_notification, bind, lift.
  rewrite Hpc, Hflag, Hen, compose_message_strings. cbn [negb].
  unfold try_except, bind, lift, requests_send, raise_for_status, print, ret,
    raise. cbn [py_get]. unfold ntfy_request. cbv zeta.
  exists (get_or "topic" VNone pc).
  match goal with
  | |- context [network w ?r] => destruct (network w r) as [|status content]
  end; cbn [is_RequestException fst failed negb].
  - eexists; reflexivity.
  - fold (http_error status). destruct (http_error status);
      cbn [is_RequestException negb]; eexists; reflexivity.
Qed.

(** A dispatcher whose flag is false (or absent, or any false value)
    returns [False] and touches nothing. *)
Lemma send_pushover_disabled (types : list value) (config : value)
  (w : world) (enabled : value) :
  get3 config "notifications" "pushover" "enabled" (VBool false) = Return enabled ->
  truthy enabled = false ->
  send_pushover_notification types config w = (Return false, w).
Proof.
  intros Hget Hen. apply get3_inv in Hget. destruct Hget as (pc & Hpc & Hflag).
  unfold send_pushover_notification, bind, lift.
  rewrite Hpc, Hflag, Hen. reflexivity.
Qed.

Lemma send_ntfy_disabled (types : list value) (config : value)
  (w : world) (enabled : value) :
  get3 config "notifications" "ntfy" "enabled" (VBool false) = Return enabled ->
  truthy enabled = false ->
  send_ntfy_notification types config w = (Return false, w).
Proof.
  intros Hget Hen. apply get3_inv in Hget. destruct Hget as (pc & Hpc & Hflag).
  unfold send_ntfy_notification, bind, lift.
  rewrite Hpc, Hflag, Hen. reflexivity.
Qed.

(* ================================================================= *)
(** ** Loading the configuration *)

Lemma set_stdout_twice (w : world) (a b : list fstring) :
  set_stdout (set_stdout w a) b = set_stdout w b.
Proof. reflexivity. Qed.

Lemma print_all_spec (lines : list string) (w : world) :
  print_all lines w =
  (Return tt, set_stdout w (stdout w ++ map (fun l => [Lit l]) lines)).
Proof.
  revert w; induction lines as [|l lines IH]; intros w.
  - cbn [print_all map]. rewrite app_nil_r. destruct w; reflexivity.
  - cbn [print_all map]. unfold bind, print. rewrite IH.
    rewrite set_stdout_twice. cbn [stdout set_stdout].
    rewrite <- app_assoc. reflexivity.
Qed.

Lemma print_config_help_spec (w : world) :
  print_config_help w =
  (Return tt,
   set_stdout w (stdout w ++ map (fun l => [Lit l]) config_help_lines)).
Proof. apply print_all_spec. Qed.

Lemma py_get_exn c k d e : py_get c k d = Raise e -> is_Exception e = true.
Proof. destruct c; cbn; intros H; inversion H; reflexivity. Qed.

Lemma bindO_exn {A B} (m : outcome A) (k : A -> outcome B) e :
  bindO m k = Raise e -> m = Raise e \/ exists a, m = Return a /\ k a = Raise e.
Proof. destruct m; cbn; intros H; [right; eauto|left; congruence]. Qed.

Lemma get2_exn c a b d e : get2 c a b d = Raise e -> is_Exception e = true.
Proof.
  unfold get2; intros H; apply bindO_exn in H.
  destruct H as [H|(x & _ & H)]; eapply py_get_exn; eauto.
Qed.

Lemma get3_exn c a b k d e : get3 c a b k d = Raise e -> is_Exception e = true.
Proof.
  unfold get3; intros H; apply bindO_exn in H.
  destruct H as [H|(x & _ & H)]; [eapply get2_exn|eapply py_get_exn]; eauto.
Qed.

Lemma not_or_not_exn a b e :
  not_or_not a b = Raise e -> a = Raise e \/ b = Raise e.
Proof.
  unfold not_or_not. destruct a as [x|]; cbn; [|intros H; left; congruence].
  destruct (truthy x); cbn; [|discriminate].
  destruct b; cbn; [discriminate|]. intros H; right; congruence.
Qed.

Lemma safe_py_get c k d : safe (py_get c k d).
Proof. intros e; apply py_get_exn. Qed.

Lemma safe_get2 c a b d : safe (get2 c a b d).
Proof. intros e; apply get2_exn. Qed.

Lemma safe_get3 c a b k d : safe (get3 c a b k d).
Proof. intros e; apply get3_exn. Qed.

Lemma safe_not_or_not a b : safe a -> safe b -> safe (not_or_not a b).
Proof. intros Ha Hb e H; apply not_or_not_exn in H; destruct H; auto. Qed.

Create HintDb safe.
#[local] Hint Resolve safe_py_get safe_get2 safe_get3 safe_not_or_not : safe.

Ltac exit1 :=
  repeat match goal with
         | S : is_Exception _ = true |- _ => try rewrite S; clear S
         end;
  left; unfold print, bind, sys_exit, raise; rewrite ?print_config_help_spec;
  cbn [is_Exception];
  eexists; split; [reflexivity | repeat split].

Ltac caught H :=
  match type of H with
  | ?o = Raise ?e =>
      let S := fresh "S" in
      assert (S : is_Exception e = true) by
        (assert (Hs : safe o) by auto with safe; exact (Hs e H));
      try rewrite S
  end.

Ltac step :=
  unfold ret; cbv beta iota;
  match goal with
  | |- context [match not_or_not ?a ?b with _ => _ end] =>
      let H := fresh "Hcheck" in
      destruct (not_or_not a b) as [[|]|?e] eqn:H; [| |caught H]
  | |- context [match get3 ?c ?a ?b ?k ?d with _ => _ end] =>
      let H := fresh "Hget" in
      destruct (get3 c a b k d) as [?v|?e] eqn:H; [|caught H]
  | |- context [match get2 ?c ?a ?b ?d with _ => _ end] =>
      let H := fresh "Hget" in
      destruct (get2 c a b d) as [?v|?e] eqn:H; [|caught H]
  | |- context [match py_get ?c ?k ?d with _ => _ end] =>
      let H := fresh "Hget" in
      destruct (py_get c k d) as [?v|?e] eqn:H; [|caught H]
  | |- context [if truthy ?v then _ else _] =>
      let H := fresh "Htruth" in
      destruct (truthy v) eqn:H; cbn [negb andb]
  | |- context [if negb (truthy ?v) then _ else _] =>
      let H := fresh "Htruth" in
      destruct (truthy v) eqn:H; cbn [negb andb]
  | |- context [if negb (truthy ?v) && _ then _ else _] =>
      let H := fresh "Htruth" in
      destruct (truthy v) eqn:H; cbn [negb andb]
  end.

(** [load_config] either stops the process with status 1 or returns the
    value the file holds, which then passed every check; it leaves the
    world as it was when it returns, and touches nothing but the console
    and the file when it stops. *)
Lemma load_config_cases (w : world) :
  (exists w', load_config w = (Raise (SystemExit 1), w') /\ same_outside w w') \/
  (exists c, load_config w = (Return c, w) /\ config_file w = Holds c /\
             accepted c).
Proof.
  unfold load_config, bind, path_exists.
  destruct (config_file w) as [| |c] eqn:Hfile; cbn [negb].
  - unfold json_dump. exit1.
  - unfold try_except, bind, json_load. rewrite Hfile. exit1.
  - unfold try_except, bind, json_load, lift. rewrite Hfile.
    repeat step; try exit1.
    all: right; exists c; (split; [reflexivity|]); (split; [reflexivity|]).
    all: unfold accepted; split; [assumption|].
    all: do 2 eexists; (split; [eassumption|]); (split; [eassumption|]).
    all: split; [|split].
    all: try (intros T; first [congruence | eauto 6]).
    all: repeat match goal with H : truthy _ = _ |- _ => rewrite H; clear H end.
    all: reflexivity.
Qed.

Lemma load_config_accepted (w : world) (c : value) :
  config_file w = Holds c -> accepted c -> load_config w = (Return c, w).
Proof.
  intros Hfile (Hids & pe & ne & Hpe & Hne & Hpush & Hntfy & Hsome).
  unfold load_config, bind, path_exists, try_except, json_load, lift.
  rewrite Hfile; cbn [negb]. rewrite Hfile, Hids, Hpe, Hne.
  destruct (truthy pe) eqn:Tpe.
  - destruct (Hpush eq_refl) as (pc & Hpc & Hcred). rewrite Hpc, Hcred.
    unfold ret. destruct (truthy ne) eqn:Tne; [|reflexivity].
    destruct (Hntfy eq_refl) as (nc & topic & Hnc & Htopic & Ttopic).
    rewrite Hnc, Htopic, Ttopic. reflexivity.
  - unfold ret. destruct (truthy ne) eqn:Tne; [|discriminate].
    destruct (Hntfy eq_refl) as (nc & topic & Hnc & Htopic & Ttopic).
    rewrite Hnc, Htopic, Ttopic. reflexivity.
Qed.

(* ================================================================= *)
(** ** The shape of an accepted configuration *)

Lemma get2_shape (c : value) (k1 k2 : string) (default v : value) :
  get2 c k1 k2 default = Return v ->
  exists d r, c = VDict d /\ get_or k1 (VDict []) d = VDict r /\
              v = get_or k2 default r.
Proof.
  unfold get2. destruct c as [| | | | |d]; try discriminate. cbn [py_get bindO].
  destruct (get_or k1 (VDict []) d) as [| | | | |r] eqn:E; try discriminate.
  cbn [py_get]. intros H; inversion H; subst. eauto.
Qed.

Lemma get3_shape (c : value) (k1 k2 k3 : string) (default v : value) :
  get3 c k1 k2 k3 default = Return v ->
  exists d n p, c = VDict d /\ get_or k1 (VDict []) d = VDict n /\
                get_or k2 (VDict []) n = VDict p /\ v = get_or k3 default p.
Proof.
  intros H. unfold get3 in H.
  destruct (get2 c k1 k2 (VDict [])) as [inner|] eqn:E; [|discriminate].
  apply get2_shape in E. destruct E as (d & n & -> & Hn & ->).
  cbn [bindO] in H.
  destruct (get_or k2 (VDict []) n) as [| | | | |p] eqn:Hp; try discriminate.
  cbn [py_get] in H. inversion H; subst. exists d, n, p. auto.
Qed.

Lemma not_or_not_false (a b : outcome value) :
  not_or_not a b = Return false ->
  exists x y, a = Return x /\ truthy x = true /\
              b = Return y /\ truthy y = true.
Proof.
  unfold not_or_not. destruct a as [x|]; [|discriminate]. cbn [bindO].
  destruct (truthy x) eqn:Tx; cbn [negb]; [|discriminate].
  destruct b as [y|]; [|discriminate]. cbn [bindO].
  destruct (truthy y) eqn:Ty; cbn [negb]; [|discriminate].
  intros _. exists x, y. auto.
Qed.

Lemma get_or_is_True (key : string) (default : value)
  (d : list (string * value)) :
  is_True (get_or key VNone d) = true -> get_or key default d = VBool true.
Proof.
  unfold get_or. destruct (lookup key d) as [v|]; [|discriminate].
  destruct v as [| [|] | | | |]; try discriminate. reflexivity.
Qed.

(** Whatever [load_config] accepts, [validate_notification_settings]
    accepts too, without a word. *)
Lemma validate_accepted (c : value) (w : world) :
  accepted c -> validate_notification_settings c w = (Return true, w).
Proof.
  intros (_ & pe & ne & Hpe & Hne & Hpush & Hntfy & _).
  pose proof (get3_shape _ _ _ _ _ _ Hpe) as (d & n & p & -> & Hn & Hp & ->).
  pose proof (get3_shape _ _ _ _ _ _ Hne) as (d' & n' & t & Hd & Hn' & Ht & ->).
  inversion Hd; subst d'; clear Hd. rewrite Hn in Hn'; inversion Hn'; subst n'.
  unfold validate_notification_settings, bind, lift. cbn [py_get].
  rewrite Hn. cbn [py_get]. rewrite Hp. cbn [py_get].
  destruct (is_True (get_or "enabled" VNone p)) eqn:Tp.
  - apply (get_or_is_True _ (VBool false)) in Tp. rewrite Tp in Hpush.
    destruct (Hpush eq_refl) as (pc & Hpc & Hcred).
    unfold get2 in Hpc; cbn [py_get bindO] in Hpc; rewrite Hn in Hpc;
      cbn [py_get] in Hpc; rewrite Hp in Hpc; inversion Hpc; subst pc.
    cbn [py_get] in Hcred. rewrite Hcred. rewrite Ht. cbn [py_get].
    destruct (is_True (get_or "enabled" VNone t)) eqn:Tt; [|reflexivity].
    apply (get_or_is_True _ (VBool false)) in Tt. rewrite Tt in Hntfy.
    destruct (Hntfy eq_refl) as (nc & topic & Hnc & Htopic & Ttopic).
    unfold get2 in Hnc; cbn [py_get bindO] in Hnc; rewrite Hn in Hnc;
      cbn [py_get] in Hnc; rewrite Ht in Hnc; inversion Hnc; subst nc.
    cbn [py_get] in Htopic. inversion Htopic; subst topic.
    unfold ret. rewrite Ttopic. reflexivity.
  - unfold ret. rewrite Ht. cbn [py_get].
    destruct (is_True (get_or "enabled" VNone t)) eqn:Tt; [|reflexivity].
    apply (get_or_is_True _ (VBool false)) in Tt. rewrite Tt in Hntfy.
    destruct (Hntfy eq_refl) as (nc & topic & Hnc & Htopic & Ttopic).
    unfold get2 in Hnc; cbn [py_get bindO] in Hnc; rewrite Hn in Hnc;
      cbn [py_get] in Hnc; rewrite Ht in Hnc; inversion Hnc; subst nc.
    cbn [py_get] in Htopic. inversion Htopic; subst topic.
    rewrite Ttopic. reflexivity.
Qed.

(* ================================================================= *)
(** ** The calendar fetch *)

Lemma accepted_recollect (c : value) :
  accepted c ->
  exists d r, c = VDict d /\ get_or "recollect" (VDict []) d = VDict r.
Proof.
  intros (Hids & _). apply not_or_not_false in Hids.
  destruct Hids as (x & _ & Hx & _). apply get2_shape in Hx.
  destruct Hx as (d & r & -> & Hr & _). eauto.
Qed.

(** With a configuration that has a [recollect] record, the fetch reads
    the clock twice, sends one GET to the calendar and returns what
    [fetched] says of the reply; it never raises. *)
Lemma get_collection_data_spec (c : value) (w : world) :
  (exists d r, c = VDict d /\ get_or "recollect" (VDict []) d = VDict r) ->
  exists request out,
    method request = GET /\ is_calendar_url (url request) = true /\
    get_collection_data c w =
    (Return (fetched (network w request)),
     set_stdout
       (set_sent (set_ticks w (S (S (ticks w)))) (sent w ++ [request]))
       (stdout w ++ out)) /\
    (failed (network w request) = true ->
     out = [[Lit "Error fetching collection data: ";
             Exc (match network w request with
                  | Response status _ => HTTPError status
                  | Unreachable => ConnectionError
                  end)]]).
Proof.
  intros (d & r & -> & Hr).
  unfold get_collection_data, bind, lift, datetime_now. cbn [py_get].
  rewrite Hr. cbn [py_get].
  unfold try_except, bind, requests_send.
  cbn [network set_ticks sent clock ticks stdin config_file stdout set_sent].
  match goal with
  | |- context [network w ?r0] => exists r0; destruct (network w r0) as [|status content] eqn:Hreply
  end.
  - exists [[Lit "Error fetching collection data: "; Exc ConnectionError]].
    repeat split.
  - unfold raise_for_status, fetched. cbn [fst snd]. fold (http_error status).
    destruct (http_error status) eqn:Herr.
    + exists [[Lit "Error fetching collection data: "; Exc (HTTPError status)]].
      repeat split.
    + destruct content as [data|].
      * exists []. repeat split.
        -- unfold ret, response_json. cbn [snd set_stdout set_sent stdout].
           rewrite app_nil_r. reflexivity.
        -- cbn [failed]. rewrite Herr. discriminate.
      * exists [[Lit "Error fetching collection data: "; Exc InvalidJSONError]].
        repeat split. cbn [failed]. rewrite Herr. discriminate.
Qed.

(* ================================================================= *)
(** ** Runs in normal mode *)

Lemma main_rejected (args : Args.t) (w w' : world) :
  normal_mode args ->
  load_config w = (Raise (SystemExit 1), w') ->
  main args w = (Raise (SystemExit 1), w').
Proof.
  intros [Hh He] Hload. unfold main, bind. rewrite Hh, He, Hload. reflexivity.
Qed.

Lemma main_not_sunday (args : Args.t) (w : world) (c : value) :
  normal_mode args -> Args.force args = false ->
  config_file w = Holds c -> accepted c ->
  weekday (clock w (ticks w)) <> 6 ->
  main args w =
  (Return tt,
   set_stdout (set_ticks w (S (ticks w)))
     (stdout w ++ [[Lit "Not running because today is not Sunday"];
                   [Lit "Use --force to run regardless of day"]])).
Proof.
  intros [Hh He] Hf Hfile Hacc Hday. unfold main, bind.
  rewrite Hh, He, (load_config_accepted _ _ Hfile Hacc), validate_accepted by auto.
  rewrite Hf. cbn [negb]. unfold datetime_now, ret, print.
  apply Z.eqb_neq in Hday. rewrite Hday. cbn [negb].
  cbn [stdout set_stdout set_ticks]. rewrite <- app_assoc. reflexivity.
Qed.

(** On a Sunday the run without [--force] continues as a forced run does,
    one clock reading later. *)
Lemma main_sunday (args : Args.t) (w : world) (c : value) :
  normal_mode args -> Args.force args = false ->
  config_file w = Holds c -> accepted c ->
  weekday (clock w (ticks w)) = 6 ->
  main args w = main forced (set_ticks w (S (ticks w))).
Proof.
  intros [Hh He] Hf Hfile Hacc Hday. unfold main, bind.
  rewrite Hh, He, (load_config_accepted _ _ Hfile Hacc), validate_accepted by auto.
  rewrite Hf. cbn [negb forced Args.force Args.config_help Args.extract_ids].
  rewrite (load_config_accepted (set_ticks w (S (ticks w))) c) by auto.
  rewrite validate_accepted by auto. cbn [negb].
  unfold datetime_now, ret. apply Z.eqb_eq in Hday. rewrite Hday. reflexivity.
Qed.

Lemma normal_forced (args : Args.t) :
  normal_mode args -> Args.force args = true -> args = forced.
Proof.
  destruct args as [f e h]; unfold normal_mode; cbn.
  intros [-> ->] ->; reflexivity.
Qed.

(** A forced run with an accepted configuration whose fetch fails says
    so and returns. *)
Lemma main_forced_no_data (w : world) (c : value) :
  config_file w = Holds c -> accepted c ->
  (forall r, method r = GET -> truthy (fetched (network w r)) = false) ->
  exists fetch out,
    method fetch = GET /\ is_calendar_url (url fetch) = true /\
    main forced w =
    (Return tt,
     set_stdout (set_sent (set_ticks w (S (S (ticks w)))) (sent w ++ [fetch]))
       (stdout w ++ out ++ [[Lit "Failed to retrieve collection data"]])).
Proof.
  intros Hfile Hacc Hnet.
  destruct (get_collection_data_spec c w (accepted_recollect c Hacc))
    as (fetch & out & Hm & Hu & Hget & _).
  exists fetch, out. split; [exact Hm|]. split; [exact Hu|].
  unfold main, bind. cbn [forced Args.force Args.config_help Args.extract_ids].
  rewrite (load_config_accepted _ _ Hfile Hacc), validate_accepted by auto.
  cbn [negb]. unfold ret. rewrite Hget, (Hnet _ Hm). cbn [negb].
  unfold print. cbn [stdout set_stdout]. rewrite <- app_assoc. reflexivity.
Qed.

Lemma world_eta (w : world) :
  set_stdout (set_sent w (sent w ++ [])) (stdout w ++ []) = w.
Proof. destruct w; cbn. rewrite !app_nil_r. reflexivity. Qed.

(** Either way a dispatcher returns, having sent its one request if it
    is enabled and nothing otherwise. *)
Lemma send_pushover_any (types : list string) (c : value) (w : world)
  (pe : value) :
  get3 c "notifications" "pushover" "enabled" (VBool false) = Return pe ->
  exists token user ok out,
    send_pushover_notification (map VStr types) c w =
    (Return ok,
     set_stdout
       (set_sent w
          (sent w ++
           if truthy pe
           then [pushover_request token user (message_for types)] else []))
       (stdout w ++ out)).
Proof.
  intros Hpe. destruct (truthy pe) eqn:Tpe.
  - destruct (send_pushover_enabled types c w pe Hpe Tpe)
      as (token & user & out & H).
    exists token, user. eexists. exists [out]. exact H.
  - exists VNone, VNone, false, [].
    rewrite (send_pushover_disabled _ _ _ _ Hpe Tpe), world_eta. reflexivity.
Qed.

Lemma send_ntfy_any (types : list string) (c : value) (w : world)
  (ne : value) :
  get3 c "notifications" "ntfy" "enabled" (VBool false) = Return ne ->
  exists topic ok out,
    send_ntfy_notification (map VStr types) c w =
    (Return ok,
     set_stdout
       (set_sent w
          (sent w ++
           if truthy ne then [ntfy_request topic (message_for types)] else []))
       (stdout w ++ out)).
Proof.
  intros Hne. destruct (truthy ne) eqn:Tne.
  - destruct (send_ntfy_enabled types c w ne Hne Tne)
      as (topic & out & H).
    exists topic. eexists. exists [out]. exact H.
  - exists VNone, false, [].
    rewrite (send_ntfy_disabled _ _ _ _ Hne Tne), world_eta. reflexivity.
Qed.

(** A forced run with an accepted configuration and a payload of the
    expected shape: the fetch, then one request for each enabled
    dispatcher, whatever the network answers to them; then the run
    returns. *)
Lemma main_forced_delivers (w : world) (c data : value) (events : list value)
  (pe ne : value) :
  config_file w = Holds c -> accepted c ->
  get3 c "notifications" "pushover" "enabled" (VBool false) = Return pe ->
  get3 c "notifications" "ntfy" "enabled" (VBool false) = Return ne ->
  (forall r, method r = GET -> fetched (network w r) = data) ->
  wf_payload data events ->
  exists fetch token user topic w',
    method fetch = GET /\ is_calendar_url (url fetch) = true /\
    main forced w = (Return tt, w') /\
    let message :=
      message_for
        (distinct (filter nonempty
           (subjects_on (tomorrow_of (set_ticks w (S (S (ticks w))))) events))) in
    sent w' =
    sent w ++ fetch ::
      (if truthy pe then [pushover_request token user message] else []) ++
      (if truthy ne then [ntfy_request topic message] else []).
Proof.
  intros Hfile Hacc Hpe Hne Hnet Hwf.
  destruct (get_collection_data_spec c w (accepted_recollect c Hacc))
    as (fetch & out & Hm & Hu & Hget & _).
  assert (Htruthy : truthy data = true).
  { destruct Hwf as (d & -> & Hev & _). exact (lookup_some_truthy _ _ _ Hev). }
  exists fetch.
  unfold main, bind. cbn [forced Args.force Args.config_help Args.extract_ids].
  rewrite (load_config_accepted _ _ Hfile Hacc), validate_accepted by auto.
  cbn [negb]. unfold ret. rewrite Hget, (Hnet _ Hm), Htruthy. cbn [negb].
  rewrite (get_tomorrow_collections_wf _ _ _ Hwf).
  unfold tomorrow_of. cbn [clock ticks set_ticks set_stdout set_sent].
  set (types := distinct _).
  match goal with
  | |- context [send_pushover_notification _ _ ?w1] =>
      destruct (send_pushover_any types c w1 pe Hpe)
        as (token & user & ok1 & out1 & Hsend1)
  end.
  rewrite Hsend1. exists token, user.
  match goal with
  | |- context [send_ntfy_notification _ _ ?w2] =>
      destruct (send_ntfy_any types c w2 ne Hne)
        as (topic & ok2 & out2 & Hsend2)
  end.
  rewrite Hsend2. exists topic.
  destruct ok1, ok2; cbn [negb orb]; unfold print; eexists;
    (split; [exact Hm|]); (split; [exact Hu|]); (split; [reflexivity|]);
    cbv zeta; cbn [sent set_stdout set_sent set_ticks];
    rewrite <- !app_assoc; reflexivity.
Qed.

(** Through the open gate every run continues as a forced run, from a
    world that differs at most by one clock reading. *)
Lemma main_gate_open (args : Args.t) (w : world) (c : value) :
  normal_mode args -> config_file w = Holds c -> accepted c ->
  gate_open args w ->
  exists n,
    main args w = main forced (set_ticks w n) /\
    (n = ticks w \/ n = S (ticks w)).
Proof.
  intros Hn Hfile Hacc Hgate.
  destruct (Args.force args) eqn:Hf.
  - exists (ticks w). rewrite (normal_forced args Hn Hf).
    split; [|left; reflexivity]. destruct w; reflexivity.
  - destruct Hgate as [Hforce|Hday]; [congruence|].
    exists (S (ticks w)). split; [|right; reflexivity].
    exact (main_sunday args w c Hn Hf Hfile Hacc Hday).
Qed.

Lemma load_config_valid (w : world) (c : value) :
  fst (load_config w) = Return c -> config_file w = Holds c /\ accepted c.
Proof.
  intros H. destruct (load_config_cases w) as [(w1 & E & _)|(c1 & E & Hf & Ha)];
    rewrite E in H; cbn [fst] in H; inversion H; subst; auto.
Qed.

Lemma calendar_url_not_pushover (u : fstring) :
  is_calendar_url u = true -> is_pushover_url u = false.
Proof.
  destruct u as [|[a| |] [|q u]]; try discriminate; cbn; try reflexivity.
  intros H; apply String.eqb_eq in H; subst a. reflexivity.
Qed.

Lemma calendar_url_not_ntfy (u : fstring) :
  is_calendar_url u = true -> is_ntfy_url u = false.
Proof.
  destruct u as [|[a| |] u]; try discriminate; cbn.
  intros H; apply String.eqb_eq in H; subst a. reflexivity.
Qed.

(** The requests of a run that delivers: how many went where. *)
Lemma calls_of_delivery (fetch : request) (pe ne : bool)
  (token user topic : value) (message : string) :
  is_calendar_url (url fetch) = true ->
  let new :=
    fetch :: (if pe then [pushover_request token user message] else []) ++
             (if ne then [ntfy_request topic message] else []) in
  calls_to is_pushover_url new =
    (if pe then [pushover_request token user message] else []) /\
  calls_to is_ntfy_url new =
    (if ne then [ntfy_request topic message] else []).
Proof.
  intros Hu. cbv zeta. unfold calls_to. cbn [filter].
  rewrite (calendar_url_not_pushover _ Hu), (calendar_url_not_ntfy _ Hu).
  destruct pe, ne; split; reflexivity.
Qed.

(** A run in normal mode, through the gate, with an accepted
    configuration and a calendar that answers with a payload of the
    expected shape: it exits with status 0, having sent the fetch and one
    request for each enabled dispatcher, whatever the dispatchers were
    answered. *)
Lemma run_delivers (args : Args.t) (w : world) (c data : value)
  (events : list value) (pe ne : value) :
  normal_mode args ->
  fst (load_config w) = Return c ->
  get3 c "notifications" "pushover" "enabled" (VBool false) = Return pe ->
  get3 c "notifications" "ntfy" "enabled" (VBool false) = Return ne ->
  gate_open args w ->
  (forall r, method r = GET -> fetched (network w r) = data) ->
  wf_payload data events ->
  exists fetch token user topic message,
    method fetch = GET /\ is_calendar_url (url fetch) = true /\
    fst (run args w) = 0 /\
    sent (snd (run args w)) =
    sent w ++ fetch ::
      (if truthy pe then [pushover_request token user message] else []) ++
      (if truthy ne then [ntfy_request topic message] else []).
Proof.
  intros Hn Hload Hpe Hne Hgate Hnet Hwf.
  destruct (load_config_valid _ _ Hload) as [Hfile Hacc].
  destruct (main_gate_open args w c Hn Hfile Hacc Hgate) as (n & Hmain & _).
  destruct (main_forced_delivers (set_ticks w n) c data events pe ne)
    as (fetch & token & user & topic & w' & Hm & Hu & Hrun & Hsent); auto.
  exists fetch, token, user, topic. eexists.
  split; [exact Hm|]. split; [exact Hu|].
  unfold run. rewrite Hmain, Hrun. cbn [fst snd exit_status].
  split; [reflexivity|]. exact Hsent.
Qed.

(** C3.  A run in normal mode with a valid configuration in which
    Pushover is enabled (its credentials are then non-empty) and ntfy is
    disabled, which gets through the day gate and fetches a payload of
    the expected shape (with exactly one matching event, or any other
    number), issues exactly one request to the Pushover endpoint, a
    POST, and none to the ntfy endpoint.  A dispatcher whose enabled flag
    is false sends nothing, returns [False] and raises nothing: it
    leaves the world as it found it. *)
Theorem pushover_only_and_disabled_dispatchers :
  (forall (args : Args.t) (w : world) (c data : value) (events : list value)
          (pe ne : value),
     normal_mode args ->
     fst (load_config w) = Return c ->
     get3 c "notifications" "pushover" "enabled" (VBool false) = Return pe ->
     truthy pe = true ->
     get3 c "notifications" "ntfy" "enabled" (VBool false) = Return ne ->
     truthy ne = false ->
     gate_open args w ->
     (forall r, method r = GET -> fetched (network w r) = data) ->
     wf_payload data events ->
     exists new post,
       sent (snd (run args w)) = sent w ++ new /\
       calls_to is_pushover_url new = [post] /\ method post = POST /\
       calls_to is_ntfy_url new = []) /\
  (forall (collection_types : list value) (c : value) (w : world)
          (enabled : value),
     get3 c "notifications" "pushover" "enabled" (VBool false) = Return enabled ->
     truthy enabled = false ->
     send_pushover_notification collection_types c w = (Return false, w)) /\
  (forall (collection_types : list value) (c : value) (w : world)
          (enabled : value),
     get3 c "notifications" "ntfy" "enabled" (VBool false) = Return enabled ->
     truthy enabled = false ->
     send_ntfy_notification collection_types c w = (Return false, w)).
Proof.
  split; [|split].
  - intros args w c data events pe ne Hn Hload Hpe Tpe Hne Tne Hgate Hnet Hwf.
    destruct (run_delivers args w c data events pe ne)
      as (fetch & token & user & topic & message & Hm & Hu & _ & Hsent); auto.
    rewrite Tpe, Tne in Hsent.
    destruct (calls_of_delivery fetch true false token user topic message Hu)
      as [Hp Ht].
    eexists. exists (pushover_request token user message).
    split; [exact Hsent|]. split; [exact Hp|]. split; [reflexivity|exact Ht].
  - exact send_pushover_disabled.
  - exact send_ntfy_disabled.
Qed.

Lemma pushover_only_and_disabled_dispatchers_witness :
  let w := world_at sunday [] (Holds (example_config true false))
             (calendar_network 200 example_payload (Response 200 None)) in
  exists new post,
    sent (snd (run (Args.mk false false false) w)) = sent w ++ new /\
    calls_to is_pushover_url new = [post] /\ method post = POST /\
    calls_to is_ntfy_url new = [].
Proof.
  cbv zeta.
  apply (proj1 pushover_only_and_disabled_dispatchers (Args.mk false false false)
           _ (example_config true false) example_payload
           [event "2024-01-08" [flag "Garbage"; flag "Recycling"; flag "Garbage"]]
           (VBool true) (VBool false)).
  - split; reflexivity.
  - reflexivity.
  - reflexivity.
  - reflexivity.
  - reflexivity.
  - reflexivity.
  - right; reflexivity.
  - intros r Hr. unfold world_at, calendar_network. cbn [network].
    rewrite Hr. reflexivity.
  - eexists. split; [reflexivity|]. split; reflexivity.
Defined.

(** C2.  For every list of collection types, an enabled Pushover
    dispatcher sends, as the [message] field of its one request, "No
    waste collection scheduled for tomorrow." when the list is empty and
    otherwise "Tomorrow's collection includes: " followed by the types
    joined with ", " and a period; an enabled ntfy dispatcher sends the
    same text as the body of its one request. *)
Theorem dispatchers_compose_message (types : list string) (c : value)
  (w : world) :
  message_for [] = "No waste collection scheduled for tomorrow." /\
  (types <> [] ->
   message_for types =
   ("Tomorrow's collection includes: " ++ String.concat ", " types ++ ".")%string) /\
  (forall enabled,
     get3 c "notifications" "pushover" "enabled" (VBool false) = Return enabled ->
     truthy enabled = true ->
     exists token user,
       sent (snd (send_pushover_notification (map VStr types) c w)) =
       sent w ++ [pushover_request token user (message_for types)]) /\
  (forall enabled,
     get3 c "notifications" "ntfy" "enabled" (VBool false) = Return enabled ->
     truthy enabled = true ->
     exists topic,
       sent (snd (send_ntfy_notification (map VStr types) c w)) =
       sent w ++ [ntfy_request topic (message_for types)]).
Proof.
  split; [reflexivity|]. split; [|split].
  - destruct types; [congruence|reflexivity].
  - intros enabled Hget Hen.
    destruct (send_pushover_enabled types c w enabled Hget Hen)
      as (token & user & out & H).
    exists token, user. rewrite H. reflexivity.
  - intros enabled Hget Hen.
    destruct (send_ntfy_enabled types c w enabled Hget Hen)
      as (topic & out & H).
    exists topic. rewrite H. reflexivity.
Qed.

Lemma dispatchers_compose_message_witness :
  let w := world_at sunday [] Absent no_network in
  exists token user,
    sent (snd (send_pushover_notification
                 (map VStr ["Garbage"; "Recycling"]) (example_config true true) w)) =
    sent w ++ [pushover_request token user
                 "Tomorrow's collection includes: Garbage, Recycling."].
Proof.
  cbv zeta.
  apply (proj1 (proj2 (proj2 (dispatchers_compose_message
                                ["Garbage"; "Recycling"]
                                (example_config true true)
                                (world_at sunday [] Absent no_network))))
           (VBool true)); reflexivity.
Defined.

(* ================================================================= *)
(** ** Rejected configurations *)

Lemma get_or_truthy (key : string) (default : value)
  (d : list (string * value)) :
  truthy default = false -> truthy (get_or key default d) = true ->
  lookup key d = Some (get_or key default d).
Proof.
  unfold get_or. destruct (lookup key d); [reflexivity|congruence].
Qed.

Lemma get_or_dict (key : string) (d r : list (string * value)) :
  get_or key (VDict []) d = VDict r -> r <> [] -> lookup key d = Some (VDict r).
Proof.
  unfold get_or. destruct (lookup key d); intros H Hr; congruence.
Qed.

Lemma lookup_some_nonempty (key : string) (d : list (string * value)) v :
  lookup key d = Some v -> d <> [].
Proof. destruct d; [discriminate|congruence]. Qed.

(** A true value that [.get] chains find is at that path of the
    configuration. *)
Lemma get2_truthy_dig (c : value) (k1 k2 : string) (default v : value) :
  truthy default = false ->
  get2 c k1 k2 default = Return v -> truthy v = true ->
  dig c [k1; k2] = Some v.
Proof.
  intros Hd Hget Hv. apply get2_shape in Hget.
  destruct Hget as (d & r & -> & Hr & ->).
  pose proof (get_or_truthy _ _ _ Hd Hv) as Hk2.
  pose proof (get_or_dict _ _ _ Hr (lookup_some_nonempty _ _ _ Hk2)) as Hk1.
  cbn [dig]. rewrite Hk1, Hk2. reflexivity.
Qed.

Lemma get3_truthy_dig (c : value) (k1 k2 k3 : string) (default v : value) :
  truthy default = false ->
  get3 c k1 k2 k3 default = Return v -> truthy v = true ->
  dig c [k1; k2; k3] = Some v.
Proof.
  intros Hd Hget Hv. apply get3_shape in Hget.
  destruct Hget as (d & n & p & -> & Hn & Hp & ->).
  pose proof (get_or_truthy _ _ _ Hd Hv) as Hk3.
  pose proof (get_or_dict _ _ _ Hp (lookup_some_nonempty _ _ _ Hk3)) as Hk2.
  pose proof (get_or_dict _ _ _ Hn (lookup_some_nonempty _ _ _ Hk2)) as Hk1.
  cbn [dig]. rewrite Hk1, Hk2, Hk3. reflexivity.
Qed.

(** What is at a path is what the [.get] chain returns. *)
Lemma dig_get3 (c : value) (k1 k2 k3 : string) (default v v' : value) :
  dig c [k1; k2; k3] = Some v ->
  get3 c k1 k2 k3 default = Return v' -> v' = v.
Proof.
  intros Hdig Hget. apply get3_shape in Hget.
  destruct Hget as (d & n & p & -> & Hn & Hp & ->).
  cbn [dig] in Hdig. unfold get_or in *.
  destruct (lookup k1 d) as [[| | | | |n']|]; try discriminate.
  inversion Hn; subst n'.
  destruct (lookup k2 n) as [[| | | | |p']|]; try discriminate.
  inversion Hp; subst p'.
  destruct (lookup k3 p); [congruence|discriminate].
Qed.

Lemma blank_dig_truthy (o : option value) (v : value) :
  o = Some v -> truthy v = true -> blank o = false.
Proof. intros -> H; cbn; rewrite H; reflexivity. Qed.

Lemma get3_of_get2 (c : value) (k1 k2 k3 : string) (default inner v : value) :
  get2 c k1 k2 (VDict []) = Return inner ->
  py_get inner k3 default = Return v ->
  get3 c k1 k2 k3 default = Return v.
Proof. intros H1 H2. unfold get3. rewrite H1. exact H2. Qed.

Lemma backend_enabled_truthy (c : value) (backend : string) (v : value) :
  get3 c "notifications" backend "enabled" (VBool false) = Return v ->
  backend_enabled c backend = truthy v.
Proof.
  intros Hget. unfold backend_enabled.
  destruct (truthy v) eqn:Tv.
  - rewrite (blank_dig_truthy _ v); auto.
    apply (get3_truthy_dig _ _ _ _ (VBool false)); auto.
  - destruct (dig c ["notifications"; backend; "enabled"]) as [x|] eqn:Hdig;
      [|reflexivity].
    rewrite (dig_get3 _ _ _ _ _ _ _ Hdig Hget) in Tv. cbn. rewrite Tv. reflexivity.
Qed.

(** The three conditions of the specification all fail on a
    configuration [load_config] accepts. *)
Lemma accepted_not_rejected (c : value) :
  accepted c ->
  ids_missing c || no_backend_enabled c || credentials_missing c = false.
Proof.
  intros (Hids & pe & ne & Hpe & Hne & Hpush & Hntfy & Hsome).
  apply not_or_not_false in Hids.
  destruct Hids as (p & s & Hp & Tp & Hs & Ts).
  assert (Hdp : dig c ["recollect"; "place_id"] = Some p)
    by (apply (get2_truthy_dig _ _ _ VNone); auto).
  assert (Hds : dig c ["recollect"; "service_id"] = Some s)
    by (apply (get2_truthy_dig _ _ _ VNone); auto).
  unfold ids_missing, no_backend_enabled, credentials_missing.
  rewrite (blank_dig_truthy _ p Hdp Tp), (blank_dig_truthy _ s Hds Ts).
  rewrite (backend_enabled_truthy _ _ _ Hpe), (backend_enabled_truthy _ _ _ Hne).
  cbn [orb]. rewrite <- negb_orb, Hsome. cbn [negb orb].
  apply orb_false_iff; split.
  - destruct (truthy pe) eqn:Tpe; [|reflexivity].
    destruct (Hpush eq_refl) as (pc & Hpc & Hcred).
    apply not_or_not_false in Hcred.
    destruct Hcred as (u & a & Hu & Tu & Ha & Ta).
    rewrite (blank_dig_truthy _ u), (blank_dig_truthy _ a); auto.
    + apply (get3_truthy_dig _ _ _ _ VNone); auto.
      exact (get3_of_get2 _ _ _ _ _ _ _ Hpc Ha).
    + apply (get3_truthy_dig _ _ _ _ VNone); auto.
      exact (get3_of_get2 _ _ _ _ _ _ _ Hpc Hu).
  - destruct (truthy ne) eqn:Tne; [|reflexivity].
    destruct (Hntfy eq_refl) as (nc & topic & Hnc & Htopic & Ttopic).
    rewrite (blank_dig_truthy _ topic); auto.
    apply (get3_truthy_dig _ _ _ _ VNone); auto.
    exact (get3_of_get2 _ _ _ _ _ _ _ Hnc Htopic).
Qed.

(** A run in normal mode whose configuration does not load is nothing
    but [load_config]: it stops there, with status 1. *)
Lemma run_rejected (args : Args.t) (w : world) :
  normal_mode args ->
  (forall c, fst (load_config w) <> Return c) ->
  fst (load_config w) = Raise (SystemExit 1) /\
  run args w = (1, snd (load_config w)) /\
  same_outside w (snd (run args w)).
Proof.
  intros Hn Hno.
  destruct (load_config_cases w) as [(w1 & E & Hsame)|(c & E & _)].
  - unfold run. rewrite (main_rejected args w w1 Hn E), E. cbn [fst snd exit_status].
    auto.
  - exfalso. apply (Hno c). rewrite E. reflexivity.
Qed.

(** C4.  When the configuration file holds a value whose [place_id] or
    [service_id] is empty or missing, or in which no notification
    backend is enabled, or in which an enabled backend misses a
    credential, [load_config] stops the process with status 1, and a run
    in normal mode is nothing but that call: the clock is not read and
    no request is sent, so neither the calendar fetch nor a dispatcher
    was invoked.  [load_config] itself never sends a request. *)
Theorem invalid_configuration_stops_before_network :
  (forall (args : Args.t) (w : world) (c : value),
     normal_mode args ->
     config_file w = Holds c ->
     ids_missing c || no_backend_enabled c || credentials_missing c = true ->
     fst (load_config w) = Raise (SystemExit 1) /\
     run args w = (1, snd (load_config w)) /\
     sent (snd (run args w)) = sent w /\
     ticks (snd (run args w)) = ticks w) /\
  (forall w : world, sent (snd (load_config w)) = sent w).
Proof.
  split.
  - intros args w c Hn Hfile Hbad.
    destruct (run_rejected args w Hn) as (Hexit & Hrun & Hsame).
    + intros c' Hc'. apply load_config_valid in Hc'. destruct Hc' as [Hf Hacc].
      rewrite Hfile in Hf. inversion Hf; subst c'.
      rewrite (accepted_not_rejected c Hacc) in Hbad. discriminate.
    + destruct Hsame as (_ & Hticks & _ & _ & Hsent). auto.
  - intros w.
    destruct (load_config_cases w) as [(w1 & E & Hsame)|(c & E & _)];
      rewrite E; cbn [snd]; [|reflexivity].
    destruct Hsame as (_ & _ & _ & _ & Hsent). exact Hsent.
Qed.

Lemma invalid_configuration_stops_before_network_witness :
  let c := VDict [ ("recollect", VDict [("service_id", VStr "456")]);
                   ("notifications",
                    VDict [("ntfy", VDict [ ("enabled", VBool true);
                                            ("topic", VStr "waste") ])]) ] in
  let w := world_at sunday [] (Holds c)
             (calendar_network 200 example_payload (Response 200 None)) in
  fst (load_config w) = Raise (SystemExit 1) /\
  run forced w = (1, snd (load_config w)) /\
  sent (snd (run forced w)) = sent w /\
  ticks (snd (run forced w)) = ticks w.
Proof.
  cbv zeta.
  apply (proj1 invalid_configuration_stops_before_network forced _
           (VDict [ ("recollect", VDict [("service_id", VStr "456")]);
                    ("notifications",
                     VDict [("ntfy", VDict [ ("enabled", VBool true);
                                             ("topic", VStr "waste") ])]) ])).
  - split; reflexivity.
  - reflexivity.
  - reflexivity.
Defined.

(* ================================================================= *)
(** ** The day gate *)

(** C5, as amended.  In normal mode without [--force], when the clock
    does not read a Sunday, no request is ever sent and the clock is read
    at most once, so the fetch step is not invoked; and when the
    configuration is valid the run prints its two explanatory lines and
    exits with status 0.  (With a configuration that does not load, the
    run has already stopped with status 1.) *)
Theorem not_sunday_skips_fetch :
  (forall (args : Args.t) (w : world),
     normal_mode args -> Args.force args = false ->
     weekday (clock w (ticks w)) <> 6 ->
     sent (snd (run args w)) = sent w /\
     (ticks (snd (run args w)) <= S (ticks w))%nat) /\
  (forall (args : Args.t) (w : world) (c : value),
     normal_mode args -> Args.force args = false ->
     fst (load_config w) = Return c ->
     weekday (clock w (ticks w)) <> 6 ->
     run args w =
     (0, set_stdout (set_ticks w (S (ticks w)))
           (stdout w ++ [[Lit "Not running because today is not Sunday"];
                         [Lit "Use --force to run regardless of day"]]))).
Proof.
  split.
  - intros args w Hn Hf Hday.
    destruct (load_config_cases w) as [(w1 & E & Hsame)|(c & E & Hfile & Hacc)].
    + unfold run. rewrite (main_rejected args w w1 Hn E). cbn [snd].
      destruct Hsame as (_ & Hticks & _ & _ & Hsent). rewrite Hticks, Hsent.
      split; [reflexivity|lia].
    + unfold run. rewrite (main_not_sunday args w c Hn Hf Hfile Hacc Hday).
      cbn [snd sent ticks set_stdout set_ticks]. split; [reflexivity|lia].
  - intros args w c Hn Hf Hload Hday.
    destruct (load_config_valid _ _ Hload) as [Hfile Hacc].
    unfold run. rewrite (main_not_sunday args w c Hn Hf Hfile Hacc Hday).
    reflexivity.
Qed.

Lemma not_sunday_skips_fetch_witness :
  let w := world_at monday [] (Holds (example_config true false))
             (calendar_network 200 example_payload (Response 200 None)) in
  run (Args.mk false false false) w =
  (0, set_stdout (set_ticks w 1)
        [[Lit "Not running because today is not Sunday"];
         [Lit "Use --force to run regardless of day"]]).
Proof.
  cbv zeta.
  apply (proj2 not_sunday_skips_fetch (Args.mk false false false)
           (world_at monday [] (Holds (example_config true false))
              (calendar_network 200 example_payload (Response 200 None)))
           (example_config true false)).
  - split; reflexivity.
  - reflexivity.
  - reflexivity.
  - discriminate.
Defined.

(** C5 as stated fails: on a Monday, without [--force], with no
    configuration file, the run exits with status 1, not 0. *)
Lemma not_sunday_without_configuration_exits_1 :
  let w := world_at monday [] Absent no_network in
  weekday (clock w (ticks w)) = 0 /\
  fst (run (Args.mk false false false) w) = 1 /\
  fst (run (Args.mk false false false) w) <> 0.
Proof.
  cbv zeta. split; [reflexivity|]. split; [reflexivity|].
  vm_compute. discriminate.
Qed.

(* ================================================================= *)
(** ** Failures of the network *)

Lemma failed_fetched (r : reply) : failed r = true -> fetched r = VNone.
Proof.
  destruct r as [|status content]; [reflexivity|]. cbn. intros ->. reflexivity.
Qed.

Lemma run_fetch_failed (args : Args.t) (w : world) (c : value) :
  normal_mode args ->
  fst (load_config w) = Return c ->
  gate_open args w ->
  (forall r, method r = GET -> failed (network w r) = true) ->
  fst (run args w) = 0 /\
  exists fetch, method fetch = GET /\ sent (snd (run args w)) = sent w ++ [fetch].
Proof.
  intros Hn Hload Hgate Hnet.
  destruct (load_config_valid _ _ Hload) as [Hfile Hacc].
  destruct (main_gate_open args w c Hn Hfile Hacc Hgate) as (n & Hmain & _).
  destruct (main_forced_no_data (set_ticks w n) c) as (fetch & out & Hm & _ & Hrun);
    auto.
  { intros r Hr. cbn [network set_ticks].
    rewrite (failed_fetched _ (Hnet r Hr)). reflexivity. }
  unfold run. rewrite Hmain, Hrun. cbn [fst snd exit_status].
  split; [reflexivity|]. exists fetch. split; [exact Hm|reflexivity].
Qed.

(** C6, as amended.  On a transport error or an HTTP error status (400
    to 599) the calendar fetch returns no data instead of raising, and
    the run exits with status 0.  An enabled dispatcher whose request
    meets such a failure returns [False] instead of raising.  In a run
    that fetched a payload, each enabled dispatcher sends its one
    request whatever the other was answered, and the run exits with
    status 0. *)
Theorem network_failures_are_recovered :
  (forall (c : value) (w : world),
     accepted c ->
     (forall r, method r = GET -> failed (network w r) = true) ->
     fst (get_collection_data c w) = Return VNone) /\
  (forall (args : Args.t) (w : world) (c : value),
     normal_mode args ->
     fst (load_config w) = Return c ->
     gate_open args w ->
     (forall r, method r = GET -> failed (network w r) = true) ->
     fst (run args w) = 0) /\
  (forall (types : list string) (c : value) (w : world) (enabled : value),
     (forall r, method r = POST -> failed (network w r) = true) ->
     truthy enabled = true ->
     (get3 c "notifications" "pushover" "enabled" (VBool false) = Return enabled ->
      fst (send_pushover_notification (map VStr types) c w) = Return false) /\
     (get3 c "notifications" "ntfy" "enabled" (VBool false) = Return enabled ->
      fst (send_ntfy_notification (map VStr types) c w) = Return false)) /\
  (forall (args : Args.t) (w : world) (c data : value) (events : list value)
          (pe ne : value),
     normal_mode args ->
     fst (load_config w) = Return c ->
     get3 c "notifications" "pushover" "enabled" (VBool false) = Return pe ->
     get3 c "notifications" "ntfy" "enabled" (VBool false) = Return ne ->
     gate_open args w ->
     (forall r, method r = GET -> fetched (network w r) = data) ->
     wf_payload data events ->
     fst (run args w) = 0 /\
     exists new,
       sent (snd (run args w)) = sent w ++ new /\
       (truthy pe = true -> length (calls_to is_pushover_url new) = 1%nat) /\
       (truthy ne = true -> length (calls_to is_ntfy_url new) = 1%nat)).
Proof.
  split; [|split; [|split]].
  - intros c w Hacc Hnet.
    destruct (get_collection_data_spec c w (accepted_recollect c Hacc))
      as (fetch & out & Hm & _ & Hget & _).
    rewrite Hget. cbn [fst]. rewrite (failed_fetched _ (Hnet _ Hm)). reflexivity.
  - intros args w c Hn Hload Hgate Hnet.
    exact (proj1 (run_fetch_failed args w c Hn Hload Hgate Hnet)).
  - intros types c w enabled Hnet Hen. split; intros Hget.
    + destruct (send_pushover_enabled types c w enabled Hget Hen)
        as (token & user & out & H).
      cbv zeta in H. rewrite H. cbn [fst]. rewrite Hnet; reflexivity.
    + destruct (send_ntfy_enabled types c w enabled Hget Hen)
        as (topic & out & H).
      cbv zeta in H. rewrite H. cbn [fst]. rewrite Hnet; reflexivity.
  - intros args w c data events pe ne Hn Hload Hpe Hne Hgate Hnet Hwf.
    destruct (run_delivers args w c data events pe ne)
      as (fetch & token & user & topic & message & Hm & Hu & Hexit & Hsent); auto.
    split; [exact Hexit|]. eexists. split; [exact Hsent|].
    destruct (calls_of_delivery fetch (truthy pe) (truthy ne)
                token user topic message Hu) as [Hp Ht].
    cbv zeta in Hp, Ht. rewrite Hp, Ht.
    split; intros ->; reflexivity.
Qed.

Lemma network_failures_are_recovered_witness :
  let w := world_at sunday [] (Holds (example_config true true))
             (calendar_network 200 example_payload (Response 500 None)) in
  fst (run forced w) = 0 /\
  exists new,
    sent (snd (run forced w)) = sent w ++ new /\
    (truthy (VBool true) = true -> length (calls_to is_pushover_url new) = 1%nat) /\
    (truthy (VBool true) = true -> length (calls_to is_ntfy_url new) = 1%nat).
Proof.
  cbv zeta.
  apply (proj2 (proj2 (proj2 network_failures_are_recovered)) forced
           (world_at sunday [] (Holds (example_config true true))
              (calendar_network 200 example_payload (Response 500 None)))
           (example_config true true) example_payload
           [event "2024-01-08" [flag "Garbage"; flag "Recycling"; flag "Garbage"]]
           (VBool true) (VBool true)).
  - split; reflexivity.
  - reflexivity.
  - reflexivity.
  - reflexivity.
  - left; reflexivity.
  - intros r Hr. unfold world_at, calendar_network. cbn [network].
    rewrite Hr. reflexivity.
  - eexists. split; [reflexivity|]. split; reflexivity.
Defined.

(** C6 as stated fails: the status 300 is not a 2xx status, yet
    [raise_for_status] does not raise on it, and the fetch returns the
    body of the response as data. *)
Lemma get_collection_data_returns_data_on_300 :
  let w := world_at sunday [] (Holds (example_config true false))
             (calendar_network 300 example_payload (Response 200 None)) in
  (300 <? 200) || (299 <? 300) = true /\
  fst (get_collection_data (example_config true false) w) = Return example_payload /\
  example_payload <> VNone.
Proof.
  cbv zeta. split; [reflexivity|]. split; [reflexivity|discriminate].
Qed.

(* ================================================================= *)
(** ** The extraction helper *)

(** When the paste yields no pair, the helper says so and returns; the
    world differs by the lines read and the lines printed. *)
Lemma extract_ids_failed (w : world) (lines rest : list string) :
  read_paste (stdin w) [] = (Return lines, rest) ->
  extract_ids_from_curl (String.concat " " lines) = (VNone, VNone) ->
  extract_ids w =
  (Return tt,
   set_stdout (set_stdin w rest) (stdout w ++ prompt_lines ++ failure_lines)).
Proof.
  intros Hread Hnone.
  unfold extract_ids, bind, print, input_until_blank.
  cbn [stdin set_stdout]. rewrite Hread, Hnone. cbn [truthy andb].
  cbn [stdout set_stdout set_stdin]. rewrite <- !app_assoc. reflexivity.
Qed.

(** When the paste yields a pair, the helper returns, and the file is
    [updated]. *)
Lemma extract_ids_found (w : world) (lines rest : list string)
  (place_id service_id : string) :
  read_paste (stdin w) [] = (Return lines, rest) ->
  extract_ids_from_curl (String.concat " " lines)
  = (VStr place_id, VStr service_id) ->
  exists out,
    extract_ids w =
    (Return tt,
     set_stdout
       (set_config_file (set_stdin w rest)
          (updated (config_file w) place_id service_id))
       out).
Proof.
  intros Hread Hpair.
  destruct (extract_ids_from_curl_shape (String.concat " " lines))
    as [Hnone|(p & s & Hps & Hp & Hs)]; [congruence|].
  rewrite Hpair in Hps. inversion Hps; subst p s.
  apply truthy_VStr in Hp, Hs.
  destruct w as [cl ti si cf ne so se].
  cbn [stdin config_file] in *.
  unfold extract_ids, bind, print, input_until_blank.
  cbn [stdin stdout set_stdout]. rewrite Hread, Hpair, Hp, Hs. cbn [andb].
  cbn [stdout set_stdout set_stdin].
  unfold try_except, bind, path_exists, json_load, json_dump, lift, ret, print.
  cbn [config_file stdout set_stdout set_stdin set_config_file].
  destruct cf as [| |c]; [| |destruct c];
    cbn [py_setitem is_Exception updated stdout set_stdout set_config_file];
    eexists; reflexivity.
Qed.

(** When standard input ends before a blank line, [input()] raises and
    the helper stops there. *)
Lemma extract_ids_raised (w : world) (e : exn) (rest : list string) :
  read_paste (stdin w) [] = (Raise e, rest) ->
  extract_ids w =
  (Raise e, set_stdout (set_stdin w rest) (stdout w ++ prompt_lines)).
Proof.
  intros Hread.
  unfold extract_ids, bind, print, input_until_blank.
  cbn [stdin set_stdout]. rewrite Hread.
  cbn [stdout set_stdout set_stdin]. rewrite <- !app_assoc. reflexivity.
Qed.

Lemma lookup_set_item_same (key : string) (v : value)
  (d : list (string * value)) :
  lookup key (set_item key v d) = Some v.
Proof.
  induction d as [|[k w] d IH]; cbn [set_item lookup].
  - rewrite String.eqb_refl. reflexivity.
  - destruct (k =? key)%string eqn:E; cbn [lookup]; rewrite E; auto.
Qed.

Lemma lookup_set_item_other (key k : string) (v : value)
  (d : list (string * value)) :
  k <> key -> lookup k (set_item key v d) = lookup k d.
Proof.
  intros Hne. induction d as [|[k' w] d IH]; cbn [set_item lookup].
  - destruct (String.eqb_spec key k); [congruence|reflexivity].
  - destruct (String.eqb_spec k' key) as [->|Hk']; cbn [lookup].
    + destruct (String.eqb_spec key k); [congruence|reflexivity].
    + destruct (k' =? k)%string; auto.
Qed.

Lemma not_both_is_none (curl_command : string) :
  truthy (fst (extract_ids_from_curl curl_command))
  && truthy (snd (extract_ids_from_curl curl_command)) = false ->
  extract_ids_from_curl curl_command = (VNone, VNone).
Proof.
  destruct (extract_ids_from_curl_shape curl_command)
    as [H|(p & s & H & Hp & Hs)]; [auto|].
  rewrite H. cbn [fst snd]. apply truthy_VStr in Hp, Hs. rewrite Hp, Hs.
  discriminate.
Qed.

Lemma main_extract_ids (args : Args.t) (w : world) :
  Args.config_help args = false -> Args.extract_ids args = true ->
  main args w = extract_ids w.
Proof. intros Hh He. unfold main. rewrite Hh, He. reflexivity. Qed.

(** C8.  When the pasted lines do not yield both identifiers, the helper
    prints that it could not extract the IDs and returns: the run exits
    with status 0, the configuration file is what it was (neither
    created nor modified), and no request is sent. *)
Theorem failed_extraction_mutates_nothing (args : Args.t) (w : world)
  (lines rest : list string) :
  Args.config_help args = false -> Args.extract_ids args = true ->
  read_paste (stdin w) [] = (Return lines, rest) ->
  truthy (fst (extract_ids_from_curl (String.concat " " lines)))
  && truthy (snd (extract_ids_from_curl (String.concat " " lines))) = false ->
  run args w =
  (0, set_stdout (set_stdin w rest)
        (stdout w ++ prompt_lines ++ failure_lines)) /\
  config_file (snd (run args w)) = config_file w /\
  sent (snd (run args w)) = sent w.
Proof.
  intros Hh He Hread Hfail. apply not_both_is_none in Hfail.
  unfold run. rewrite (main_extract_ids args w Hh He).
  rewrite (extract_ids_failed w lines rest Hread Hfail).
  cbn [exit_status snd config_file sent set_stdout set_stdin]. auto.
Qed.

Lemma failed_extraction_mutates_nothing_witness :
  let w := world_at sunday (paste ["curl 'https://example.org/calendar'"])
             Absent no_network in
  run (Args.mk false true false) w =
  (0, set_stdout (set_stdin w []) (stdout w ++ prompt_lines ++ failure_lines)) /\
  config_file (snd (run (Args.mk false true false) w)) = config_file w /\
  sent (snd (run (Args.mk false true false) w)) = sent w.
Proof.
  cbv zeta.
  apply (failed_extraction_mutates_nothing (Args.mk false true false)
           (world_at sunday (paste ["curl 'https://example.org/calendar'"])
              Absent no_network)
           ["curl 'https://example.org/calendar'"] []); reflexivity.
Defined.

(** C9, as amended.  When extraction succeeds and the configuration
    file is absent, the file is created with the extracted pair as its
    [recollect] record and the default [notifications] record; when the
    file holds a JSON object, its [recollect] item becomes exactly the
    extracted pair (what the record held before is not kept) and every
    other item of the object is preserved unchanged. *)
Theorem successful_extraction_replaces_recollect (w : world)
  (lines rest : list string) (place_id service_id : string) :
  read_paste (stdin w) [] = (Return lines, rest) ->
  extract_ids_from_curl (String.concat " " lines)
  = (VStr place_id, VStr service_id) ->
  (config_file w = Absent ->
   config_file (snd (extract_ids w)) =
   Holds (VDict [ ("recollect", ids_record place_id service_id);
                  ("notifications", default_notifications) ])) /\
  (forall d,
     config_file w = Holds (VDict d) ->
     exists d',
       config_file (snd (extract_ids w)) = Holds (VDict d') /\
       lookup "recollect" d' = Some (ids_record place_id service_id) /\
       forall key, key <> "recollect" -> lookup key d' = lookup key d).
Proof.
  intros Hread Hpair.
  destruct (extract_ids_found w lines rest place_id service_id Hread Hpair)
    as (out & H).
  rewrite H. cbn [snd config_file set_stdout set_config_file]. split.
  - intros ->. reflexivity.
  - intros d ->. cbn [updated]. eexists. split; [reflexivity|]. split.
    + apply lookup_set_item_same.
    + intros key Hkey. now apply lookup_set_item_other.
Qed.

Lemma successful_extraction_replaces_recollect_witness :
  let w := world_at sunday
             (paste ["curl 'https://api.recollect.net/api/places/ABC-123/services/456/events'"])
             (Holds (example_config true false)) no_network in
  exists d',
    config_file (snd (extract_ids w)) = Holds (VDict d') /\
    lookup "recollect" d' = Some (ids_record "ABC-123" "456") /\
    forall key, key <> "recollect" ->
      lookup key d' =
      lookup key [ ("recollect",
                    VDict [ ("place_id", VStr "ABC-123");
                            ("service_id", VStr "456") ]);
                   ("notifications",
                    VDict
                      [ ("pushover",
                         VDict [ ("enabled", VBool true);
                                 ("user_key", VStr "user");
                                 ("api_token", VStr "token") ]);
                        ("ntfy",
                         VDict [ ("enabled", VBool false);
                                 ("topic", VStr "waste") ]) ]) ].
Proof.
  cbv zeta.
  apply (proj2 (successful_extraction_replaces_recollect
                  (world_at sunday
                     (paste ["curl 'https://api.recollect.net/api/places/ABC-123/services/456/events'"])
                     (Holds (example_config true false)) no_network)
                  ["curl 'https://api.recollect.net/api/places/ABC-123/services/456/events'"]
                  [] "ABC-123" "456" eq_refl eq_refl)).
  reflexivity.
Defined.

(** C9 as stated fails: the [recollect] record of the file holds a
    field [note] besides the two identifiers; extraction succeeds, and
    the field is gone from the file. *)
Lemma extraction_drops_other_recollect_fields :
  let before :=
    VDict [ ("recollect",
             VDict [ ("place_id", VStr "OLD"); ("service_id", VStr "1");
                     ("note", VStr "kept by hand") ]);
            ("notifications", default_notifications) ] in
  let w := world_at sunday
             (paste ["curl 'https://api.recollect.net/api/places/ABC-123/services/456/events'"])
             (Holds before) no_network in
  extract_ids_from_curl
    "curl 'https://api.recollect.net/api/places/ABC-123/services/456/events'"
  = (VStr "ABC-123", VStr "456") /\
  dig before ["recollect"; "note"] = Some (VStr "kept by hand") /\
  exists after,
    config_file (snd (extract_ids w)) = Holds after /\
    dig after ["recollect"; "note"] = None.
Proof.
  cbv zeta. split; [reflexivity|]. split; [reflexivity|].
  eexists. split; reflexivity.
Qed.

(** C10.  For every text, [extract_ids_from_curl] returns either
    [(None, None)] or two identifiers that are both non-empty strings;
    it never returns one identifier without the other.  So whenever the
    helper leaves a configuration file other than the one it found, the
    file holds a JSON object whose [recollect] record is a complete
    pair. *)
Theorem extract_ids_from_curl_both_or_none :
  (forall curl_command : string,
     extract_ids_from_curl curl_command = (VNone, VNone) \/
     exists place_id service_id : string,
       extract_ids_from_curl curl_command = (VStr place_id, VStr service_id) /\
       place_id <> EmptyString /\ service_id <> EmptyString) /\
  (forall w : world,
     config_file (snd (extract_ids w)) = config_file w \/
     exists (place_id service_id : string) d',
       place_id <> EmptyString /\ service_id <> EmptyString /\
       config_file (snd (extract_ids w)) = Holds (VDict d') /\
       lookup "recollect" d' = Some (ids_record place_id service_id)).
Proof.
  split; [exact extract_ids_from_curl_shape|].
  intros w. destruct (read_paste (stdin w) []) as [[lines|e] rest] eqn:Hread.
  - destruct (extract_ids_from_curl_shape (String.concat " " lines))
      as [Hnone|(p & s & Hpair & Hp & Hs)].
    + left. rewrite (extract_ids_failed w lines rest Hread Hnone). reflexivity.
    + destruct (extract_ids_found w lines rest p s Hread Hpair) as (out & H).
      rewrite H. cbn [snd config_file set_stdout set_config_file].
      destruct (config_file w) as [| |c]; [| |destruct c]; cbn [updated];
        try (left; reflexivity).
      * right. exists p, s. eexists. repeat split; auto.
      * right. exists p, s. eexists. repeat split; auto.
        apply lookup_set_item_same.
  - left. rewrite (extract_ids_raised w e rest Hread). reflexivity.
Qed.

(* ================================================================= *)
(** ** What the functions leave alone *)

Lemma safe_bindO {A B} (m : outcome A) (k : A -> outcome B) :
  safe m -> (forall a, safe (k a)) -> safe (bindO m k).
Proof.
  intros Hm Hk e H. destruct m as [a|e']; cbn [bindO] in H.
  - exact (Hk a e H).
  - apply Hm. inversion H; reflexivity.
Qed.

Lemma safe_Return {A} (a : A) : safe (Return a).
Proof. intros e H; discriminate. Qed.

Lemma safe_py_contains (x c : value) : safe (py_contains x c).
Proof.
  intros e H. destruct c, x; cbn in H; inversion H; reflexivity.
Qed.

Lemma safe_py_getitem (c : value) (key : string) : safe (py_getitem c key).
Proof.
  intros e H. destruct c; cbn in H; try (inversion H; reflexivity).
  destruct (lookup key fields); inversion H; reflexivity.
Qed.

Lemma safe_py_setitem (c : value) (key : string) (v : value) :
  safe (py_setitem c key v).
Proof. intros e H. destruct c; cbn in H; inversion H; reflexivity. Qed.

Lemma safe_py_iter (c : value) : safe (py_iter c).
Proof. intros e H. destruct c; cbn in H; inversion H; reflexivity. Qed.

Lemma safe_for_loop {A S} (xs : list A) (body : A -> S -> outcome S) (s : S) :
  (forall x s, safe (body x s)) -> safe (for_loop xs body s).
Proof.
  intros Hbody. revert s. induction xs as [|x xs IH]; intros s; cbn [for_loop].
  - apply safe_Return.
  - apply safe_bindO; auto.
Qed.

Lemma safe_flag_step (flag : value) (acc : list value) : safe (flag_step flag acc).
Proof.
  unfold flag_step. apply safe_bindO; [apply safe_py_get|].
  intros a. destruct (_ && _); apply safe_Return.
Qed.

Lemma safe_event_step (tomorrow : string) (event : value) (acc : list value) :
  safe (event_step tomorrow event acc).
Proof.
  unfold event_step. apply safe_bindO; [apply safe_py_get|].
  intros day. destruct (py_eq day (VStr tomorrow)); [|apply safe_Return].
  apply safe_bindO; [apply safe_py_get|]. intros flags.
  apply safe_bindO; [apply safe_py_iter|]. intros fl.
  apply safe_for_loop. intros; apply safe_flag_step.
Qed.

Lemma safe_strings_of (l : list value) : safe (strings_of l).
Proof.
  induction l as [|v l IH]; cbn [strings_of]; [apply safe_Return|].
  destruct v; try (intros e H; inversion H; reflexivity).
  apply safe_bindO; [exact IH|]. intros; apply safe_Return.
Qed.

Lemma safe_compose_message (types : list value) : safe (compose_message types).
Proof.
  unfold compose_message, py_join.
  destruct (negb _); [apply safe_Return|].
  repeat (apply safe_bindO; [|intros]); try apply safe_Return.
  apply safe_strings_of.
Qed.

#[local] Hint Resolve safe_py_get safe_get2 safe_get3 safe_not_or_not
  safe_Return safe_py_contains safe_py_getitem safe_py_setitem safe_py_iter
  safe_for_loop safe_flag_step safe_event_step safe_compose_message : safe.

Section FrameRules.

Context {R : world -> world -> Prop} {F : Frame R}
  {Hprint : AllowsPrint R} {Hclock : AllowsClock R} {Hinput : AllowsInput R}
  {Hrequests : AllowsRequests R} {Hfile : AllowsFileWrite R}.

Lemma keeps_ret {A} (a : A) : keeps R (ret a).
Proof. intros w; split; [apply frame_refl|discriminate]. Qed.

Lemma keeps_lift {A} (o : outcome A) : safe o -> keeps R (lift o).
Proof.
  intros Ho w; split; [apply frame_refl|]. cbn. intros e H. left. exact (Ho e H).
Qed.

Lemma keeps_sys_exit {A} : keeps R (@sys_exit A 1).
Proof. intros w; split; [apply frame_refl|]. cbn. intros e H; inversion H. now right. Qed.

Lemma keeps_at_bind {A B} (m : M A) (k : A -> M B) (w : world) :
  keeps_at R m w -> (forall a, keeps R (k a)) -> keeps_at R (bind m k) w.
Proof.
  intros [Hm He] Hk. unfold keeps_at, bind in *.
  destruct (m w) as [[a|e] w1]; cbn [fst snd] in *.
  - destruct (Hk a w1) as [Hk1 Hk2]. split; [eapply frame_trans; eauto|exact Hk2].
  - split; [exact Hm|]. intros e0 H0. apply He. inversion H0; reflexivity.
Qed.

Lemma keeps_bind {A B} (m : M A) (k : A -> M B) :
  keeps R m -> (forall a, keeps R (k a)) -> keeps R (bind m k).
Proof. intros Hm Hk w. apply keeps_at_bind; auto. Qed.

Lemma keeps_at_bind_known {A B} (m : M A) (k : A -> M B) (w w1 : world) a :
  m w = (Return a, w1) -> R w w1 -> keeps_at R (k a) w1 ->
  keeps_at R (bind m k) w.
Proof.
  intros Hm Hw [Hk He]. unfold keeps_at, bind. rewrite Hm.
  split; [eapply frame_trans; eauto|exact He].
Qed.

Lemma keeps_try_except {A} (m : M A) (catches : exn -> bool)
  (handler : exn -> M A) :
  keeps R m -> (forall e, keeps R (handler e)) ->
  keeps R (try_except m catches handler).
Proof.
  intros Hm Hh w. destruct (Hm w) as [Hw He]. unfold keeps_at, try_except in *.
  destruct (m w) as [[a|e] w1]; cbn [fst snd] in *.
  - split; [exact Hw|discriminate].
  - destruct (catches e).
    + destruct (Hh e w1) as [H1 H2]. split; [eapply frame_trans; eauto|exact H2].
    + split; [exact Hw|exact He].
Qed.

Lemma keeps_print (line : fstring) : keeps R (print line).
Proof. intros w; split; [apply allows_print|discriminate]. Qed.

Lemma keeps_print_all (lines : list string) : keeps R (print_all lines).
Proof.
  induction lines as [|l lines IH]; cbn [print_all].
  - apply keeps_ret.
  - apply keeps_bind; [apply keeps_print|intros; exact IH].
Qed.

Lemma keeps_datetime_now : keeps R datetime_now.
Proof. intros w; split; [apply allows_clock|discriminate]. Qed.

Lemma keeps_path_exists : keeps R path_exists.
Proof. intros w; split; [apply frame_refl|discriminate]. Qed.

Lemma keeps_json_load : keeps R json_load.
Proof.
  intros w; unfold keeps_at, json_load.
  destruct (config_file w); cbn; (split; [apply frame_refl|]);
    intros e H; inversion H; now left.
Qed.

Lemma keeps_json_dump (j : value) : keeps R (json_dump j).
Proof. intros w; split; [apply allows_file_write|discriminate]. Qed.

Lemma keeps_requests_send (r : request) : keeps R (requests_send r).
Proof.
  intros w; unfold keeps_at, requests_send.
  destruct (network w r); cbn; (split; [apply allows_requests|]);
    intros e H; inversion H; now left.
Qed.

Lemma keeps_raise_for_status (response : Z * option value) :
  keeps R (raise_for_status response).
Proof.
  unfold raise_for_status. destruct (_ && _); [|apply keeps_ret].
  intros w; split; [apply frame_refl|]. cbn. intros e H; inversion H; now left.
Qed.

Lemma keeps_response_json (response : Z * option value) :
  keeps R (response_json response).
Proof.
  unfold response_json. destruct (snd response); [apply keeps_ret|].
  intros w; split; [apply frame_refl|]. cbn. intros e H; inversion H; now left.
Qed.

Lemma keeps_input_until_blank : keeps R input_until_blank.
Proof.
  intros w; unfold keeps_at, input_until_blank.
  destruct (read_paste (stdin w) []) as [o rest] eqn:Hread. cbn [fst snd].
  split; [apply allows_input|]. intros e ->. left.
  revert Hread. generalize (@nil string) as acc. generalize (stdin w) as lines.
  induction lines as [|l lines IH]; intros acc; cbn [read_paste].
  - intros H; inversion H; reflexivity.
  - destruct (negb _); [discriminate|]. apply IH.
Qed.

End FrameRules.

(** One step of a proof that a computation keeps [R]: the rule of its
    head. *)
Ltac keep_function := fail.

Ltac keep_step :=
  lazymatch goal with
  | |- keeps _ (bind _ _) => apply keeps_bind; [|intros ?]
  | |- keeps _ (try_except _ _ _) => apply keeps_try_except; [|intros ?]
  | |- keeps _ (ret _) => apply keeps_ret
  | |- keeps _ (lift _) => apply keeps_lift; solve [auto 6 with safe]
  | |- keeps _ (print _) => apply keeps_print
  | |- keeps _ (print_all _) => apply keeps_print_all
  | |- keeps _ (sys_exit _) => apply keeps_sys_exit
  | |- keeps _ datetime_now => apply keeps_datetime_now
  | |- keeps _ path_exists => apply keeps_path_exists
  | |- keeps _ json_load => apply keeps_json_load
  | |- keeps _ (json_dump _) => apply keeps_json_dump
  | |- keeps _ (requests_send _) => apply keeps_requests_send
  | |- keeps _ (raise_for_status _) => apply keeps_raise_for_status
  | |- keeps _ (response_json _) => apply keeps_response_json
  | |- keeps _ input_until_blank => apply keeps_input_until_blank
  | |- keeps _ (if ?b then _ else _) => destruct b
  | |- keeps _ (match ?x with _ => _ end) => destruct x
  | |- keeps _ _ => keep_function
  end.

Ltac keep := repeat keep_step.

Section FrameFunctions.

Context {Q : world -> world -> Prop} {FQ : Frame Q} {Qprint : AllowsPrint Q} {Qclock : AllowsClock Q}
  {Qinput : AllowsInput Q} {Qrequests : AllowsRequests Q}
  {Qfile : AllowsFileWrite Q}.

Lemma keeps_print_config_help : keeps Q print_config_help.
Proof. unfold print_config_help. apply keeps_print_all. Qed.

Lemma keeps_validate_notification_settings (config : value) :
  keeps Q (validate_notification_settings config).
Proof. unfold validate_notification_settings. keep. Qed.

Lemma keeps_get_collection_data (config : value) :
  keeps Q (get_collection_data config).
Proof. unfold get_collection_data. keep. Qed.

Lemma keeps_get_tomorrow_collections (data : value) :
  keeps Q (get_tomorrow_collections data).
Proof. unfold get_tomorrow_collections. keep. Qed.

Lemma keeps_send_pushover_notification (types : list value) (config : value) :
  keeps Q (send_pushover_notification types config).
Proof. unfold send_pushover_notification. keep. Qed.

Lemma keeps_send_ntfy_notification (types : list value) (config : value) :
  keeps Q (send_ntfy_notification types config).
Proof. unfold send_ntfy_notification. keep. Qed.

Lemma keeps_load_config_checks (w : world) :
  config_file w <> Absent -> keeps_at Q load_config w.
Proof.
  intros Hpresent. unfold load_config.
  eapply keeps_at_bind_known; [reflexivity|apply frame_refl|]. cbv beta.
  destruct (config_file w); [congruence| |]; cbn [negb];
    match goal with
    | |- keeps_at Q ?m w => cut (keeps Q m); [intros K; exact (K w)|]
    end; keep; apply keeps_print_config_help.
Qed.

Lemma keeps_load_config : keeps Q load_config.
Proof. unfold load_config. keep; apply keeps_print_config_help. Qed.

Lemma keeps_extract_ids : keeps Q extract_ids.
Proof. unfold extract_ids. keep. Qed.

(** Past [load_config], a run in normal mode keeps what its pieces
    keep. *)
Lemma keeps_at_main_normal (args : Args.t) (w : world) :
  normal_mode args -> keeps_at Q load_config w -> keeps_at Q (main args) w.
Proof.
  intros [Hh He] Hload. unfold main. rewrite Hh, He.
  apply keeps_at_bind; [exact Hload|]. intros config.
  keep; first [ apply keeps_validate_notification_settings
              | apply keeps_get_collection_data
              | apply keeps_get_tomorrow_collections
              | apply keeps_send_pushover_notification
              | apply keeps_send_ntfy_notification ].
Qed.


End FrameFunctions.

Ltac keep_function ::=
  first [ apply keeps_print_config_help
        | apply keeps_validate_notification_settings
        | apply keeps_get_collection_data
        | apply keeps_get_tomorrow_collections
        | apply keeps_send_pushover_notification
        | apply keeps_send_ntfy_notification
        | apply keeps_load_config
        | apply keeps_extract_ids ].

#[local] Instance any_world_frame : Frame any_world.
Proof. split; unfold any_world; auto. Qed.
#[local] Instance any_world_print : AllowsPrint any_world.
Proof. intros w out; exact I. Qed.
#[local] Instance any_world_clock : AllowsClock any_world.
Proof. intros w n; exact I. Qed.
#[local] Instance any_world_input : AllowsInput any_world.
Proof. intros w l; exact I. Qed.
#[local] Instance any_world_requests : AllowsRequests any_world.
Proof. intros w l; exact I. Qed.
#[local] Instance any_world_file_write : AllowsFileWrite any_world.
Proof. intros w f; exact I. Qed.

#[local] Instance same_sent_and_clock_frame : Frame same_sent_and_clock.
Proof.
  split; unfold same_sent_and_clock.
  - auto.
  - intros w1 w2 w3 [H1 H2] [H3 H4]. split; congruence.
Qed.
#[local] Instance same_sent_and_clock_print : AllowsPrint same_sent_and_clock.
Proof. intros w out; split; reflexivity. Qed.
#[local] Instance same_sent_and_clock_input : AllowsInput same_sent_and_clock.
Proof. intros w l; split; reflexivity. Qed.
#[local] Instance same_sent_and_clock_file_write :
  AllowsFileWrite same_sent_and_clock.
Proof. intros w f; split; reflexivity. Qed.

#[local] Instance same_file_and_stdin_frame : Frame same_file_and_stdin.
Proof.
  split; unfold same_file_and_stdin.
  - auto.
  - intros w1 w2 w3 [H1 H2] [H3 H4]. split; congruence.
Qed.
#[local] Instance same_file_and_stdin_print : AllowsPrint same_file_and_stdin.
Proof. intros w out; split; reflexivity. Qed.
#[local] Instance same_file_and_stdin_clock : AllowsClock same_file_and_stdin.
Proof. intros w n; split; reflexivity. Qed.
#[local] Instance same_file_and_stdin_requests :
  AllowsRequests same_file_and_stdin.
Proof. intros w rs; split; reflexivity. Qed.


(** X2.  A run in normal mode that finds a configuration file leaves the file
    as it found it, and reads nothing from standard input. *)
Theorem normal_run_keeps_file (args : Args.t) (w : world) :
  normal_mode args -> config_file w <> Absent ->
  config_file (snd (run args w)) = config_file w /\
  stdin (snd (run args w)) = stdin w.
Proof.
  intros Hn Hfile.
  destruct (keeps_at_main_normal (Q := same_file_and_stdin) args w Hn
              (keeps_load_config_checks w Hfile)) as [H _].
  unfold run. destruct (main args w) as [o w']. exact H.
Qed.

Lemma normal_run_keeps_file_witness :
  let w := world_at sunday ["unread"] (Holds (example_config true true))
             (calendar_network 200 example_payload (Response 500 None)) in
  config_file (snd (run forced w)) = config_file w /\
  stdin (snd (run forced w)) = stdin w.
Proof.
  cbv zeta. apply normal_run_keeps_file.
  - split; reflexivity.
  - discriminate.
Defined.

(** X3.  In help mode and in extraction mode no request is sent and the clock
    is not read. *)
Theorem help_and_extraction_stay_local (args : Args.t) (w : world) :
  Args.config_help args = true \/ Args.extract_ids args = true ->
  sent (snd (run args w)) = sent w /\ ticks (snd (run args w)) = ticks w.
Proof.
  intros Hmode.
  assert (H : keeps_at same_sent_and_clock (main args) w).
  { unfold main. destruct (Args.config_help args).
    - apply keeps_print_config_help.
    - destruct Hmode as [Hh|He]; [discriminate|]. rewrite He.
      apply keeps_extract_ids. }
  destruct H as [H _]. unfold run. destruct (main args w) as [o w']. exact H.
Qed.

Lemma help_and_extraction_stay_local_witness :
  let w := world_at sunday
             (paste ["curl 'https://api.recollect.net/api/places/ABC-123/services/456/events'"])
             Absent (calendar_network 200 example_payload (Response 200 None)) in
  sent (snd (run (Args.mk false true false) w)) = sent w /\
  ticks (snd (run (Args.mk false true false) w)) = ticks w.
Proof.
  cbv zeta. apply help_and_extraction_stay_local. right; reflexivity.
Defined.

(* ================================================================= *)
(** ** The requests of a run *)

Lemma fits_nil (slots : list (request -> bool)) : fits [] slots = true.
Proof. destruct slots; reflexivity. Qed.

Lemma fits_no_slot (new : list request) : fits new [] = true -> new = [].
Proof. destruct new; [reflexivity|discriminate]. Qed.

Lemma fits_later_slots (new : list request) (ps qs : list (request -> bool)) :
  fits new qs = true -> fits new (ps ++ qs) = true.
Proof.
  intros H. induction ps as [|p ps IH]; [exact H|]. cbn [app fits].
  destruct new; [reflexivity|]. rewrite IH. apply orb_true_r.
Qed.

Lemma fits_app (a b : list request) (ps qs : list (request -> bool)) :
  fits a ps = true -> fits b qs = true -> fits (a ++ b) (ps ++ qs) = true.
Proof.
  intros Ha Hb. revert a Ha. induction ps as [|p ps IH]; intros a Ha.
  - apply fits_no_slot in Ha. subst a. exact Hb.
  - destruct a as [|r a].
    + cbn [app]. apply (fits_later_slots b (p :: ps) qs Hb).
    + cbn [app fits] in *. apply orb_true_iff in Ha. apply orb_true_iff.
      destruct Ha as [Ha|Ha].
      * apply andb_true_iff in Ha. destruct Ha as [Hp Ha].
        left. rewrite Hp. cbn [andb]. apply IH. exact Ha.
      * right. apply (IH (r :: a)). exact Ha.
Qed.

Lemma fits_earlier_slots (new : list request) (ps qs : list (request -> bool)) :
  fits new ps = true -> fits new (ps ++ qs) = true.
Proof.
  intros H. rewrite <- (app_nil_r new). apply fits_app; [exact H|apply fits_nil].
Qed.

Lemma fits_length (new : list request) (slots : list (request -> bool)) :
  fits new slots = true -> (length new <= length slots)%nat.
Proof.
  revert new. induction slots as [|p ps IH]; intros new H.
  - apply fits_no_slot in H. subst; cbn; lia.
  - destruct new as [|r new]; [cbn; lia|]. cbn [fits] in H.
    apply orb_true_iff in H. destruct H as [H|H].
    + apply andb_true_iff in H. destruct H as [_ H]. apply IH in H. cbn; lia.
    + apply IH in H. cbn in *; lia.
Qed.

#[local] Instance logged_nothing_frame : Frame (logged []).
Proof.
  split; unfold logged.
  - intros w. exists []. split; [now rewrite app_nil_r|reflexivity].
  - intros w1 w2 w3 (a & Ha & Fa) (b & Hb & Fb).
    apply fits_no_slot in Fa, Fb. subst a b. exists [].
    split; [|reflexivity]. rewrite Hb, Ha, !app_nil_r. reflexivity.
Qed.
#[local] Instance logged_nothing_print : AllowsPrint (logged []).
Proof. intros w out. exists []. split; [cbn; now rewrite app_nil_r|reflexivity]. Qed.
#[local] Instance logged_nothing_clock : AllowsClock (logged []).
Proof. intros w n. exists []. split; [cbn; now rewrite app_nil_r|reflexivity]. Qed.
#[local] Instance logged_nothing_input : AllowsInput (logged []).
Proof. intros w l. exists []. split; [cbn; now rewrite app_nil_r|reflexivity]. Qed.
#[local] Instance logged_nothing_file_write : AllowsFileWrite (logged []).
Proof. intros w f. exists []. split; [cbn; now rewrite app_nil_r|reflexivity]. Qed.

Lemma logged_later (ps qs : list (request -> bool)) (w w' : world) :
  logged qs w w' -> logged (ps ++ qs) w w'.
Proof.
  intros (new & H & Hf). exists new. split; [exact H|].
  now apply fits_later_slots.
Qed.

Lemma logged_seq (ps qs : list (request -> bool)) (w1 w2 w3 : world) :
  logged ps w1 w2 -> logged qs w2 w3 -> logged (ps ++ qs) w1 w3.
Proof.
  intros (a & Ha & Fa) (b & Hb & Fb). exists (a ++ b).
  split; [rewrite Hb, Ha, app_assoc; reflexivity|].
  now apply fits_app.
Qed.

(** Sequencing: what the first part logs, then what the second logs. *)
Lemma keeps_logged_bind {A B} (ps qs : list (request -> bool))
  (m : M A) (k : A -> M B) :
  keeps (logged ps) m -> (forall a, keeps (logged qs) (k a)) ->
  keeps (logged (ps ++ qs)) (bind m k).
Proof.
  intros Hm Hk w. destruct (Hm w) as [Hw He]. unfold keeps_at, bind in *.
  destruct (m w) as [[a|e] w1]; cbn [fst snd] in *.
  - destruct (Hk a w1) as [H1 H2]. split; [eapply logged_seq; eauto|exact H2].
  - split.
    + destruct Hw as (new & H & Hf). exists new. split; [exact H|].
      now apply fits_earlier_slots.
    + intros e0 H0. apply He. inversion H0; reflexivity.
Qed.

Lemma keeps_logged_silent {A} (ps : list (request -> bool)) (m : M A) :
  keeps (logged []) m -> keeps (logged ps) m.
Proof.
  intros Hm w. destruct (Hm w) as [Hw He]. split; [|exact He].
  rewrite <- (app_nil_r ps). now apply logged_later.
Qed.

Lemma keeps_logged_after_silent {A B} (ps : list (request -> bool))
  (m : M A) (k : A -> M B) :
  keeps (logged []) m -> (forall a, keeps (logged ps) (k a)) ->
  keeps (logged ps) (bind m k).
Proof. intros Hm Hk. exact (keeps_logged_bind [] ps m k Hm Hk). Qed.

Lemma keeps_logged_then_silent {A B} (ps : list (request -> bool))
  (m : M A) (k : A -> M B) :
  keeps (logged ps) m -> (forall a, keeps (logged []) (k a)) ->
  keeps (logged ps) (bind m k).
Proof.
  intros Hm Hk. rewrite <- (app_nil_r ps). exact (keeps_logged_bind ps [] m k Hm Hk).
Qed.

Lemma keeps_logged_try_except {A} (ps : list (request -> bool)) (m : M A)
  (catches : exn -> bool) (handler : exn -> M A) :
  keeps (logged ps) m -> (forall e, keeps (logged []) (handler e)) ->
  keeps (logged ps) (try_except m catches handler).
Proof.
  intros Hm Hh w. destruct (Hm w) as [Hw He]. unfold keeps_at, try_except in *.
  destruct (m w) as [[a|e] w1]; cbn [fst snd] in *.
  - split; [exact Hw|discriminate].
  - destruct (catches e).
    + destruct (Hh e w1) as [H1 H2]. split; [|exact H2].
      rewrite <- (app_nil_r ps). eapply logged_seq; eauto.
    + split; [exact Hw|exact He].
Qed.

Lemma keeps_logged_requests_send (slot : request -> bool) (r : request) :
  slot r = true -> keeps (logged [slot]) (requests_send r).
Proof.
  intros Hslot w. unfold keeps_at, requests_send.
  assert (Hlog : logged [slot] w (set_sent w (sent w ++ [r]))).
  { exists [r]. split; [reflexivity|]. cbn. rewrite Hslot. reflexivity. }
  destruct (network w r); cbn [fst snd]; (split; [exact Hlog|]);
    intros e H; inversion H; now left.
Qed.

Ltac silent_bind :=
  apply keeps_logged_after_silent; [solve [keep]|intros ?].

(** The fetch sends at most one request, a GET to the calendar. *)
Lemma get_collection_data_logged (config : value) :
  keeps (logged [is_calendar_get]) (get_collection_data config).
Proof.
  unfold get_collection_data. repeat silent_bind.
  apply keeps_logged_try_except; [|intros e; keep].
  apply keeps_logged_then_silent; [|intros response; keep].
  apply keeps_logged_requests_send. reflexivity.
Qed.

Lemma send_pushover_notification_logged (types : list value) (config : value) :
  keeps (logged [is_pushover_post]) (send_pushover_notification types config).
Proof.
  unfold send_pushover_notification. repeat silent_bind.
  match goal with |- keeps _ (if ?b then _ else _) => destruct b end;
    [apply keeps_logged_silent; keep|].
  silent_bind.
  apply keeps_logged_try_except; [|intros e; keep].
  repeat silent_bind.
  apply keeps_logged_then_silent; [|intros response; keep].
  apply keeps_logged_requests_send. reflexivity.
Qed.

Lemma send_ntfy_notification_logged (types : list value) (config : value) :
  keeps (logged [is_ntfy_post]) (send_ntfy_notification types config).
Proof.
  unfold send_ntfy_notification. repeat silent_bind.
  match goal with |- keeps _ (if ?b then _ else _) => destruct b end;
    [apply keeps_logged_silent; keep|].
  silent_bind.
  apply keeps_logged_try_except; [|intros e; keep].
  repeat silent_bind.
  apply keeps_logged_then_silent; [|intros response; keep].
  apply keeps_logged_requests_send. reflexivity.
Qed.

Lemma main_logged (args : Args.t) : keeps (logged remote_calls) (main args).
Proof.
  unfold main, remote_calls.
  destruct (Args.config_help args);
    [apply keeps_logged_silent, keeps_print_config_help|].
  destruct (Args.extract_ids args);
    [apply keeps_logged_silent, keeps_extract_ids|].
  apply keeps_logged_after_silent; [apply keeps_load_config|intros config].
  silent_bind.
  match goal with |- keeps _ (if ?b then _ else _) => destruct b end;
    [apply keeps_logged_silent; keep|].
  silent_bind.
  match goal with |- keeps _ (if ?b then _ else _) => destruct b end;
    [apply keeps_logged_silent; keep|].
  apply (keeps_logged_bind [is_calendar_get] [is_pushover_post; is_ntfy_post]);
    [apply get_collection_data_logged|intros collection_data].
  match goal with |- keeps _ (if ?b then _ else _) => destruct b end;
    [apply keeps_logged_silent; keep|].
  silent_bind. cbv zeta.
  apply (keeps_logged_bind [is_pushover_post] [is_ntfy_post]);
    [apply send_pushover_notification_logged|intros pushover_success].
  apply keeps_logged_then_silent;
    [apply send_ntfy_notification_logged|intros ntfy_success; keep].
Qed.

(** When each slot either forces or forbids a property, at most as many
    requests have the property as there are slots forcing it. *)
Lemma fits_count (q : request -> bool) (new : list request)
  (slots : list (request -> bool)) (marks : list bool) :
  Forall2 (fun slot mark => forall r, slot r = true -> q r = mark) slots marks ->
  fits new slots = true ->
  (length (filter q new) <= length (filter (fun b => b) marks))%nat.
Proof.
  intros Hmarks. revert new.
  induction Hmarks as [|slot mark slots marks Hslot _ IH]; intros new H.
  - apply fits_no_slot in H. subst. cbn. lia.
  - destruct new as [|r new]; [cbn; lia|]. cbn [fits] in H.
    apply orb_true_iff in H. destruct H as [H|H].
    + apply andb_true_iff in H. destruct H as [Hr H].
      apply IH in H. simpl. rewrite (Hslot r Hr).
      destruct mark; simpl; lia.
    + apply IH in H. simpl in *. destruct mark, (q r); simpl in *; lia.
Qed.

Lemma pushover_url_not_ntfy (u : fstring) :
  is_pushover_url u = true -> is_ntfy_url u = false.
Proof.
  destruct u as [|[a| |] [|q u]]; try discriminate; cbn.
  intros H; apply String.eqb_eq in H; subst a. reflexivity.
Qed.

Lemma pushover_url_not_calendar (u : fstring) :
  is_pushover_url u = true -> is_calendar_url u = false.
Proof.
  destruct u as [|[a| |] [|q u]]; try discriminate; cbn.
  intros H; apply String.eqb_eq in H; subst a. reflexivity.
Qed.

Lemma ntfy_url_not_calendar (u : fstring) :
  is_ntfy_url u = true -> is_calendar_url u = false.
Proof.
  destruct u as [|[a| |] u]; try discriminate; cbn.
  intros H; apply String.eqb_eq in H; subst a. reflexivity.
Qed.

Lemma ntfy_url_not_pushover (u : fstring) :
  is_ntfy_url u = true -> is_pushover_url u = false.
Proof.
  intros H. destruct (is_pushover_url u) eqn:E; [|reflexivity].
  rewrite (pushover_url_not_ntfy u E) in H. discriminate.
Qed.

Lemma slot_calendar (r : request) :
  is_calendar_get r = true -> is_calendar_url (url r) = true.
Proof. unfold is_calendar_get. destruct (method r); [auto|discriminate]. Qed.

Lemma slot_pushover (r : request) :
  is_pushover_post r = true -> is_pushover_url (url r) = true.
Proof. unfold is_pushover_post. destruct (method r); [discriminate|auto]. Qed.

Lemma slot_ntfy (r : request) :
  is_ntfy_post r = true -> is_ntfy_url (url r) = true.
Proof. unfold is_ntfy_post. destruct (method r); [discriminate|auto]. Qed.

(** X4.  Every run, whatever the command line, the configuration, the input
    and the answers of the network, sends at most three requests: at
    most one GET to the calendar, then at most one POST to Pushover,
    then at most one POST to ntfy.  Nothing is ever sent twice. *)
Theorem every_remote_call_at_most_once (args : Args.t) (w : world) :
  exists new,
    sent (snd (run args w)) = sent w ++ new /\
    fits new remote_calls = true /\
    (length new <= 3)%nat /\
    (length (calls_to is_calendar_url new) <= 1)%nat /\
    (length (calls_to is_pushover_url new) <= 1)%nat /\
    (length (calls_to is_ntfy_url new) <= 1)%nat.
Proof.
  destruct (main_logged args w) as [(new & Hsent & Hfits) _].
  exists new. unfold run. destruct (main args w) as [o w']. cbn [snd] in *.
  split; [exact Hsent|]. split; [exact Hfits|].
  split; [exact (fits_length _ _ Hfits)|].
  unfold calls_to, remote_calls in *. repeat split.
  - apply (fits_count _ new [is_calendar_get; is_pushover_post; is_ntfy_post]
             [true; false; false]); [|exact Hfits].
    repeat constructor; intros r Hr.
    + now apply slot_calendar.
    + now apply pushover_url_not_calendar, slot_pushover.
    + now apply ntfy_url_not_calendar, slot_ntfy.
  - apply (fits_count _ new [is_calendar_get; is_pushover_post; is_ntfy_post]
             [false; true; false]); [|exact Hfits].
    repeat constructor; intros r Hr.
    + now apply calendar_url_not_pushover, slot_calendar.
    + now apply slot_pushover.
    + now apply ntfy_url_not_pushover, slot_ntfy.
  - apply (fits_count _ new [is_calendar_get; is_pushover_post; is_ntfy_post]
             [false; false; true]); [|exact Hfits].
    repeat constructor; intros r Hr.
    + now apply calendar_url_not_ntfy, slot_calendar.
    + now apply pushover_url_not_ntfy, slot_pushover.
    + now apply slot_ntfy.
Qed.

(* ================================================================= *)
(** ** More on loading the configuration *)



Lemma get2_not_record (c : value) (k1 k2 : string) (default : value) :
  (forall d, c <> VDict d) -> get2 c k1 k2 default = Raise AttributeError.
Proof.
  intros Hc. destruct c; try reflexivity. exfalso. eapply Hc. reflexivity.
Qed.

(** X6.  A configuration file that is not JSON, or whose JSON value is not an
    object, makes [load_config] print "Error loading config file: ..."
    with the exception it met and stop the process with status 1; the
    file is left as it is. *)
Theorem unreadable_configuration_is_reported (w : world) :
  config_file w = Unparsable \/
  (exists c, config_file w = Holds c /\ forall d, c <> VDict d) ->
  exists e,
    (e = ValueError \/ e = AttributeError) /\
    load_config w =
    (Raise (SystemExit 1),
     set_stdout w (stdout w ++ [[Lit "Error loading config file: "; Exc e]])).
Proof.
  intros [Hfile|(c & Hfile & Hc)].
  - exists ValueError. split; [now left|].
    unfold load_config, bind, path_exists, try_except, json_load.
    rewrite Hfile. cbn [negb]. rewrite Hfile. reflexivity.
  - exists AttributeError. split; [now right|].
    unfold load_config, bind, path_exists, try_except, json_load, lift.
    rewrite Hfile. cbn [negb]. rewrite Hfile.
    rewrite (get2_not_record c "recollect" "place_id" VNone Hc). reflexivity.
Qed.

Lemma unreadable_configuration_is_reported_witness :
  let w := world_at sunday [] (Holds (VList [])) no_network in
  exists e,
    (e = ValueError \/ e = AttributeError) /\
    load_config w =
    (Raise (SystemExit 1),
     set_stdout w (stdout w ++ [[Lit "Error loading config file: "; Exc e]])).
Proof.
  cbv zeta. apply unreadable_configuration_is_reported.
  right. exists (VList []). split; [reflexivity|discriminate].
Defined.

(** X7.  What [load_config] returns, [validate_notification_settings]
    accepts, in any world and without printing: the second check of
    [main] never stops a run. *)
Theorem loaded_configuration_validates (w w' : world) (c : value) :
  fst (load_config w) = Return c ->
  validate_notification_settings c w' = (Return true, w').
Proof.
  intros Hload. apply validate_accepted.
  exact (proj2 (load_config_valid w c Hload)).
Qed.

Lemma loaded_configuration_validates_witness :
  let w := world_at sunday [] (Holds (example_config true false)) no_network in
  validate_notification_settings (example_config true false) w = (Return true, w).
Proof.
  cbv zeta. apply (loaded_configuration_validates
                     (world_at sunday [] (Holds (example_config true false))
                        no_network)).
  reflexivity.
Defined.

Lemma dig2_get2 (c : value) (k1 k2 : string) (default v : value) :
  dig c [k1; k2] = Some v -> get2 c k1 k2 default = Return v.
Proof.
  destruct c as [| | | | |d]; try discriminate. cbn [dig]. unfold get2, get_or.
  cbn [py_get bindO]. unfold get_or.
  destruct (lookup k1 d) as [[| | | | |r]|]; try discriminate. cbn [py_get].
  unfold get_or. destruct (lookup k2 r); [congruence|discriminate].
Qed.

Lemma dig3_parts (c : value) (k1 k2 k3 : string) (default v : value) :
  dig c [k1; k2; k3] = Some v ->
  exists fields,
    get2 c k1 k2 (VDict []) = Return (VDict fields) /\
    py_get (VDict fields) k3 default = Return v.
Proof.
  destruct c as [| | | | |d]; try discriminate. cbn [dig]. unfold get2.
  cbn [py_get bindO]. unfold get_or.
  destruct (lookup k1 d) as [[| | | | |n]|]; try discriminate. cbn [py_get].
  unfold get_or.
  destruct (lookup k2 n) as [[| | | | |p]|]; try discriminate.
  destruct (lookup k3 p) eqn:E; [|discriminate]. intros H; inversion H; subst.
  exists p. rewrite E. split; reflexivity.
Qed.

Lemma blank_false (o : option value) :
  blank o = false -> exists v, o = Some v /\ truthy v = true.
Proof.
  destruct o as [v|]; [|discriminate]. cbn. intros H.
  apply negb_false_iff in H. eauto.
Qed.

(** On a configuration of the documented shape the flag of a backend
    can be read. *)
Lemma well_shaped_enabled (c : value) (backend : string) :
  well_shaped c = true -> backend = "pushover" \/ backend = "ntfy" ->
  exists v, get3 c "notifications" backend "enabled" (VBool false) = Return v.
Proof.
  intros Hshape Hb. destruct c as [| | | | |d]; try discriminate.
  cbn [well_shaped] in Hshape. apply andb_true_iff in Hshape.
  destruct Hshape as [_ Hn]. unfold get3, get2. cbn [py_get bindO].
  unfold get_or.
  destruct (lookup "notifications" d) as [[| | | | |n]|]; try discriminate.
  - apply andb_true_iff in Hn. destruct Hn as [Hp Ht]. cbn [py_get bindO].
    unfold get_or.
    destruct Hb as [-> | ->].
    + destruct (lookup "pushover" n) as [[| | | | |p]|]; try discriminate;
        cbn [py_get]; eauto.
    + destruct (lookup "ntfy" n) as [[| | | | |p]|]; try discriminate;
        cbn [py_get]; eauto.
  - cbn [py_get bindO lookup]. unfold get_or. cbn [lookup py_get]. eauto.
Qed.

Lemma complete_configuration_accepted (c : value) :
  well_shaped c = true ->
  ids_missing c || no_backend_enabled c || credentials_missing c = false ->
  accepted c.
Proof.
  intros Hshape Hok.
  apply orb_false_iff in Hok. destruct Hok as [Hok Hcred].
  apply orb_false_iff in Hok. destruct Hok as [Hids Hsome].
  unfold ids_missing in Hids. apply orb_false_iff in Hids.
  destruct Hids as [Hp Hs].
  apply blank_false in Hp, Hs.
  destruct Hp as (p & Hp & Tp). destruct Hs as (s & Hs & Ts).
  destruct (well_shaped_enabled c "pushover" Hshape) as (pe & Hpe); [now left|].
  destruct (well_shaped_enabled c "ntfy" Hshape) as (ne & Hne); [now right|].
  unfold no_backend_enabled, credentials_missing in *.
  rewrite (backend_enabled_truthy _ _ _ Hpe), (backend_enabled_truthy _ _ _ Hne)
    in *.
  apply orb_false_iff in Hcred. destruct Hcred as [Hcp Hcn].
  split.
  - rewrite (dig2_get2 _ _ _ VNone _ Hp), (dig2_get2 _ _ _ VNone _ Hs).
    unfold not_or_not. cbn [bindO]. rewrite Tp, Ts. reflexivity.
  - exists pe, ne. split; [exact Hpe|]. split; [exact Hne|]. split; [|split].
    + intros Tpe. rewrite Tpe in Hcp. cbn [andb] in Hcp.
      apply orb_false_iff in Hcp. destruct Hcp as [Hu Ha].
      apply blank_false in Hu, Ha.
      destruct Hu as (u & Hu & Tu). destruct Ha as (a & Ha & Ta).
      destruct (dig3_parts _ _ _ _ VNone _ Hu) as (pc & Hpc & Hpu).
      destruct (dig3_parts _ _ _ _ VNone _ Ha) as (pc' & Hpc' & Hpa).
      rewrite Hpc in Hpc'. inversion Hpc'; subst pc'.
      exists (VDict pc). split; [exact Hpc|].
      rewrite Hpu, Hpa. unfold not_or_not. cbn [bindO]. rewrite Tu, Ta.
      reflexivity.
    + intros Tne. rewrite Tne in Hcn. cbn [andb] in Hcn.
      apply blank_false in Hcn. destruct Hcn as (t & Ht & Tt).
      destruct (dig3_parts _ _ _ _ VNone _ Ht) as (nc & Hnc & Hnt).
      exists (VDict nc), t. auto.
    + destruct (truthy pe), (truthy ne); try reflexivity. discriminate Hsome.
Qed.

(** X8.  On a configuration of the documented shape, [load_config] returns
    the configuration, and leaves the world as it is, exactly when both
    identifiers are there, a backend is enabled and no enabled backend
    misses a credential. *)
Theorem load_config_accepts_exactly (w : world) (c : value) :
  config_file w = Holds c -> well_shaped c = true ->
  (load_config w = (Return c, w) <->
   ids_missing c || no_backend_enabled c || credentials_missing c = false).
Proof.
  intros Hfile Hshape. split.
  - intros Hload. apply accepted_not_rejected.
    apply (load_config_valid w c). rewrite Hload. reflexivity.
  - intros Hok. apply load_config_accepted; [exact Hfile|].
    now apply complete_configuration_accepted.
Qed.

Lemma load_config_accepts_exactly_witness :
  let w := world_at sunday [] (Holds (example_config false true)) no_network in
  load_config w = (Return (example_config false true), w).
Proof.
  cbv zeta.
  apply (proj2 (load_config_accepts_exactly
                  (world_at sunday [] (Holds (example_config false true))
                     no_network)
                  (example_config false true) eq_refl eq_refl)).
  reflexivity.
Defined.

(* ================================================================= *)
(** ** More on the collection filter *)

Lemma first_seen_snoc (seen l : list value) (x : value) :
  first_seen seen (l ++ [x]) =
  first_seen seen l && (truthy x && negb (list_contains x (seen ++ l))).
Proof.
  revert seen. induction l as [|y l IH]; intros seen; cbn [app first_seen].
  - rewrite app_nil_r, andb_true_r. reflexivity.
  - rewrite IH, <- app_assoc. cbn [app]. rewrite !andb_assoc. reflexivity.
Qed.

(** A loop keeps what each turn of its body keeps. *)
Lemma for_loop_invariant {A S} (P : S -> Prop) (body : A -> S -> outcome S)
  (xs : list A) (s s' : S) :
  (forall x t t', body x t = Return t' -> P t -> P t') ->
  P s -> for_loop xs body s = Return s' -> P s'.
Proof.
  intros Hbody. revert s. induction xs as [|x xs IH]; intros s Hs H.
  - cbn in H. inversion H; subst. exact Hs.
  - cbn [for_loop] in H. destruct (body x s) as [t|e] eqn:E; [|discriminate].
    cbn [bindO] in H. exact (IH t (Hbody x s t E Hs) H).
Qed.

Lemma flag_step_first_seen (flag : value) (acc acc' : list value) :
  flag_step flag acc = Return acc' ->
  first_seen [] acc = true -> first_seen [] acc' = true.
Proof.
  unfold flag_step. destruct (py_get flag "subject" VNone) as [x|]; [|discriminate].
  cbn [bindO]. destruct (truthy x) eqn:Tx; cbn [andb].
  - destruct (list_contains x acc) eqn:Cx; cbn [negb];
      intros H; inversion H; subst; [auto|].
    intros Hacc. rewrite first_seen_snoc, Hacc, Tx. cbn [app]. rewrite Cx.
    reflexivity.
  - intros H; inversion H; subst; auto.
Qed.

Lemma event_step_first_seen (tomorrow : string) (event : value)
  (acc acc' : list value) :
  event_step tomorrow event acc = Return acc' ->
  first_seen [] acc = true -> first_seen [] acc' = true.
Proof.
  unfold event_step. destruct (py_get event "day" VNone) as [day|]; [|discriminate].
  cbn [bindO]. destruct (py_eq day (VStr tomorrow)).
  - destruct (py_get event "flags" (VList [])) as [flags|]; [|discriminate].
    cbn [bindO]. destruct (py_iter flags) as [fl|]; [|discriminate].
    cbn [bindO]. intros H Hacc.
    exact (for_loop_invariant (fun l => first_seen [] l = true) _ _ _ _
             flag_step_first_seen Hacc H).
  - intros H; inversion H; subst; auto.
Qed.

(** X9.  Whatever the payload, when [get_tomorrow_collections] returns a
    list, every item of the list is a true value and no item is equal
    to an earlier one. *)
Theorem get_tomorrow_collections_first_seen (data : value) (w : world)
  (types : list value) :
  fst (get_tomorrow_collections data w) = Return types ->
  first_seen [] types = true.
Proof.
  unfold get_tomorrow_collections, bind, lift, ret, datetime_now.
  destruct (truthy data); cbn [negb fst].
  - destruct (py_contains (VStr "events") data) as [[|]|]; cbn [negb fst];
      try (intros H; inversion H; reflexivity).
    destruct (py_getitem data "events") as [events|]; cbn [fst];
      [|discriminate].
    destruct (py_iter events) as [evs|]; cbn [fst]; [|discriminate].
    cbv zeta. intros H.
    apply (for_loop_invariant (fun l => first_seen [] l = true) _ _ _ _
             (event_step_first_seen _)) in H; [exact H|reflexivity].
  - intros H; inversion H; reflexivity.
Qed.

Lemma get_tomorrow_collections_first_seen_witness :
  first_seen [] [VStr "Garbage"; VStr "Recycling"] = true.
Proof.
  apply (get_tomorrow_collections_first_seen example_payload
           (world_at sunday [] Absent no_network)).
  reflexivity.
Defined.

(* ================================================================= *)
(** ** The characters of an extracted identifier *)

Lemma append_nil_r (s : string) : (s ++ EmptyString)%string = s.
Proof. induction s as [|c s IH]; cbn; [reflexivity|now rewrite IH]. Qed.

Lemma append_assoc (a b c : string) :
  ((a ++ b) ++ c)%string = (a ++ (b ++ c))%string.
Proof. induction a as [|x a IH]; cbn; [reflexivity|now rewrite IH]. Qed.

Lemma all_in_app (cls : ascii -> bool) (a b : string) :
  all_in cls (a ++ b) = all_in cls a && all_in cls b.
Proof.
  induction a as [|x a IH]; cbn; [reflexivity|].
  rewrite IH, andb_assoc. reflexivity.
Qed.

(** What [greedy] hands to its continuation is what was taken before,
    followed by a run of the class. *)
Lemma greedy_run {R} (cls : ascii -> bool) (s taken : string)
  (k : string -> string -> option R) r :
  Re.greedy cls taken s k = Some r ->
  exists g rest,
    k (taken ++ g)%string rest = Some r /\ all_in cls g = true /\
    s = (g ++ rest)%string.
Proof.
  revert taken. induction s as [|c s IH]; intros taken; cbn [Re.greedy].
  - intros H. exists EmptyString, EmptyString. rewrite append_nil_r. auto.
  - assert (Hstop : k taken (String c s) = Some r ->
                    exists g rest, k (taken ++ g)%string rest = Some r /\
                                   all_in cls g = true /\
                                   String c s = (g ++ rest)%string).
    { intros H. exists EmptyString, (String c s). rewrite append_nil_r. auto. }
    destruct (cls c) eqn:Hc; [|exact Hstop].
    destruct (Re.greedy cls (taken ++ String c EmptyString) s k) as [r'|] eqn:E;
      [|exact Hstop].
    intros H; inversion H; subst r'.
    destruct (IH _ E) as (g & rest & Hk & Hg & ->).
    exists (String c g), rest. rewrite append_assoc in Hk. cbn in Hk.
    cbn [all_in]. rewrite Hc, Hg. auto.
Qed.

Lemma match_text_group_class (t : string) (cls : ascii -> bool) (s : string) m :
  Re.search [Re.Text t; Re.Group cls] s = Some m ->
  none_or_all_in cls (Re.group m 1).
Proof.
  intros H. apply search_some in H. destruct H as (s' & H).
  cbn [Re.match_here] in H.
  destruct (Re.strip_prefix t s') as [s1|]; [|discriminate].
  apply greedy_run in H. destruct H as (g & rest & H & Hg & _).
  cbn [append] in H. destruct (g =? EmptyString)%string; [discriminate|].
  inversion H; subst m. right. exists g. split; [reflexivity|exact Hg].
Qed.

Lemma match_header_classes (s : string) m :
  Re.search header_pattern s = Some m ->
  none_or_all_in Re.hex_dash_class (Re.group m 1) /\
  none_or_all_in Re.digit_class (Re.group m 2).
Proof.
  intros H. apply search_some in H. destruct H as (s' & H).
  unfold header_pattern in H. cbn [Re.match_here] in H.
  destruct (Re.strip_prefix _ s') as [s1|]; [|discriminate].
  apply greedy_run in H. destruct H as (_ & s2 & H & _).
  apply greedy_run in H. destruct H as (p & s3 & H & Hp & _).
  cbn [append] in H. destruct (p =? EmptyString)%string; [discriminate|].
  destruct (Re.strip_prefix ":" s3) as [s4|]; [|discriminate].
  destruct (Re.greedy _ _ s4 _) as [m'|] eqn:E; [|discriminate].
  cbn [option_map] in H. inversion H; subst m.
  apply greedy_run in E. destruct E as (q & s5 & E & Hq & _).
  cbn [append] in E. destruct (q =? EmptyString)%string; [discriminate|].
  inversion E; subst m'.
  split; right; eexists; (split; [reflexivity|]); assumption.
Qed.

Lemma url_or_header_class (cls : ascii -> bool)
  (url_match header_match : option (list string)) (n : nat) :
  (forall m, url_match = Some m -> none_or_all_in cls (Re.group m 1)) ->
  (forall m, header_match = Some m -> none_or_all_in cls (Re.group m n)) ->
  none_or_all_in cls
    (let id := match url_match with Some m => Re.group m 1 | None => VNone end in
     match header_match with
     | Some m => if negb (truthy id) then Re.group m n else id
     | None => id
     end).
Proof.
  intros Hurl Hheader. cbv zeta.
  destruct header_match as [h|]; destruct url_match as [m|];
    try destruct (negb _);
    first [ exact (Hurl _ eq_refl) | exact (Hheader _ eq_refl)
          | left; reflexivity ].
Qed.

(** X10.  The identifiers [extract_ids_from_curl] returns are made of the
    characters of their class only: digits, the letters [A] to [F] and
    dashes for the place, digits for the service. *)
Theorem extract_ids_from_curl_character_classes (curl_command : string)
  (place_id service_id : string) :
  extract_ids_from_curl curl_command = (VStr place_id, VStr service_id) ->
  all_in Re.hex_dash_class place_id = true /\
  all_in Re.digit_class service_id = true.
Proof.
  unfold extract_ids_from_curl. cbv zeta.
  pose proof (url_or_header_class Re.hex_dash_class
                (Re.search places_pattern curl_command)
                (Re.search header_pattern curl_command) 1
                (match_text_group_class _ _ _)
                (fun m H => proj1 (match_header_classes _ m H))) as Hplace.
  pose proof (url_or_header_class Re.digit_class
                (Re.search services_pattern curl_command)
                (Re.search header_pattern curl_command) 2
                (match_text_group_class _ _ _)
                (fun m H => proj2 (match_header_classes _ m H))) as Hservice.
  cbv zeta in Hplace, Hservice.
  match goal with
  | |- (if truthy ?a && truthy ?b then _ else _) = _ -> _ =>
      generalize dependent a; generalize dependent b
  end.
  intros service Hservice place Hplace.
  destruct (truthy place && truthy service); [|discriminate].
  intros H; inversion H; subst.
  destruct Hplace as [Hp|(p & Hp & Hpc)]; [discriminate|].
  destruct Hservice as [Hs|(s & Hs & Hsc)]; [discriminate|].
  inversion Hp; inversion Hs; subst. auto.
Qed.

Lemma extract_ids_from_curl_character_classes_witness :
  all_in Re.hex_dash_class "ABC-123" = true /\
  all_in Re.digit_class "456" = true.
Proof.
  apply (extract_ids_from_curl_character_classes
           "curl https://api.recollect.net/api/places/ABC-123/services/456/events").
  reflexivity.
Defined.

(* ================================================================= *)
(** ** Reading the paste *)

Lemma read_paste_to_blank (lines rest acc : list string) (b : string) :
  (forall l, In l lines -> Re.strip l <> EmptyString) ->
  Re.strip b = EmptyString ->
  read_paste (lines ++ b :: rest) acc = (Return (acc ++ lines), rest).
Proof.
  intros Hlines Hb. revert acc.
  induction lines as [|l lines IH]; intros acc; cbn [app read_paste].
  - rewrite Hb, app_nil_r. reflexivity.
  - assert (Hl : truthy (VStr (Re.strip l)) = true).
    { apply truthy_VStr, Hlines. left. reflexivity. }
    rewrite Hl. cbn [negb]. rewrite IH, <- app_assoc; [reflexivity|].
    intros l' Hin. apply Hlines. right. exact Hin.
Qed.

Lemma read_paste_no_blank (lines acc : list string) :
  (forall l, In l lines -> Re.strip l <> EmptyString) ->
  read_paste lines acc = (Raise EOFError, []).
Proof.
  revert acc. induction lines as [|l lines IH]; intros acc Hlines;
    cbn [read_paste]; [reflexivity|].
  assert (Hl : truthy (VStr (Re.strip l)) = true).
  { apply truthy_VStr, Hlines. left. reflexivity. }
  rewrite Hl. cbn [negb]. apply IH.
  intros l' Hin. apply Hlines. right. exact Hin.
Qed.

(** X11.  The helper's input loop returns the lines before the first line
    that is empty or all white space; that line is consumed, and the
    lines after it stay on standard input. *)
Theorem input_until_blank_stops_at_first_blank (w : world)
  (lines rest : list string) (b : string) :
  stdin w = lines ++ b :: rest ->
  (forall l, In l lines -> Re.strip l <> EmptyString) ->
  Re.strip b = EmptyString ->
  input_until_blank w = (Return lines, set_stdin w rest).
Proof.
  intros Hin Hlines Hb. unfold input_until_blank.
  rewrite Hin, (read_paste_to_blank lines rest [] b Hlines Hb). reflexivity.
Qed.

Lemma input_until_blank_stops_at_first_blank_witness :
  let w := world_at sunday ["curl x"; "  -H y"; "   "; "later"] Absent no_network in
  input_until_blank w = (Return ["curl x"; "  -H y"], set_stdin w ["later"]).
Proof.
  cbv zeta.
  apply (input_until_blank_stops_at_first_blank _ ["curl x"; "  -H y"] ["later"] "   ").
  - reflexivity.
  - intros l [<-|[<-|[]]]; vm_compute; discriminate.
  - reflexivity.
Defined.

(** X12.  When standard input ends before any blank line, the helper's
    [input()] raises [EOFError], which nothing catches: the run exits
    with status 1 after the three lines of the prompt, having left the
    configuration file alone and sent nothing. *)
Theorem unterminated_paste_exits_1 (args : Args.t) (w : world) :
  Args.config_help args = false -> Args.extract_ids args = true ->
  (forall l, In l (stdin w) -> Re.strip l <> EmptyString) ->
  run args w = (1, set_stdout (set_stdin w []) (stdout w ++ prompt_lines)).
Proof.
  intros Hh He Hlines. unfold run.
  rewrite (main_extract_ids args w Hh He).
  rewrite (extract_ids_raised w EOFError []
             (read_paste_no_blank (stdin w) [] Hlines)).
  reflexivity.
Qed.

Lemma unterminated_paste_exits_1_witness :
  let w := world_at sunday ["curl https://api.recollect.net/api/places/A/services/1"]
             Absent no_network in
  run (Args.mk false true false) w
  = (1, set_stdout (set_stdin w []) (stdout w ++ prompt_lines)).
Proof.
  cbv zeta. apply unterminated_paste_exits_1; try reflexivity.
  intros l [<-|[]]. vm_compute. discriminate.
Defined.

(* ================================================================= *)
(** ** Extraction and the configuration file *)

(** X13.  When the identifiers were extracted but the configuration file
    cannot be read as JSON, or holds a JSON value that is not an
    object, the update fails: the helper prints the extracted
    identifiers and then the error, leaves the file as it was, and the
    run exits with status 0. *)
Theorem extraction_reports_unusable_file (args : Args.t) (w : world)
  (lines rest : list string) (place_id service_id : string) :
  Args.config_help args = false -> Args.extract_ids args = true ->
  read_paste (stdin w) [] = (Return lines, rest) ->
  extract_ids_from_curl (String.concat " " lines)
  = (VStr place_id, VStr service_id) ->
  config_file w = Unparsable \/
  (exists c, config_file w = Holds c /\ forall d, c <> VDict d) ->
  exists e,
    (e = ValueError \/ e = TypeError) /\
    run args w =
    (0, set_stdout (set_stdin w rest)
          (stdout w ++ prompt_lines ++
           [ [Lit (nl ++ "Extracted IDs:")%string];
             [Lit "place_id: "; Fmt (VStr place_id)];
             [Lit "service_id: "; Fmt (VStr service_id)];
             [Lit "Error updating config file: "; Exc e] ])).
Proof.
  intros Hh He Hread Hpair Hfile. unfold run.
  rewrite (main_extract_ids args w Hh He).
  destruct (extract_ids_from_curl_shape (String.concat " " lines))
    as [Hnone|(p & s & Hps & Hp & Hs)]; [congruence|].
  rewrite Hpair in Hps. inversion Hps; subst p s.
  apply truthy_VStr in Hp, Hs.
  destruct w as [cl ti si cf ne so se].
  cbn [stdin config_file stdout] in *.
  unfold extract_ids, bind, print, input_until_blank.
  cbn [stdin stdout set_stdout]. rewrite Hread, Hpair, Hp, Hs. cbn [andb].
  destruct Hfile as [->|(c & -> & Hc)].
  - exists ValueError. split; [left; reflexivity|].
    cbv -[app]. rewrite <- !app_assoc. reflexivity.
  - exists TypeError. split; [right; reflexivity|].
    destruct c; try (exfalso; eapply Hc; reflexivity);
      cbv -[app]; rewrite <- !app_assoc; reflexivity.
Qed.

Lemma extraction_reports_unusable_file_witness :
  let w := world_at sunday
             (paste ["curl https://api.recollect.net/api/places/ABC-123/services/456/events"])
             (Holds (VList [])) no_network in
  exists e,
    (e = ValueError \/ e = TypeError) /\
    run (Args.mk false true false) w =
    (0, set_stdout (set_stdin w [])
          (stdout w ++ prompt_lines ++
           [ [Lit (nl ++ "Extracted IDs:")%string];
             [Lit "place_id: "; Fmt (VStr "ABC-123")];
             [Lit "service_id: "; Fmt (VStr "456")];
             [Lit "Error updating config file: "; Exc e] ])).
Proof.
  cbv zeta.
  apply (extraction_reports_unusable_file _ _
           ["curl https://api.recollect.net/api/places/ABC-123/services/456/events"]).
  - reflexivity.
  - reflexivity.
  - reflexivity.
  - reflexivity.
  - right. eexists. split; [reflexivity|]. discriminate.
Defined.

Lemma dig_set_item_same (key : string) (v : value)
  (d : list (string * value)) (path : list string) :
  dig (VDict (set_item key v d)) (key :: path) = dig v path.
Proof. cbn [dig]. rewrite lookup_set_item_same. reflexivity. Qed.

Lemma dig_set_item_other (key k : string) (v : value)
  (d : list (string * value)) (path : list string) :
  k <> key ->
  dig (VDict (set_item key v d)) (k :: path) = dig (VDict d) (k :: path).
Proof. intros H. cbn [dig]. rewrite lookup_set_item_other by exact H. reflexivity. Qed.

(** X14.  Extraction completes a configuration: when the file holds an object
    of the documented shape in which a backend is enabled and no
    enabled backend misses a credential, then after a successful
    extraction [load_config] accepts the file, whatever its [recollect]
    entry was before, and the identifiers it returns are the extracted
    ones. *)
Theorem extraction_completes_configuration (w : world)
  (lines rest : list string) (place_id service_id : string)
  (d : list (string * value)) :
  read_paste (stdin w) [] = (Return lines, rest) ->
  extract_ids_from_curl (String.concat " " lines)
  = (VStr place_id, VStr service_id) ->
  config_file w = Holds (VDict d) ->
  well_shaped (VDict d) = true ->
  no_backend_enabled (VDict d) || credentials_missing (VDict d) = false ->
  exists c,
    load_config (snd (extract_ids w)) = (Return c, snd (extract_ids w)) /\
    dig c ["recollect"; "place_id"] = Some (VStr place_id) /\
    dig c ["recollect"; "service_id"] = Some (VStr service_id).
Proof.
  intros Hread Hpair Hfile Hshape Hok.
  destruct (extract_ids_found w lines rest place_id service_id Hread Hpair)
    as (out & H).
  destruct (extract_ids_from_curl_shape (String.concat " " lines))
    as [Hnone|(p & s & Hps & Hp & Hs)]; [congruence|].
  rewrite Hpair in Hps. inversion Hps; subst p s.
  apply truthy_VStr in Hp, Hs.
  rewrite H, Hfile. cbn [snd updated].
  set (c := VDict (set_item "recollect" (ids_record place_id service_id) d)).
  assert (Hrec : forall path, dig c ("recollect" :: path)
                              = dig (ids_record place_id service_id) path).
  { intros path. apply dig_set_item_same. }
  assert (Hnot : forall path, dig c ("notifications" :: path)
                              = dig (VDict d) ("notifications" :: path)).
  { intros path. apply dig_set_item_other. discriminate. }
  exists c. split; [|split].
  - apply load_config_accepted; [reflexivity|].
    apply complete_configuration_accepted.
    + subst c. cbn [well_shaped] in *.
      rewrite lookup_set_item_same, lookup_set_item_other by discriminate.
      apply andb_true_iff in Hshape. destruct Hshape as [_ Hshape].
      exact Hshape.
    + unfold ids_missing, no_backend_enabled, credentials_missing,
        backend_enabled in *.
      rewrite !Hrec, !Hnot, <- orb_assoc, Hok, orb_false_r.
      cbn [dig ids_record lookup String.eqb Ascii.eqb Bool.eqb blank].
      rewrite Hp, Hs. reflexivity.
  - rewrite Hrec. reflexivity.
  - rewrite Hrec. reflexivity.
Qed.

Lemma extraction_completes_configuration_witness :
  let w := world_at sunday
             (paste ["curl https://api.recollect.net/api/places/ABC-123/services/456/events"])
             (Holds (VDict [("notifications",
                             VDict [("ntfy", VDict [("enabled", VBool true);
                                                    ("topic", VStr "bins")])])]))
             no_network in
  exists c,
    load_config (snd (extract_ids w)) = (Return c, snd (extract_ids w)) /\
    dig c ["recollect"; "place_id"] = Some (VStr "ABC-123") /\
    dig c ["recollect"; "service_id"] = Some (VStr "456").
Proof.
  cbv zeta.
  apply (extraction_completes_configuration _
           ["curl https://api.recollect.net/api/places/ABC-123/services/456/events"]
           [] "ABC-123" "456"
           [("notifications",
             VDict [("ntfy", VDict [("enabled", VBool true);
                                    ("topic", VStr "bins")])])]); reflexivity.
Defined.

Lemma load_config_created (w : world) (place_id service_id : string) :
  truthy (VStr place_id) = true -> truthy (VStr service_id) = true ->
  config_file w =
  Holds (VDict [ ("recollect", ids_record place_id service_id);
                 ("notifications", default_notifications) ]) ->
  load_config w =
  (Raise (SystemExit 1),
   set_stdout w
     (stdout w ++
      [ [Lit "No notification methods are enabled in the configuration"];
        [Lit "Please enable at least one notification method."] ])).
Proof.
  intros Hp Hs Hfile.
  unfold load_config, bind, path_exists, try_except, json_load, lift.
  rewrite Hfile. cbn [negb]. rewrite Hfile.
  unfold get2, not_or_not, ids_record.
  cbn [py_get get_or lookup String.eqb Ascii.eqb Bool.eqb bindO].
  rewrite Hp, Hs. cbn [negb].
  cbv -[app]. rewrite <- !app_assoc. reflexivity.
Qed.

(** X15.  The file the helper creates when there was none has no backend
    enabled: the next run in normal mode stops in [load_config] with
    status 1 and the two lines that say so, without reading the clock
    or sending a request. *)
Theorem created_configuration_needs_a_backend (args : Args.t) (w : world)
  (lines rest : list string) (place_id service_id : string) :
  normal_mode args ->
  read_paste (stdin w) [] = (Return lines, rest) ->
  extract_ids_from_curl (String.concat " " lines)
  = (VStr place_id, VStr service_id) ->
  config_file w = Absent ->
  let w' := snd (extract_ids w) in
  run args w' =
  (1, set_stdout w'
        (stdout w' ++
         [ [Lit "No notification methods are enabled in the configuration"];
           [Lit "Please enable at least one notification method."] ])).
Proof.
  intros Hn Hread Hpair Hfile w'.
  destruct (extract_ids_found w lines rest place_id service_id Hread Hpair)
    as (out & H).
  destruct (extract_ids_from_curl_shape (String.concat " " lines))
    as [Hnone|(p & s & Hps & Hp & Hs)]; [congruence|].
  rewrite Hpair in Hps. inversion Hps; subst p s.
  apply truthy_VStr in Hp, Hs.
  assert (Hfile' : config_file w' =
                   Holds (VDict [ ("recollect", ids_record place_id service_id);
                                  ("notifications", default_notifications) ])).
  { subst w'. rewrite H, Hfile. reflexivity. }
  clearbody w'. unfold run.
  rewrite (main_rejected args w' _ Hn
             (load_config_created w' place_id service_id Hp Hs Hfile')).
  reflexivity.
Qed.

Lemma created_configuration_needs_a_backend_witness :
  let w := world_at sunday
             (paste ["curl https://api.recollect.net/api/places/ABC-123/services/456/events"])
             Absent no_network in
  let w' := snd (extract_ids w) in
  run forced w' =
  (1, set_stdout w'
        (stdout w' ++
         [ [Lit "No notification methods are enabled in the configuration"];
           [Lit "Please enable at least one notification method."] ])).
Proof.
  cbv zeta.
  apply (created_configuration_needs_a_backend forced _
           ["curl https://api.recollect.net/api/places/ABC-123/services/456/events"]
           [] "ABC-123" "456"); try reflexivity.
  vm_compute. auto.
Defined.

(* ================================================================= *)
(** ** The warning of a run that delivered nothing *)

Lemma send_pushover_lines (types : list string) (c : value) (w : world)
  (pe : value) :
  get3 c "notifications" "pushover" "enabled" (VBool false) = Return pe ->
  exists token user out,
    let request := pushover_request token user (message_for types) in
    send_pushover_notification (map VStr types) c w =
    (Return (truthy pe && negb (failed (network w request))),
     set_stdout
       (set_sent w (sent w ++ if truthy pe then [request] else []))
       (stdout w ++ out)) /\
    ~ In warning_line out.
Proof.
  intros Hget. destruct (truthy pe) eqn:Hen.
  - apply get3_inv in Hget. destruct Hget as (pc & Hpc & Hflag).
    unfold send_pushover_notification, bind, lift.
    rewrite Hpc, Hflag, Hen, compose_message_strings. cbn [negb andb].
    unfold try_except, bind, lift, requests_send, raise_for_status, print, ret,
      raise. cbn [py_get]. unfold pushover_request. cbv zeta.
    exists (get_or "api_token" VNone pc), (get_or "user_key" VNone pc).
    match goal with
    | |- context [network w ?r] => destruct (network w r) as [|status content]
    end; cbn [is_RequestException fst failed negb].
    + eexists; split; [reflexivity|]. intros [H|[]]; discriminate H.
    + fold (http_error status). destruct (http_error status);
        cbn [is_RequestException negb]; eexists;
        (split; [reflexivity|]); intros [H|[]]; discriminate H.
  - exists VNone, VNone, []. cbv zeta. cbn [andb].
    rewrite (send_pushover_disabled _ _ _ _ Hget Hen), world_eta.
    split; [reflexivity|]. intros [].
Qed.

Lemma send_ntfy_lines (types : list string) (c : value) (w : world)
  (ne : value) :
  get3 c "notifications" "ntfy" "enabled" (VBool false) = Return ne ->
  exists topic out,
    let request := ntfy_request topic (message_for types) in
    send_ntfy_notification (map VStr types) c w =
    (Return (truthy ne && negb (failed (network w request))),
     set_stdout
       (set_sent w (sent w ++ if truthy ne then [request] else []))
       (stdout w ++ out)) /\
    ~ In warning_line out.
Proof.
  intros Hget. destruct (truthy ne) eqn:Hen.
  - apply get3_inv in Hget. destruct Hget as (pc & Hpc & Hflag).
    unfold send_ntfy_notification, bind, lift.
    rewrite Hpc, Hflag, Hen, compose_message_strings. cbn [negb andb].
    unfold try_except, bind, lift, requests_send, raise_for_status, print, ret,
      raise. cbn [py_get]. unfold ntfy_request. cbv zeta.
    exists (get_or "topic" VNone pc).
    match goal with
    | |- context [network w ?r] => destruct (network w r) as [|status content]
    end; cbn [is_RequestException fst failed negb].
    + eexists; split; [reflexivity|]. intros [H|[]]; discriminate H.
    + fold (http_error status). destruct (http_error status);
        cbn [is_RequestException negb]; eexists;
        (split; [reflexivity|]); intros [H|[]]; discriminate H.
  - exists VNone, []. cbv zeta. cbn [andb].
    rewrite (send_ntfy_disabled _ _ _ _ Hget Hen), world_eta.
    split; [reflexivity|]. intros [].
Qed.

(** The lines of the fetch: none, or the one that reports its error. *)
Lemma get_collection_data_lines (c : value) (w : world) :
  (exists d r, c = VDict d /\ get_or "recollect" (VDict []) d = VDict r) ->
  exists request out,
    method request = GET /\
    get_collection_data c w =
    (Return (fetched (network w request)),
     set_stdout
       (set_sent (set_ticks w (S (S (ticks w)))) (sent w ++ [request]))
       (stdout w ++ out)) /\
    ~ In warning_line out.
Proof.
  intros (d & r & -> & Hr).
  unfold get_collection_data, bind, lift, datetime_now. cbn [py_get].
  rewrite Hr. cbn [py_get].
  unfold try_except, bind, requests_send.
  cbn [network set_ticks sent clock ticks stdin config_file stdout set_sent].
  match goal with
  | |- context [network w ?r0] =>
      exists r0; destruct (network w r0) as [|status content] eqn:Hreply
  end.
  - eexists. split; [reflexivity|]. split; [reflexivity|].
    intros [H|[]]; discriminate H.
  - unfold raise_for_status, fetched. cbn [fst snd]. fold (http_error status).
    destruct (http_error status) eqn:Herr.
    + eexists. split; [reflexivity|]. split; [reflexivity|].
      intros [H|[]]; discriminate H.
    + destruct content as [data|].
      * exists []. split; [reflexivity|]. split; [|intros []].
        unfold ret, response_json. cbn [snd set_stdout set_sent stdout].
        rewrite app_nil_r. reflexivity.
      * eexists. split; [reflexivity|]. split; [reflexivity|].
        intros [H|[]]; discriminate H.
Qed.

Lemma not_in_app {A} (x : A) (a b : list A) :
  ~ In x a -> ~ In x b -> ~ In x (a ++ b).
Proof. intros Ha Hb H. apply in_app_or in H. tauto. Qed.

Lemma delivered_posts (net : request -> reply) (fetch : request)
  (pe ne : bool) (token user topic : value) (message : string) :
  method fetch = GET ->
  delivered net
    (fetch :: (if pe then [pushover_request token user message] else []) ++
              (if ne then [ntfy_request topic message] else []))
  = (pe && negb (failed (net (pushover_request token user message)))) ||
    (ne && negb (failed (net (ntfy_request topic message)))).
Proof.
  intros Hm. unfold delivered. cbn [existsb]. rewrite Hm.
  destruct pe, ne; cbn [app existsb method pushover_request ntfy_request
                        orb andb];
    rewrite ?orb_false_r; reflexivity.
Qed.

Lemma main_forced_lines (w : world) (c data : value) (events : list value) :
  config_file w = Holds c -> accepted c ->
  (forall r, method r = GET -> fetched (network w r) = data) ->
  wf_payload data events ->
  exists new out w',
    main forced w = (Return tt, w') /\
    sent w' = sent w ++ new /\
    stdout w' =
    stdout w ++ out ++
    (if delivered (network w) new then [] else [warning_line]) /\
    ~ In warning_line out.
Proof.
  intros Hfile Hacc Hnet Hwf.
  destruct (get_collection_data_lines c w (accepted_recollect c Hacc))
    as (fetch & out0 & Hm & Hget & Hout0).
  assert (Htruthy : truthy data = true).
  { destruct Hwf as (d & -> & Hev & _). exact (lookup_some_truthy _ _ _ Hev). }
  pose proof Hacc as (_ & pe & ne & Hpe & Hne & _).
  unfold main, bind. cbn [forced Args.force Args.config_help Args.extract_ids].
  rewrite (load_config_accepted _ _ Hfile Hacc), validate_accepted by auto.
  cbn [negb]. unfold ret. rewrite Hget, (Hnet _ Hm), Htruthy. cbn [negb].
  rewrite (get_tomorrow_collections_wf _ _ _ Hwf).
  set (types := distinct _).
  match goal with
  | |- context [send_pushover_notification _ _ ?w1] =>
      destruct (send_pushover_lines types c w1 pe Hpe)
        as (token & user & out1 & Hsend1 & Hout1)
  end.
  cbv zeta in Hsend1. rewrite Hsend1.
  match goal with
  | |- context [send_ntfy_notification _ _ ?w2] =>
      destruct (send_ntfy_lines types c w2 ne Hne)
        as (topic & out2 & Hsend2 & Hout2)
  end.
  cbv zeta in Hsend2. rewrite Hsend2.
  cbn [network set_ticks set_stdout set_sent] in *.
  exists (fetch :: (if truthy pe
                    then [pushover_request token user (message_for types)]
                    else []) ++
                   (if truthy ne
                    then [ntfy_request topic (message_for types)] else [])).
  exists (out0 ++ out1 ++ out2).
  rewrite (delivered_posts _ _ _ _ _ _ _ _ Hm).
  destruct (_ || _); cbn [negb orb]; unfold print; eexists;
    (split; [reflexivity|]);
    cbn [sent stdout set_stdout set_sent set_ticks];
    rewrite <- ?app_assoc; cbn [app]; rewrite ?app_nil_r;
    (split; [reflexivity|]); (split; [reflexivity|]);
    auto using not_in_app.
Qed.

(** X16.  A run that fetched a payload of the expected shape prints the
    warning that no notification was sent exactly when none of the
    requests it posted succeeded; the warning is then the last line it
    prints, and it still exits with status 0. *)
Theorem warning_exactly_when_nothing_delivered (args : Args.t) (w : world)
  (c data : value) (events : list value) :
  normal_mode args ->
  fst (load_config w) = Return c ->
  gate_open args w ->
  (forall r, method r = GET -> fetched (network w r) = data) ->
  wf_payload data events ->
  fst (run args w) = 0 /\
  exists new out,
    sent (snd (run args w)) = sent w ++ new /\
    stdout (snd (run args w)) =
    stdout w ++ out ++
    (if delivered (network w) new then [] else [warning_line]) /\
    ~ In warning_line out.
Proof.
  intros Hn Hload Hgate Hnet Hwf.
  destruct (load_config_valid _ _ Hload) as [Hfile Hacc].
  destruct (main_gate_open args w c Hn Hfile Hacc Hgate) as (n & Hmain & _).
  destruct (main_forced_lines (set_ticks w n) c data events)
    as (new & out & w' & Hrun & Hsent & Hlines & Hout); auto.
  unfold run. rewrite Hmain, Hrun. cbn [fst snd exit_status].
  split; [reflexivity|]. exists new, out. auto.
Qed.

Lemma warning_exactly_when_nothing_delivered_witness :
  let w := world_at sunday [] (Holds (example_config true true))
             (calendar_network 200 example_payload (Response 500 None)) in
  fst (run forced w) = 0 /\
  exists new out,
    sent (snd (run forced w)) = sent w ++ new /\
    stdout (snd (run forced w)) =
    stdout w ++ out ++
    (if delivered (network w) new then [] else [warning_line]) /\
    ~ In warning_line out.
Proof.
  cbv zeta.
  apply (warning_exactly_when_nothing_delivered forced _
           (example_config true true) example_payload
           [event "2024-01-08" [flag "Garbage"; flag "Recycling"; flag "Garbage"]]).
  - vm_compute. auto.
  - reflexivity.
  - left. reflexivity.
  - intros r Hr. cbn. unfold calendar_network. rewrite Hr. reflexivity.
  - vm_compute. eexists. repeat split.
Defined.

(* ================================================================= *)
(** ** What a run does with the body it fetched *)

(** A forced run with an accepted configuration that fetched a true
    value continues with the filter and the two dispatchers. *)
Lemma main_forced_fetched (w : world) (c data : value) :
  config_file w = Holds c -> accepted c ->
  (forall r, method r = GET -> fetched (network w r) = data) ->
  truthy data = true ->
  exists fetch out,
    method fetch = GET /\ is_calendar_url (url fetch) = true /\
    main forced w =
    (tomorrow_collections <- get_tomorrow_collections data ;;
     pushover_success <- send_pushover_notification tomorrow_collections c ;;
     ntfy_success <- send_ntfy_notification tomorrow_collections c ;;
     if negb (false || pushover_success || ntfy_success) then
       print [Lit "Warning: No notifications were sent successfully"]
     else ret tt)
      (set_stdout
         (set_sent (set_ticks w (S (S (ticks w)))) (sent w ++ [fetch]))
         (stdout w ++ out)).
Proof.
  intros Hfile Hacc Hnet Htruthy.
  destruct (get_collection_data_spec c w (accepted_recollect c Hacc))
    as (fetch & out & Hm & Hu & Hget & _).
  exists fetch, out. split; [exact Hm|]. split; [exact Hu|].
  unfold main. cbn [forced Args.force Args.config_help Args.extract_ids].
  unfold bind at 1. rewrite (load_config_accepted _ _ Hfile Hacc).
  unfold bind at 1. rewrite validate_accepted by auto. cbn [negb].
  unfold bind at 1. unfold ret at 1.
  unfold bind at 1. rewrite Hget, (Hnet _ Hm), Htruthy. reflexivity.
Qed.

(** X17.  A fetch that brings nothing usable ends the run: on a transport
    error, an HTTP error status, a body that is not JSON, or a JSON
    body that is a false value (an empty object or list, [null], zero),
    the run sends its one GET and nothing else, prints that it failed
    to retrieve the collection data as its last line, and exits with
    status 0. *)
Theorem run_without_data_stops_after_fetch (args : Args.t) (w : world)
  (c : value) :
  normal_mode args ->
  fst (load_config w) = Return c ->
  gate_open args w ->
  (forall r, method r = GET -> truthy (fetched (network w r)) = false) ->
  fst (run args w) = 0 /\
  exists fetch out,
    method fetch = GET /\ is_calendar_url (url fetch) = true /\
    sent (snd (run args w)) = sent w ++ [fetch] /\
    stdout (snd (run args w)) =
    stdout w ++ out ++ [[Lit "Failed to retrieve collection data"]].
Proof.
  intros Hn Hload Hgate Hnet.
  destruct (load_config_valid _ _ Hload) as [Hfile Hacc].
  destruct (main_gate_open args w c Hn Hfile Hacc Hgate) as (n & Hmain & _).
  destruct (main_forced_no_data (set_ticks w n) c)
    as (fetch & out & Hm & Hu & Hrun); auto.
  unfold run. rewrite Hmain, Hrun. cbn [fst snd exit_status].
  split; [reflexivity|]. exists fetch, out. auto.
Qed.

Lemma run_without_data_stops_after_fetch_witness :
  let w := world_at sunday [] (Holds (example_config true true))
             (calendar_network 200 (VDict []) (Response 200 None)) in
  fst (run forced w) = 0 /\
  exists fetch out,
    method fetch = GET /\ is_calendar_url (url fetch) = true /\
    sent (snd (run forced w)) = sent w ++ [fetch] /\
    stdout (snd (run forced w)) =
    stdout w ++ out ++ [[Lit "Failed to retrieve collection data"]].
Proof.
  cbv zeta.
  apply (run_without_data_stops_after_fetch forced _ (example_config true true)).
  - vm_compute. auto.
  - reflexivity.
  - left. reflexivity.
  - intros r Hr. cbn. unfold calendar_network. rewrite Hr. reflexivity.
Defined.

(** X18.  A body that is [true] or a number other than zero passes the test
    for data, and then [in] fails on it: the run ends on an uncaught
    [TypeError], with status 1, after its one GET and before any
    notification. *)
Theorem scalar_payload_exits_1 (args : Args.t) (w : world) (c data : value) :
  normal_mode args ->
  fst (load_config w) = Return c ->
  gate_open args w ->
  (forall r, method r = GET -> fetched (network w r) = data) ->
  data = VBool true \/ (exists n, n <> 0 /\ data = VInt n) ->
  fst (run args w) = 1 /\
  exists fetch,
    method fetch = GET /\ sent (snd (run args w)) = sent w ++ [fetch].
Proof.
  intros Hn Hload Hgate Hnet Hdata.
  destruct (load_config_valid _ _ Hload) as [Hfile Hacc].
  destruct (main_gate_open args w c Hn Hfile Hacc Hgate) as (n & Hmain & _).
  assert (Htruthy : truthy data = true).
  { destruct Hdata as [->|(k & Hk & ->)]; [reflexivity|]. cbn.
    apply negb_true_iff, Z.eqb_neq. exact Hk. }
  destruct (main_forced_fetched (set_ticks w n) c data)
    as (fetch & out & Hm & _ & Hrun); auto.
  assert (Hraise : forall w1, get_tomorrow_collections data w1
                               = (Raise TypeError, w1)).
  { intros w1. unfold get_tomorrow_collections, bind, lift, ret.
    rewrite Htruthy. cbn [negb].
    destruct Hdata as [->|(k & _ & ->)]; reflexivity. }
  unfold run. rewrite Hmain, Hrun.
  unfold bind. rewrite Hraise.
  cbn [fst snd exit_status sent set_stdout set_sent set_ticks].
  split; [reflexivity|]. exists fetch. auto.
Qed.

Lemma scalar_payload_exits_1_witness :
  let w := world_at sunday [] (Holds (example_config true true))
             (calendar_network 200 (VBool true) (Response 200 None)) in
  fst (run forced w) = 1 /\
  exists fetch,
    method fetch = GET /\ sent (snd (run forced w)) = sent w ++ [fetch].
Proof.
  cbv zeta.
  apply (scalar_payload_exits_1 forced _ (example_config true true) (VBool true)).
  - vm_compute. auto.
  - reflexivity.
  - left. reflexivity.
  - intros r Hr. cbn. unfold calendar_network. rewrite Hr. reflexivity.
  - left. reflexivity.
Defined.

(** X19.  A body that is an object without [events] (an error report, say)
    is read as a day without collection: every enabled dispatcher
    sends that no waste collection is scheduled for tomorrow, and the
    run exits with status 0. *)
Theorem payload_without_events_announces_no_collection (args : Args.t)
  (w : world) (c : value) (d : list (string * value)) (pe ne : value) :
  normal_mode args ->
  fst (load_config w) = Return c ->
  get3 c "notifications" "pushover" "enabled" (VBool false) = Return pe ->
  get3 c "notifications" "ntfy" "enabled" (VBool false) = Return ne ->
  gate_open args w ->
  (forall r, method r = GET -> fetched (network w r) = VDict d) ->
  d <> [] -> lookup "events" d = None ->
  fst (run args w) = 0 /\
  exists fetch token user topic,
    method fetch = GET /\
    let message := "No waste collection scheduled for tomorrow." in
    sent (snd (run args w)) =
    sent w ++ fetch ::
      (if truthy pe then [pushover_request token user message] else []) ++
      (if truthy ne then [ntfy_request topic message] else []).
Proof.
  intros Hn Hload Hpe Hne Hgate Hnet Hd Hev.
  destruct (load_config_valid _ _ Hload) as [Hfile Hacc].
  destruct (main_gate_open args w c Hn Hfile Hacc Hgate) as (n & Hmain & _).
  assert (Htruthy : truthy (VDict d) = true).
  { destruct d; [congruence|reflexivity]. }
  destruct (main_forced_fetched (set_ticks w n) c (VDict d))
    as (fetch & out & Hm & _ & Hrun); auto.
  assert (Hnone : forall w1, get_tomorrow_collections (VDict d) w1
                              = (Return [], w1)).
  { intros w1. unfold get_tomorrow_collections, bind, lift, ret.
    rewrite Htruthy. cbn [negb py_contains]. rewrite Hev. reflexivity. }
  unfold run. rewrite Hmain, Hrun.
  unfold bind. rewrite Hnone.
  match goal with
  | |- context [send_pushover_notification _ _ ?w1] =>
      destruct (send_pushover_any [] c w1 pe Hpe)
        as (token & user & ok1 & out1 & Hsend1)
  end.
  cbn [map] in Hsend1. rewrite Hsend1.
  match goal with
  | |- context [send_ntfy_notification _ _ ?w2] =>
      destruct (send_ntfy_any [] c w2 ne Hne)
        as (topic & ok2 & out2 & Hsend2)
  end.
  cbn [map] in Hsend2. rewrite Hsend2.
  destruct ok1, ok2; cbn [negb orb]; unfold print, ret;
    cbn [fst snd exit_status]; (split; [reflexivity|]);
    exists fetch, token, user, topic; (split; [exact Hm|]);
    cbv zeta; cbn [sent set_stdout set_sent set_ticks message_for];
    rewrite <- !app_assoc; reflexivity.
Qed.

Lemma payload_without_events_announces_no_collection_witness :
  let w := world_at sunday [] (Holds (example_config true false))
             (calendar_network 200 (VDict [("error", VStr "unknown place")])
                (Response 200 None)) in
  fst (run forced w) = 0 /\
  exists fetch token user topic,
    method fetch = GET /\
    let message := "No waste collection scheduled for tomorrow." in
    sent (snd (run forced w)) =
    sent w ++ fetch ::
      (if truthy (VBool true) then [pushover_request token user message] else []) ++
      (if truthy (VBool false) then [ntfy_request topic message] else []).
Proof.
  cbv zeta.
  apply (payload_without_events_announces_no_collection forced _
           (example_config true false) [("error", VStr "unknown place")]).
  - vm_compute. auto.
  - reflexivity.
  - reflexivity.
  - reflexivity.
  - left. reflexivity.
  - intros r Hr. cbn. unfold calendar_network. rewrite Hr. reflexivity.
  - discriminate.
  - reflexivity.
Defined.

(** X20.  End to end, under a clock that does not move during the run: a run
    that fetched a payload of the expected shape sends, through every
    enabled dispatcher, the message made of the distinct non-empty
    subjects of the events dated the day after the run, in their order
    of first appearance. *)
Theorem run_announces_tomorrow (args : Args.t) (w : world) (c data : value)
  (events : list value) (pe ne : value) (now : datetime) :
  normal_mode args ->
  fst (load_config w) = Return c ->
  get3 c "notifications" "pushover" "enabled" (VBool false) = Return pe ->
  get3 c "notifications" "ntfy" "enabled" (VBool false) = Return ne ->
  gate_open args w ->
  (forall t, clock w t = now) ->
  (forall r, method r = GET -> fetched (network w r) = data) ->
  wf_payload data events ->
  exists fetch token user topic,
    method fetch = GET /\
    let message :=
      message_for
        (distinct (filter nonempty
           (subjects_on (strftime_Ymd (add_days now 1)) events))) in
    sent (snd (run args w)) =
    sent w ++ fetch ::
      (if truthy pe then [pushover_request token user message] else []) ++
      (if truthy ne then [ntfy_request topic message] else []).
Proof.
  intros Hn Hload Hpe Hne Hgate Hclock Hnet Hwf.
  destruct (load_config_valid _ _ Hload) as [Hfile Hacc].
  destruct (main_gate_open args w c Hn Hfile Hacc Hgate) as (n & Hmain & _).
  destruct (main_forced_delivers (set_ticks w n) c data events pe ne)
    as (fetch & token & user & topic & w' & Hm & _ & Hrun & Hsent); auto.
  exists fetch, token, user, topic. split; [exact Hm|].
  unfold run. rewrite Hmain, Hrun. cbn [snd].
  cbv zeta in Hsent. unfold tomorrow_of in Hsent.
  cbn [clock ticks set_ticks sent] in Hsent. rewrite Hclock in Hsent.
  exact Hsent.
Qed.

Lemma run_announces_tomorrow_witness :
  let w := world_at sunday [] (Holds (example_config true true))
             (calendar_network 200 example_payload (Response 200 None)) in
  exists fetch token user topic,
    method fetch = GET /\
    let message :=
      message_for
        (distinct (filter nonempty
           (subjects_on (strftime_Ymd (add_days sunday 1))
              [event "2024-01-08"
                 [flag "Garbage"; flag "Recycling"; flag "Garbage"]]))) in
    sent (snd (run forced w)) =
    sent w ++ fetch ::
      (if truthy (VBool true) then [pushover_request token user message] else []) ++
      (if truthy (VBool true) then [ntfy_request topic message] else []).
Proof.
  cbv zeta.
  apply (run_announces_tomorrow forced _ (example_config true true)
           example_payload).
  - vm_compute. auto.
  - reflexivity.
  - reflexivity.
  - reflexivity.
  - left. reflexivity.
  - intros t. reflexivity.
  - intros r Hr. cbn. unfold calendar_network. rewrite Hr. reflexivity.
  - vm_compute. eexists. repeat split.
Defined.

(* ================================================================= *)
(** ** Types that are not strings *)

Lemma strings_of_non_string (types : list value) (x : value) :
  In x types -> (forall s, x <> VStr s) -> strings_of types = Raise TypeError.
Proof.
  intros Hin Hx. induction types as [|y types IH]; [destruct Hin|].
  destruct Hin as [->|Hin].
  - destruct x; try reflexivity. exfalso. eapply Hx. reflexivity.
  - destruct y; try reflexivity. cbn [strings_of]. rewrite (IH Hin).
    reflexivity.
Qed.

(** X21.  [join] accepts strings only, and the message is composed before
    the [try]: an enabled dispatcher that is given a list holding
    anything but strings (a subject that is a number or an object)
    raises [TypeError], having sent and printed nothing. *)
Theorem dispatchers_raise_on_non_string_type (types : list value)
  (x c : value) (w : world) (enabled : value) :
  In x types -> (forall s, x <> VStr s) ->
  truthy enabled = true ->
  (get3 c "notifications" "pushover" "enabled" (VBool false) = Return enabled ->
   send_pushover_notification types c w = (Raise TypeError, w)) /\
  (get3 c "notifications" "ntfy" "enabled" (VBool false) = Return enabled ->
   send_ntfy_notification types c w = (Raise TypeError, w)).
Proof.
  intros Hin Hx Hen.
  assert (Hmsg : compose_message types = Raise TypeError).
  { unfold compose_message, py_join.
    rewrite (strings_of_non_string types x Hin Hx).
    destruct types; [destruct Hin|reflexivity]. }
  split; intros Hget; apply get3_inv in Hget;
    destruct Hget as (pc & Hpc & Hflag).
  - unfold send_pushover_notification, bind, lift.
    rewrite Hpc, Hflag, Hen, Hmsg. reflexivity.
  - unfold send_ntfy_notification, bind, lift.
    rewrite Hpc, Hflag, Hen, Hmsg. reflexivity.
Qed.

Lemma dispatchers_raise_on_non_string_type_witness :
  let w := world_at sunday [] Absent no_network in
  send_pushover_notification [VStr "Garbage"; VInt 7]
    (example_config true true) w = (Raise TypeError, w) /\
  send_ntfy_notification [VStr "Garbage"; VInt 7]
    (example_config true true) w = (Raise TypeError, w).
Proof.
  cbv zeta.
  destruct (dispatchers_raise_on_non_string_type
              [VStr "Garbage"; VInt 7] (VInt 7) (example_config true true)
              (world_at sunday [] Absent no_network) (VBool true))
    as [Hpushover Hntfy].
  - right. left. reflexivity.
  - discriminate.
  - reflexivity.
  - split; [apply Hpushover|apply Hntfy]; reflexivity.
Defined.
